(** * skeleton-metronic: the provisioning scripts and the generated TypeScript

    The repository is a scaffolding kit.  Three shell scripts run under
    [set -e] and write files behind existence tests:
    - the themed DevContainer [setup.sh] ([setup_metronic]),
    - the plain Next.js [setup.sh] ([setup_plain]),
    - [quick-setup.sh] ([quick_setup]), which also carries a third copy of
      [setup.sh] in a here-document ([setup_embedded]).
    Three TypeScript fragments are generated by them: [prisma/seed.ts],
    [src/lib/prisma.ts] and the health route.

    Modelling boundary.  A file system is a finite map from paths to file
    contents together with a set of directories.  A redirection into a
    directory fails when that directory does not exist, and [set -e] then
    ends the script; this matters because the scripts write
    prisma/schema.prisma before their own [mkdir -p prisma].  Beyond that
    the working tree is taken to be writable and free of name clashes (no
    regular file where a script wants a directory, no directory where it
    wants a file), so [mkdir -p] succeeds and [mv] of an existing file
    succeeds; [echo] and [sleep] always return 0.  The bodies of the
    here-documents are kept abstract ([heredoc]): no property below depends
    on their text.  External programs (npm, npx, psql, curl) are oracles:
    they return an exit status and may change the file system. *)

From stdpp Require Import base strings gmap list.
From Stdlib Require Import ZArith String Ascii List Lia.
Import ListNotations.

Local Open Scope string_scope.
Local Open Scope Z_scope.

(* ===================================================================== *)
(** ** grep -q with a literal pattern                                     *)
(* ===================================================================== *)

Module Grep.

Definition newline : ascii := ascii_of_nat 10.

(** The lines of a file: a newline ends a line, and a last line without a
    newline still counts. *)
Fixpoint lines (s : string) : list string :=
  match s with
  | EmptyString => []
  | String c s' =>
      if Ascii.eqb c newline then EmptyString :: lines s'
      else match lines s' with
           | [] => [String c EmptyString]
           | l :: ls => String c l :: ls
           end
  end.

(** [contains pat s]: [pat] occurs in [s] at some position. *)
Fixpoint contains (pat s : string) : bool :=
  String.prefix pat s ||
  match s with
  | EmptyString => false
  | String _ s' => contains pat s'
  end.

(** The characters that a basic regular expression does not read as
    themselves, and the patterns free of them that do not look like an
    option either: such a pattern stands for itself. *)
Definition backslash : ascii := ascii_of_nat 92.

Definition special (c : ascii) : bool :=
  existsb (Ascii.eqb c) (backslash :: list_ascii_of_string ".[]*^$").

Definition ordinary (pat : string) : bool :=
  match pat with
  | EmptyString => false
  | String c _ =>
      negb (Ascii.eqb c "-"%char)
      && forallb (fun x => negb (special x)) (list_ascii_of_string pat)
  end.

(** [grep -q pat file] on the content of an existing file, for an
    [ordinary] pattern: status 0 exactly when some line matches, and a line
    matches when the pattern occurs in it.  The three patterns of the
    scripts ([@prisma/client], [db:seed], [prisma/migrations]) are ordinary;
    for a pattern with regular-expression operators grep does something
    else, which the scripts never ask for and this function does not
    give. *)
Definition grep (pat content : string) : bool :=
  existsb (contains pat) (lines content).

(** No newline in a pattern. *)
Fixpoint one_line (pat : string) : bool :=
  match pat with
  | EmptyString => true
  | String c pat' => negb (Ascii.eqb c newline) && one_line pat'
  end.

End Grep.

(* ===================================================================== *)
(** ** Shell: file system, events, the [set -e] monad                    *)
(* ===================================================================== *)

Module Shell.

(** The here-documents of the three scripts. *)
Inductive template :=
  | TDevcontainerJson | TDockerCompose | TDockerfile | TSetupSh
  | TGitattributes | TEnvExampleMetronic | TReadmeFallback
  | TEnvMetronic | TEnvPlain | TEnvExamplePlain
  | TSchema | TSeedMetronic | TSeedPlain
  | TPackageJson | TNextConfig | TTsconfig | TTailwind | TPostcss
  | TPrismaTs | TRouteTs | TRoutePlain | TLayout | TPage | TGlobalsCss | TGitignore.

(** External programs run as simple commands, hence under [set -e]. *)
Inductive tool :=
  | NpmInstall                         (* npm install *)
  | NpmInstallPrismaClient             (* npm install @prisma/client *)
  | NpmInstallDevPrismaTsx             (* npm install -D prisma tsx *)
  | PrismaInit                         (* npx prisma init *)
  | NpmPkgSet (key value : string)     (* npm pkg set scripts.KEY=VALUE *)
  | PrismaGenerate                     (* npx prisma generate *)
  | PrismaDbPush                       (* npx prisma db push *)
  | NpmRunDbSeed.                      (* npm run db:seed *)

Inductive event :=
  | Echo (line : string)
  | Sleep (seconds : nat)
  | Probe (accepted : bool)            (* one psql connection attempt *)
  | Run (t : tool) (status : Z)
  | Write (path : string) (t : template)   (* cat > path << 'EOF' *)
  | Refused (path : string)                (* > path: no such directory *)
  | Append (path : string) (line : string) (* echo line >> path *)
  | Mkdir (path : string)
  | Move (src dst : string)
  | Fetch (url : string) (path : string) (status : Z). (* curl -s url > path *)

Record state := State {
  files : gmap string string;
  dirs : gset string;
  log : list event
}.

(** What the outside world answers.  [psql k] tells whether connection
    attempt [k] (counted from 0) is accepted.  [exec t st] is the exit status
    of tool [t] started in state [st] (its files and directories, and what
    happened so far), with the files and directories it leaves.  [curl url]
    is the exit status of curl and what it wrote to its output. *)
Record world := World {
  psql : nat -> bool;
  exec : tool -> state -> Z * (gmap string string * gset string);
  curl : string -> Z * string
}.

Inductive outcome (A : Type) :=
  | Next (a : A)
  | Abort (status : Z)        (* set -e: a simple command returned non-zero *)
  | Waiting.                  (* the poll loop has not yet seen the database *)
Arguments Next {A} a.
Arguments Abort {A} status.
Arguments Waiting {A}.

Definition sh (A : Type) : Type := state -> outcome A * state.

#[export] Instance sh_ret : MRet sh := fun A a s => (Next a, s).
#[export] Instance sh_bind : MBind sh := fun A B f m s =>
  match m s with
  | (Next a, s') => f a s'
  | (Abort c, s') => (Abort c, s')
  | (Waiting, s') => (Waiting, s')
  end.

Definition emit (e : event) (s : state) : state :=
  State (files s) (dirs s) (log s ++ [e]).

(** The exit status of the process once the script has run. *)
Definition exit_status (o : outcome unit) : option Z :=
  match o with
  | Next _ => Some 0
  | Abort c => Some c
  | Waiting => None
  end.

Definition nl : string := String (ascii_of_nat 10) EmptyString.

(** [mkdir -p a/b/c] creates [a], [a/b] and [a/b/c].  (It would fail if one
    of them were a regular file: such trees are outside the model.) *)
Fixpoint dir_chain (acc rest : string) : list string :=
  match rest with
  | EmptyString => [acc]
  | String c rest' =>
      if Ascii.eqb c "/"%char
      then acc :: dir_chain (acc ++ "/") rest'
      else dir_chain (acc ++ String c EmptyString) rest'
  end.

(** The directory a path lies in: what precedes its last [/].  A path
    without [/] lies in the working directory. *)
Fixpoint parent (path : string) : option string :=
  match path with
  | EmptyString => None
  | String c rest =>
      match parent rest with
      | Some d => Some (String c d)
      | None => if Ascii.eqb c "/"%char then Some EmptyString else None
      end
  end.

Definition echo (line : string) : sh unit :=
  fun s => (Next tt, emit (Echo line) s).

Definition sleep (seconds : nat) : sh unit :=
  fun s => (Next tt, emit (Sleep seconds) s).

Definition mkdir_p (path : string) : sh unit :=
  fun s => (Next tt,
            State (files s) (dirs s ∪ list_to_set (dir_chain "" path))
                  (log s ++ [Mkdir path])).

(** [mv src dst] of a regular file. *)
Definition mv (src dst : string) : sh unit :=
  fun s => match files s !! src with
           | Some c => (Next tt,
                        State (<[dst := c]> (delete src (files s))) (dirs s)
                              (log s ++ [Move src dst]))
           | None => (Abort 1, emit (Move src dst) s)
           end.

(** [echo line >> path]: creates the file when it is absent. *)
Definition append_line (line path : string) : sh unit :=
  fun s => (Next tt,
            State (<[path := default "" (files s !! path) ++ line ++ nl]> (files s))
                  (dirs s) (log s ++ [Append path line])).

(** The tests of the scripts read the state and change nothing. *)
Definition cond : Type := state -> bool.

(** [[ -f path ]] and [[ -d path ]]. *)
Definition test_f (path : string) : cond :=
  fun s => bool_decide (is_Some (files s !! path)).

Definition test_d (path : string) : cond :=
  fun s => bool_decide (path ∈ dirs s).

(** Whether a redirection [> path] can open its file: the directory of
    [path] has to exist. *)
Definition writable (path : string) : cond :=
  fun s => match parent path with
           | Some d => test_d d s
           | None => true
           end.

(** [grep -q pat path]: status 2 (hence false) when the file is missing. *)
Definition grep_q (pat path : string) : cond :=
  fun s => match files s !! path with
           | Some content => Grep.grep pat content
           | None => false
           end.

Definition not_ (c : cond) : cond := fun s => negb (c s).

(** [if c; then body; fi] and [if c; then body; else other; fi].  The status
    of [c] only selects the branch: [set -e] does not apply to it. *)
Definition if_then (c : cond) (body : sh unit) : sh unit :=
  fun s => if c s then body s else (Next tt, s).

Definition if_then_else (c : cond) (body other : sh unit) : sh unit :=
  fun s => if c s then body s else other s.

Fixpoint echo_all (ls : list string) : sh unit :=
  match ls with
  | [] => mret tt
  | l :: ls' => echo l;; echo_all ls'
  end.

Section Scripts.

Variable heredoc : template -> string.
Variable w : world.

(** [cat > path << 'EOF'].  When the redirection cannot open [path] the
    shell reports it, [cat] is not run, the command has status 1 and
    [set -e] ends the script. *)
Definition cat_to (path : string) (t : template) : sh unit :=
  fun s => if writable path s
           then (Next tt,
                 State (<[path := heredoc t]> (files s)) (dirs s)
                       (log s ++ [Write path t]))
           else (Abort 1, emit (Refused path) s).

(** A simple command running an external program: under [set -e] a
    non-zero status ends the script with that status. *)
Definition run (t : tool) : sh unit :=
  fun s => let '(c, (f, d)) := exec w t s in
           let s' := State f d (log s ++ [Run t c]) in
           if c =? 0 then (Next tt, s') else (Abort c, s').

(** [curl -s url > path 2>/dev/null] as the left side of [||]: the
    redirection creates or truncates [path], curl fills it, and the status
    only decides whether the right side runs. *)
Definition curl_to (url path : string) : sh bool :=
  fun s => let '(c, body) := curl w url in
           (Next (c =? 0),
            State (<[path := body]> (files s)) (dirs s)
                  (log s ++ [Fetch url path c])).

Definition or_else (c : sh bool) (other : sh unit) : sh unit :=
  c ≫= λ ok : bool, if ok then mret tt else other.

(** [until psql ...; do echo ...; sleep 2; done].  The loop has no bound of
    its own; [fuel] bounds how many attempts are observed, [attempt] counts
    the connection attempts made so far. *)
Definition unavailable : string := "   PostgreSQL is unavailable - sleeping".

Fixpoint until_psql (fuel attempt : nat) : sh unit :=
  match fuel with
  | O => fun s => (Waiting, s)
  | S fuel' =>
      fun s =>
        if psql w attempt then (Next tt, emit (Probe true) s)
        else (echo unavailable;; sleep 2;; until_psql fuel' (S attempt))
               (emit (Probe false) s)
  end.

(** *** The stages shared by the three [setup.sh] *)

(** Wait for PostgreSQL to be ready. *)
Definition wait_for_postgres (fuel : nat) : sh unit :=
  echo "⏳ Waiting for PostgreSQL to be ready...";;
  until_psql fuel 0;;
  echo "✅ PostgreSQL is ready!".

(** Create .env file if it doesn't exist. *)
Definition create_env (msg : string) (t : template) : sh unit :=
  if_then (not_ (test_f ".env")) (echo msg;; cat_to ".env" t).

(** Install Prisma if not already in dependencies (themed scripts only). *)
Definition install_prisma : sh unit :=
  if_then (not_ (grep_q "@prisma/client" "package.json"))
    (echo "📦 Installing Prisma...";;
     run NpmInstallPrismaClient;;
     run NpmInstallDevPrismaTsx).

(** Add seed script to package.json if not present (themed scripts only). *)
Definition add_db_scripts : sh unit :=
  if_then (not_ (grep_q "db:seed" "package.json"))
    (echo "📝 Adding database scripts to package.json...";;
     run (NpmPkgSet "db:generate" "prisma generate");;
     run (NpmPkgSet "db:push" "prisma db push");;
     run (NpmPkgSet "db:migrate" "prisma migrate dev");;
     run (NpmPkgSet "db:seed" "tsx prisma/seed.ts");;
     run (NpmPkgSet "db:studio" "prisma studio")).

(** Initialize Prisma if schema doesn't exist.  [seed] is the seed
    here-document of the variant and [scripts] its alias step. *)
Definition initialize_prisma (seed : template) (scripts : sh unit) : sh unit :=
  if_then (not_ (test_f "prisma/schema.prisma"))
    (echo "🔧 Initializing Prisma...";;
     run PrismaInit;;
     cat_to "prisma/schema.prisma" TSchema;;
     mkdir_p "prisma";;
     cat_to "prisma/seed.ts" seed;;
     scripts;;
     run PrismaGenerate;;
     run PrismaDbPush;;
     run NpmRunDbSeed).

Definition closing_metronic : list string :=
  [ ""; "🎉 Setup complete!"; "";
    "🌐 Your application is ready at:";
    "   - Metronic App: http://localhost:3000";
    "   - pgAdmin: http://localhost:5050";
    "   - API Health: http://localhost:3000/api/health";
    "";
    "📊 pgAdmin credentials:";
    "   - Email: admin@admin.com";
    "   - Password: admin";
    "";
    "🗄️ Database connection (for pgAdmin):";
    "   - Host: db";
    "   - Port: 5432";
    "   - Database: nextjs_db";
    "   - Username: nextjs_user";
    "   - Password: nextjs_password";
    "";
    "🚀 To start development:";
    "   npm run dev";
    "";
    "📦 Database commands:";
    "   - npm run db:studio     # Open Prisma Studio";
    "   - npm run db:migrate    # Run migrations";
    "   - npm run db:seed       # Seed database";
    "" ].

(** *** The themed [setup.sh] *)

Definition setup_metronic (fuel : nat) : sh unit :=
  echo "🚀 Starting Metronic Next.js DevContainer setup...";;
  wait_for_postgres fuel;;
  if_then (test_f "package.json")
    (echo "📦 Installing npm dependencies...";; run NpmInstall);;
  create_env "🔐 Creating .env file..." TEnvMetronic;;
  install_prisma;;
  initialize_prisma TSeedMetronic add_db_scripts;;
  if_then (not_ (test_f "src/lib/prisma.ts"))
    (mkdir_p "src/lib";; cat_to "src/lib/prisma.ts" TPrismaTs);;
  if_then (not_ (test_f "src/app/api/health/route.ts"))
    (mkdir_p "src/app/api/health";;
     cat_to "src/app/api/health/route.ts" TRouteTs);;
  echo_all closing_metronic.

(** *** The copy of [setup.sh] that quick-setup.sh installs

    It is the themed script with the paths of the two scaffold files chosen
    from the directories present. *)

Definition lib_dir : state -> string :=
  fun s => if test_d "src" s then "src/lib" else "lib".

Definition api_dir : state -> string :=
  fun s => if test_d "src/app" s then "src/app/api/health"
           else if test_d "app" s then "app/api/health"
           else "src/app/api/health".

(** A shell variable assigned from tests on the current state. *)
Definition with_var (v : state -> string) (k : string -> sh unit) : sh unit :=
  fun s => k (v s) s.

Definition setup_embedded (fuel : nat) : sh unit :=
  echo "🚀 Starting Metronic Next.js DevContainer setup...";;
  wait_for_postgres fuel;;
  if_then (test_f "package.json")
    (echo "📦 Installing npm dependencies...";; run NpmInstall);;
  create_env "🔐 Creating .env file..." TEnvMetronic;;
  install_prisma;;
  initialize_prisma TSeedMetronic add_db_scripts;;
  with_var lib_dir (fun LIB_DIR =>
    if_then (not_ (test_f (LIB_DIR ++ "/prisma.ts")))
      (mkdir_p LIB_DIR;; cat_to (LIB_DIR ++ "/prisma.ts") TPrismaTs));;
  with_var api_dir (fun API_DIR =>
    if_then (not_ (test_f (API_DIR ++ "/route.ts")))
      (mkdir_p API_DIR;; cat_to (API_DIR ++ "/route.ts") TRouteTs));;
  echo_all closing_metronic.

(** *** The plain [setup.sh] *)

Definition closing_plain : list string :=
  [ ""; "🎉 Setup complete!"; "";
    "📍 Your application is ready at:";
    "   - Next.js App: http://localhost:3000";
    "   - pgAdmin: http://localhost:5050";
    "   - API Health: http://localhost:3000/api/health";
    "";
    "📊 pgAdmin credentials:";
    "   - Email: admin@admin.com";
    "   - Password: admin";
    "";
    "🗄️  Database connection (for pgAdmin):";
    "   - Host: db";
    "   - Port: 5432";
    "   - Database: nextjs_db";
    "   - Username: nextjs_user";
    "   - Password: nextjs_password";
    "";
    "🚀 To start development:";
    "   npm run dev";
    "";
    "📦 Useful commands:";
    "   - npm run db:studio     # Open Prisma Studio";
    "   - npm run db:migrate    # Run migrations";
    "   - npm run db:seed       # Seed database";
    "" ].

(** [if [ ! -f path ]; then cat > path << 'EOF' ... fi]. *)
Definition create_if_absent (path : string) (t : template) : sh unit :=
  if_then (not_ (test_f path)) (cat_to path t).

Definition setup_plain (fuel : nat) : sh unit :=
  echo "🚀 Starting Next.js DevContainer setup...";;
  wait_for_postgres fuel;;
  if_then_else (test_f "package.json")
    (echo "📦 Installing npm dependencies...";; run NpmInstall)
    (echo "📦 Initializing Next.js project...";;
     cat_to "package.json" TPackageJson;;
     run NpmInstall);;
  create_env "📝 Creating .env file..." TEnvPlain;;
  create_if_absent ".env.example" TEnvExamplePlain;;
  initialize_prisma TSeedPlain (mret tt);;
  create_if_absent "next.config.ts" TNextConfig;;
  create_if_absent "tsconfig.json" TTsconfig;;
  create_if_absent "tailwind.config.ts" TTailwind;;
  create_if_absent "postcss.config.js" TPostcss;;
  mkdir_p "src/app/api/health";;
  mkdir_p "src/components/ui";;
  mkdir_p "src/lib";;
  mkdir_p "src/types";;
  create_if_absent "src/lib/prisma.ts" TPrismaTs;;
  create_if_absent "src/app/api/health/route.ts" TRoutePlain;;
  create_if_absent "src/app/layout.tsx" TLayout;;
  create_if_absent "src/app/page.tsx" TPage;;
  create_if_absent "src/app/globals.css" TGlobalsCss;;
  create_if_absent ".gitignore" TGitignore;;
  echo_all closing_plain.

(** *** quick-setup.sh *)

Definition readme_url : string :=
  "https://raw.githubusercontent.com/tildemark/skeleton-metronic/main/README.md".

Definition closing_quick : list string :=
  [ "";
    "✅ DevContainer setup complete!";
    "";
    "📁 Created files:";
    "   - .devcontainer/devcontainer.json";
    "   - .devcontainer/docker-compose.yml";
    "   - .devcontainer/Dockerfile";
    "   - .devcontainer/setup.sh";
    "   - .gitattributes";
    "";
    "🚀 Next steps:";
    "   1. Open this folder in VS Code";
    "   2. Press Ctrl+Shift+P (or Cmd+Shift+P on Mac)";
    "   3. Select 'Dev Containers: Reopen in Container'";
    "   4. Wait for setup to complete";
    "   5. Run 'npm run dev'";
    "" ].

(** Update .gitignore to include Prisma. *)
Definition update_gitignore : sh unit :=
  if_then (test_f ".gitignore")
    (if_then (not_ (grep_q "prisma/migrations" ".gitignore"))
       (append_line "" ".gitignore";;
        append_line "# Prisma" ".gitignore";;
        append_line "prisma/migrations/**/migration.sql" ".gitignore")).

Definition quick_setup : sh unit :=
  echo "🚀 Setting up DevContainer for Metronic Next.js...";;
  mkdir_p ".devcontainer";;
  cat_to ".devcontainer/devcontainer.json" TDevcontainerJson;;
  cat_to ".devcontainer/docker-compose.yml" TDockerCompose;;
  cat_to ".devcontainer/Dockerfile" TDockerfile;;
  cat_to ".devcontainer/setup.sh" TSetupSh;;
  cat_to ".gitattributes" TGitattributes;;
  update_gitignore;;
  create_if_absent ".env.example" TEnvExampleMetronic;;
  if_then (test_f "README.md")
    (mv "README.md" "README.metronic.backup.md";;
     echo "📄 Backed up existing README.md to README.metronic.backup.md");;
  echo "📝 Creating README.md...";;
  or_else (curl_to readme_url "README.md") (cat_to "README.md" TReadmeFallback);;
  echo_all closing_quick.

(** The three [setup.sh] under one name. *)
Inductive variant := Metronic | Embedded | Plain.

Definition setup (v : variant) (fuel : nat) : sh unit :=
  match v with
  | Metronic => setup_metronic fuel
  | Embedded => setup_embedded fuel
  | Plain => setup_plain fuel
  end.

End Scripts.

End Shell.

(* ===================================================================== *)
(** ** prisma/seed.ts                                                     *)
(* ===================================================================== *)

Module Seed.

Record post := Post { title : string; content : string; published : bool }.
Record user_data := UserData { email : string; name : string; posts : list post }.

(** The record created by the themed seed script and by the plain one. *)
Definition metronic_data : user_data :=
  UserData "admin@metronic.com" "Admin User"
    [ Post "Welcome to Metronic"
           "This is your first post in the Metronic dashboard!" true ].

Definition plain_data : user_data :=
  UserData "user@example.com" "Test User"
    [ Post "First Post" "This is my first post!" true;
      Post "Draft Post" "This is a draft post." false ].

Definition error : Type := string.

Inductive effect :=
  | ConsoleLog (msg : string)
  | ConsoleError (msg : string) (e : error)
  | UserCreate (data : user_data)
  | Disconnect                           (* prisma.$disconnect() *)
  | ProcessExit (code : Z).              (* process.exit(code) *)

(** How a piece of the script ends: it returns, it throws (an async
    function rejects its promise), or the process is gone. *)
Inductive completion (A : Type) :=
  | Return (a : A)
  | Throw (e : error)
  | Exited (code : Z).
Arguments Return {A} a.
Arguments Throw {A} e.
Arguments Exited {A} code.

Definition node (A : Type) : Type := list effect -> completion A * list effect.

#[export] Instance node_ret : MRet node := fun A a t => (Return a, t).
#[export] Instance node_bind : MBind node := fun A B f m t =>
  match m t with
  | (Return a, t') => f a t'
  | (Throw e, t') => (Throw e, t')
  | (Exited c, t') => (Exited c, t')
  end.

Definition console_log (msg : string) : node unit :=
  fun t => (Return tt, (t ++ [ConsoleLog msg])%list).

Definition console_error (msg : string) (e : error) : node unit :=
  fun t => (Return tt, (t ++ [ConsoleError msg e])%list).

(** [process.exit(code)] ends the process synchronously: nothing after it
    runs, neither the rest of the handler nor a callback still queued. *)
Definition process_exit {A} (code : Z) : node A :=
  fun t => (Exited code, (t ++ [ProcessExit code])%list).

(** [await prisma.$disconnect()]: the call is made, and its promise is
    fulfilled or, with [Some e], rejected. *)
Definition disconnect (release : option error) : node unit :=
  fun t => match release with
           | None => (Return tt, (t ++ [Disconnect])%list)
           | Some e => (Throw e, (t ++ [Disconnect])%list)
           end.

(** [p.catch(h)]: [h] runs when [p] rejects. *)
Definition catch {A} (p : node A) (h : error -> node A) : node A :=
  fun t => match p t with
           | (Throw e, t') => h e t'
           | r => r
           end.

(** [p.finally(f)]: [f] runs once [p] has settled, and the settlement of
    [p] is passed on unless [f] itself fails. *)
Definition finally {A} (p : node A) (f : node unit) : node A :=
  fun t => match p t with
           | (Exited c, t') => (Exited c, t')
           | (r, t') =>
               match f t' with
               | (Return _, t'') => (r, t'')
               | (Throw e, t'') => (Throw e, t'')
               | (Exited c, t'') => (Exited c, t'')
               end
           end.

Section Script.

(** The insertion either succeeds or fails with an error, and so does the
    release of the connection. *)
Variable create : user_data -> option error.
Variable data : user_data.
Variable release : option error.

Definition user_create : node unit :=
  fun t => match create data with
           | None => (Return tt, (t ++ [UserCreate data])%list)
           | Some e => (Throw e, (t ++ [UserCreate data])%list)
           end.

Definition main : node unit :=
  console_log "🌱 Starting database seed...";;
  user_create;;
  console_log "✅ Created user with posts:".

(** [main().catch(...).finally(...)]. *)
Definition seed_ts : node unit :=
  finally
    (catch main (fun e => console_error "❌ Seed failed:" e;; process_exit 1))
    (disconnect release).

(** The exit code of the process and what it did: 0 when the chain is
    fulfilled, 1 for a rejection nobody handles, the argument of
    [process.exit] otherwise. *)
Definition run_seed : Z * list effect :=
  match seed_ts [] with
  | (Return _, t) => (0, t)
  | (Throw _, t) => (1, t)
  | (Exited c, t) => (c, t)
  end.

End Script.

End Seed.

(* ===================================================================== *)
(** ** src/app/api/health/route.ts                                        *)
(* ===================================================================== *)

Module HealthRoute.

(** What a [catch (error)] clause can receive. *)
Inductive thrown :=
  | ErrorObject (message : string)     (* error instanceof Error *)
  | OtherValue.

Record response := Response { status : Z; body : list (string * string) }.

(** [NextResponse.json(body, init)]: the status is 200 unless [init]
    gives one. *)
Definition NextResponse_json (body : list (string * string)) (init : option Z)
  : response :=
  Response (default 200 init) body.

Section Handler.

(** [new Date().toISOString()] at clock value [now]. *)
Variable toISOString : Z -> string.

(** [query] is the outcome of [await prisma.$queryRaw`SELECT 1`]: [None]
    when it resolves, [Some e] when it throws [e]. *)
Definition GET (query : option thrown) (now : Z) : response :=
  match query with
  | None =>
      NextResponse_json
        [ ("status", "ok");
          ("timestamp", toISOString now);
          ("database", "connected") ]
        None
  | Some error =>
      NextResponse_json
        [ ("status", "error");
          ("timestamp", toISOString now);
          ("database", "disconnected");
          ("error", match error with
                    | ErrorObject message => message
                    | OtherValue => "Unknown error"
                    end) ]
        (Some 503)
  end.

End Handler.

(** The value of a field of a JSON body. *)
Fixpoint field (key : string) (body : list (string * string)) : option string :=
  match body with
  | [] => None
  | (k, v) :: rest => if String.eqb k key then Some v else field key rest
  end.

End HealthRoute.

(* ===================================================================== *)
(** ** src/lib/prisma.ts                                                  *)
(* ===================================================================== *)

Module PrismaTs.

(** A client is identified by the order in which it was constructed. *)
Definition client : Type := nat.

Record runtime := Runtime {
  globalForPrisma : option client;   (* globalThis.prisma *)
  constructed : nat                  (* calls of new PrismaClient() so far *)
}.

Definition fresh : runtime := Runtime None 0.

Definition new_PrismaClient (r : runtime) : client * runtime :=
  (constructed r, Runtime (globalForPrisma r) (S (constructed r))).

Definition is_production (NODE_ENV : option string) : bool :=
  match NODE_ENV with
  | Some v => String.eqb v "production"
  | None => false
  end.

(** One evaluation of the module: the exported [prisma] and the runtime it
    leaves. *)
Definition prisma (NODE_ENV : option string) (r : runtime) : client * runtime :=
  let '(p, r1) :=
    match globalForPrisma r with
    | Some c => (c, r)
    | None => new_PrismaClient r
    end in
  if negb (is_production NODE_ENV)
  then (p, Runtime (Some p) (constructed r1))
  else (p, r1).

(** [n] evaluations in a row (hot reloads), oldest first. *)
Fixpoint evaluations (NODE_ENV : option string) (n : nat) (r : runtime)
  : list client * runtime :=
  match n with
  | O => ([], r)
  | S n' =>
      let '(p, r1) := prisma NODE_ENV r in
      let '(ps, r2) := evaluations NODE_ENV n' r1 in
      (p :: ps, r2)
  end.

End PrismaTs.

(* ===================================================================== *)
(** ** What is observed of a run, and the triples used to reason about it *)
(* ===================================================================== *)

Local Open Scope list_scope.

Module Observe.
Import Shell.

(** The events of [n] failed connection attempts. *)
Fixpoint polls (n : nat) : list event :=
  match n with
  | O => []
  | S n' => [Probe false; Echo unavailable; Sleep 2] ++ polls n'
  end.

Definition is_unavailable (e : event) : bool :=
  match e with
  | Echo line => String.eqb line unavailable
  | _ => false
  end.

(** How many times the diagnostic of the poll loop was printed, and for how
    many seconds the script slept. *)
Definition unavailable_count (l : list event) : nat :=
  length (filter is_unavailable l).

Fixpoint slept (l : list event) : nat :=
  match l with
  | [] => 0
  | Sleep n :: l' => n + slept l'
  | _ :: l' => slept l'
  end.

(** The file [p] has content [c]. *)
Definition holds (p c : string) : state -> Prop :=
  fun s => files s !! p = Some c.

(** No external program changes the file [p] when its content is [c]. *)
Definition tools_keep (w : world) (p c : string) : Prop :=
  forall t s, files s !! p = Some c -> fst (snd (exec w t s)) !! p = Some c.

(** No external program removes the file [p]. *)
Definition tools_keep_present (w : world) (p : string) : Prop :=
  forall t s, is_Some (files s !! p) -> is_Some (fst (snd (exec w t s)) !! p).

(** The three lines that quick-setup.sh appends to .gitignore. *)
Definition prisma_entry : string :=
  (nl ++ "# Prisma" ++ nl ++ "prisma/migrations/**/migration.sql" ++ nl)%string.

(** The files that quick-setup.sh writes without testing for them, with the
    here-document each one receives. *)
Definition quick_unconditional : list (string * template) :=
  [ (".devcontainer/devcontainer.json", TDevcontainerJson);
    (".devcontainer/docker-compose.yml", TDockerCompose);
    (".devcontainer/Dockerfile", TDockerfile);
    (".devcontainer/setup.sh", TSetupSh);
    (".gitattributes", TGitattributes) ].

(** The other files quick-setup.sh can write: .gitignore is appended to,
    README.md is replaced and its old content moved to the backup. *)
Definition quick_written : list string :=
  map fst quick_unconditional
  ++ [".gitignore"; "README.md"; "README.metronic.backup.md"].

(** What the update of .gitignore makes of the file. *)
Definition updated_gitignore (g : option string) : option string :=
  match g with
  | None => None
  | Some c =>
      if Grep.grep "prisma/migrations" c then Some c
      else Some (c ++ prisma_entry)%string
  end.

(** The status of a command that failed as a step of the script: an
    external program that returned non-zero, or a here-document whose
    redirection was refused (status 1). *)
Definition failure (e : event) : option Z :=
  match e with
  | Run _ c => if c =? 0 then None else Some c
  | Refused _ => Some 1
  | _ => None
  end.

(** No command failed. *)
Definition all_ok (l : list event) : Prop :=
  forall e, In e l -> failure e = None.

(** The last thing that happened is the command of [e] failing with status
    [c], and no command before it failed: it is the first command that
    failed and nothing ran after it. *)
Definition stopped_at (e : event) (c : Z) (l : list event) : Prop :=
  failure e = Some c /\ exists before, l = before ++ [e] /\ all_ok before.

(** No external program makes the directory [d]. *)
Definition tools_never_make (w : world) (d : string) : Prop :=
  forall t s, d ∉ dirs s -> d ∉ snd (snd (exec w t s)).

(** [npx prisma init] leaves a directory prisma. *)
Definition init_makes_prisma (w : world) : Prop :=
  forall s, "prisma" ∈ snd (snd (exec w PrismaInit s)).

Definition is_seed_run (e : event) : bool :=
  match e with
  | Run NpmRunDbSeed _ => true
  | _ => false
  end.

Definition is_push_run (e : event) : bool :=
  match e with
  | Run PrismaDbPush _ => true
  | _ => false
  end.

(** [npm install @prisma/client] and [npm install -D prisma tsx]. *)
Definition is_prisma_install (e : event) : bool :=
  match e with
  | Run NpmInstallPrismaClient _ | Run NpmInstallDevPrismaTsx _ => true
  | _ => false
  end.

(** The steps of the schema and seed stage. *)
Definition is_schema_step (e : event) : bool :=
  match e with
  | Run PrismaInit _ | Run (NpmPkgSet _ _) _ | Run PrismaGenerate _
  | Run PrismaDbPush _ | Run NpmRunDbSeed _ => true
  | Write path _ =>
      String.eqb path "prisma/schema.prisma" || String.eqb path "prisma/seed.ts"
  | _ => false
  end.

(** The five aliases, registered with [npm pkg set]. *)
Definition alias_runs : list event :=
  [ Run (NpmPkgSet "db:generate" "prisma generate") 0;
    Run (NpmPkgSet "db:push" "prisma db push") 0;
    Run (NpmPkgSet "db:migrate" "prisma migrate dev") 0;
    Run (NpmPkgSet "db:seed" "tsx prisma/seed.ts") 0;
    Run (NpmPkgSet "db:studio" "prisma studio") 0 ].

Definition seed_template (v : variant) : template :=
  match v with
  | Plain => TSeedPlain
  | _ => TSeedMetronic
  end.

(** The steps of the stage when all of them succeed, in order. *)
Definition schema_steps (seed : template) (aliases : list event) : list event :=
  [ Run PrismaInit 0;
    Write "prisma/schema.prisma" TSchema;
    Write "prisma/seed.ts" seed ]
  ++ aliases
  ++ [ Run PrismaGenerate 0; Run PrismaDbPush 0; Run NpmRunDbSeed 0 ].

(** The alias step of a variant, given whether the manifest already has a
    [db:seed] entry: the plain script has no such step. *)
Definition aliases_of (v : variant) (has_db_seed : bool) : list event :=
  match v with
  | Plain => []
  | _ => if has_db_seed then [] else alias_runs
  end.

(** The seed has run at most once, and if it has run the schema descriptor
    exists. *)
Definition seeded_once (s : state) : Prop :=
  filter is_seed_run (log s) = []
  \/ (is_Some (files s !! "prisma/schema.prisma")
      /\ length (filter is_seed_run (log s)) = 1%nat).

(** One run of a [setup.sh]: the texts of its here-documents, the outside
    world it meets, which of the three scripts it is, and how many
    connection attempts are observed. *)
Record invocation := Invocation {
  texts : template -> string;
  outside : world;
  script : variant;
  attempts : nat
}.

(** Runs one after the other in the same tree, each started in whatever
    state the one before it ended. *)
Fixpoint reruns (rs : list invocation) (s : state) : state :=
  match rs with
  | [] => s
  | r :: rs' =>
      reruns rs' (snd (setup (texts r) (outside r) (script r) (attempts r) s))
  end.

(** Every external program succeeds. *)
Definition tools_succeed (w : world) : Prop :=
  forall t s, fst (exec w t s) = 0.

(** The external programs that run before the alias step, and those that
    run before the stage. *)
Definition installs : list tool :=
  [NpmInstall; NpmInstallPrismaClient; NpmInstallDevPrismaTsx].

Definition early_tools : list tool := PrismaInit :: installs.

(** None of the programs that run before the alias step changes the
    outcome of the test [c]. *)
Definition early_tools_keep_test (w : world) (c : cond) : Prop :=
  forall t s past,
    In t early_tools ->
    c (State (fst (snd (exec w t s))) (snd (snd (exec w t s))) past) = c s.

(** The package installations do not create the file [p]. *)
Definition installs_keep_absent (w : world) (p : string) : Prop :=
  forall t s,
    In t installs ->
    files s !! p = None -> fst (snd (exec w t s)) !! p = None.

(** [J] holds and the steps of the stage seen so far are [l], after the
    steps [L] of what ran before. *)
Definition seen (J : state -> Prop) (L l : list event) : state -> Prop :=
  fun s => J s /\ filter is_schema_step (log s) = L ++ l.

(** [npm install] leaves the manifest [m] as it is. *)
Definition install_keeps_manifest (w : world) (m : string) : Prop :=
  forall s, files s !! "package.json" = Some m ->
    fst (snd (exec w NpmInstall s)) !! "package.json" = Some m.

Definition install_succeeds (w : world) : Prop :=
  forall s, fst (exec w NpmInstall s) = 0.

(** [npm install @prisma/client] was run, and [npm install -D prisma tsx]
    as well unless the first one failed. *)
Definition prisma_installed (l : list event) : Prop :=
  exists c1, In (Run NpmInstallPrismaClient c1) l
             /\ (c1 = 0 -> exists c2, In (Run NpmInstallDevPrismaTsx c2) l).

(** The seed script has content [c] and the schema descriptor exists. *)
Definition seed_guarded (c : string) : state -> Prop :=
  fun s => files s !! "prisma/seed.ts" = Some c
           /\ is_Some (files s !! "prisma/schema.prisma").

End Observe.

(** Small worlds and states on which the scripts are run below. *)
Module Sample.
Import Shell.

Definition text : template -> string := fun _ => "(here-document)".

(** What the external programs of the sample worlds leave: [npx prisma
    init] makes the directory prisma, and nothing else is touched. *)
Definition leaves (t : tool) (s : state) : gmap string string * gset string :=
  (files s,
   match t with
   | PrismaInit => dirs s ∪ {[ "prisma" ]}
   | _ => dirs s
   end).

(** External programs that succeed; the database accepts connections from
    attempt [n + 1] on. *)
Definition up_after (n : nat) : world :=
  World (fun k => Nat.leb n k) (fun t s => (0, leaves t s)) (fun _ => (0, "")).

Definition never_up : world :=
  World (fun _ => false) (fun t s => (0, leaves t s)) (fun _ => (0, "")).

(** As [up_after 0], with an [npx prisma init] that returns 0 and creates
    nothing. *)
Definition idle_init : world :=
  World (fun _ => true) (fun _ s => (0, (files s, dirs s))) (fun _ => (0, "")).

#[export] Instance tool_eq_dec : EqDecision tool.
Proof. solve_decision. Defined.

(** The database is up at once; [failing] returns 1, every other external
    program returns 0. *)
Definition fails_at (failing : tool) : world :=
  World (fun _ => true)
        (fun t s => (if bool_decide (t = failing) then 1 else 0, leaves t s))
        (fun _ => (0, "")).

Definition empty_state : state := State ∅ ∅ [].

(** A tree with the files [l] and the directories they lie in. *)
Definition with_files (l : list (string * string)) : state :=
  State (list_to_map l)
        (list_to_set
           (flat_map (fun f => match parent (fst f) with
                               | Some d => dir_chain "" d
                               | None => []
                               end) l))
        [].

End Sample.

Module Triple.
Import Shell.

(** [sat E W P m Q]: from a state satisfying [P], the script [m] either goes
    on with a value and a state satisfying [Q], or is ended by [set -e] with
    a status and a state satisfying [E], or is still polling in a state
    satisfying [W]. *)
Definition sat (E : Z -> state -> Prop) (W : state -> Prop) {A}
    (P : state -> Prop) (m : sh A) (Q : A -> state -> Prop) : Prop :=
  forall s, P s ->
    match m s with
    | (Next a, s') => Q a s'
    | (Abort c, s') => E c s'
    | (Waiting, s') => W s'
    end.

Definition keeps (E : Z -> state -> Prop) (W : state -> Prop) {A}
    (I : state -> Prop) (m : sh A) : Prop :=
  sat E W I m (fun _ => I).

End Triple.

(* ===================================================================== *)
(** ** Further observations of the scripts and of the accessor            *)
(* ===================================================================== *)

Module Further.
Import Shell.

(** The first line a [setup.sh] prints. *)
Definition greeting (v : variant) : string :=
  match v with
  | Plain => "🚀 Starting Next.js DevContainer setup..."
  | _ => "🚀 Starting Metronic Next.js DevContainer setup..."
  end.

Definition is_write (e : event) : bool :=
  match e with
  | Write _ _ => true
  | _ => false
  end.

Definition is_run (e : event) : bool :=
  match e with
  | Run _ _ => true
  | _ => false
  end.

(** The files a [setup.sh] tests for before writing them, for the two
    scripts whose paths are fixed. *)
Definition metronic_targets : list string :=
  [ ".env"; "prisma/schema.prisma"; "src/lib/prisma.ts";
    "src/app/api/health/route.ts" ].

Definition plain_targets : list string :=
  [ "package.json"; ".env"; ".env.example"; "prisma/schema.prisma";
    "next.config.ts"; "tsconfig.json"; "tailwind.config.ts";
    "postcss.config.js"; "src/lib/prisma.ts"; "src/app/api/health/route.ts";
    "src/app/layout.tsx"; "src/app/page.tsx"; "src/app/globals.css";
    ".gitignore" ].

Definition targets (v : variant) : list string :=
  match v with
  | Plain => plain_targets
  | _ => metronic_targets
  end.

Definition present (p : string) : state -> Prop :=
  fun s => is_Some (files s !! p).

(** The files written up to and including the schema and seed stage; every
    other write belongs to a later stage. *)
Definition early_paths : list string :=
  [ "package.json"; ".env"; ".env.example";
    "prisma/schema.prisma"; "prisma/seed.ts" ].

Definition is_late_write (e : event) : bool :=
  match e with
  | Write path _ => negb (existsb (String.eqb path) early_paths)
  | _ => false
  end.

(** No external program creates or removes the directory [d]. *)
Definition tools_keep_dir (w : world) (d : string) : Prop :=
  forall t s, d ∈ snd (snd (exec w t s)) <-> d ∈ dirs s.

(** No external program removes the directory [d]. *)
Definition tools_keep_dir_present (w : world) (d : string) : Prop :=
  forall t s, d ∈ dirs s -> d ∈ snd (snd (exec w t s)).

(** No external program creates the file [p]. *)
Definition tools_keep_absent (w : world) (p : string) : Prop :=
  forall t s, files s !! p = None -> fst (snd (exec w t s)) !! p = None.

(** The seed command fails whenever it is run. *)
Definition seed_fails (w : world) : Prop :=
  forall s, fst (exec w NpmRunDbSeed s) <> 0.

(** A project tree with none of the directories the installed [setup.sh]
    looks for, and none of the files it would put there. *)
Definition bare (s : state) : Prop :=
  ("src" ∉ dirs s) /\ ("src/app" ∉ dirs s) /\ ("app" ∉ dirs s)
  /\ files s !! "lib/prisma.ts" = None
  /\ files s !! "src/lib/prisma.ts" = None
  /\ files s !! "src/app/api/health/route.ts" = None.

(** The external programs create none of them either, and remove no [src]. *)
Definition tools_leave_bare (w : world) : Prop :=
  tools_keep_dir w "src" /\ tools_keep_dir w "src/app" /\ tools_keep_dir w "app"
  /\ tools_keep_absent w "lib/prisma.ts"
  /\ tools_keep_absent w "src/lib/prisma.ts"
  /\ tools_keep_absent w "src/app/api/health/route.ts".

(** The directories that the four [mkdir -p] of the plain [setup.sh] make. *)
Definition plain_dirs : list string :=
  [ "src"; "src/app"; "src/app/api"; "src/app/api/health";
    "src/components"; "src/components/ui"; "src/lib"; "src/types" ].

(** The log records a here-document written to [p]. *)
Definition wrote (p : string) (l : list event) : bool :=
  existsb (fun e => match e with
                    | Write q _ => String.eqb q p
                    | _ => false
                    end) l.

End Further.

Module PrismaTsFurther.
Import PrismaTs.

(** Evaluations in a row with [NODE_ENV] as it is at each of them. *)
Fixpoint evaluations_in (envs : list (option string)) (r : runtime)
  : list client * runtime :=
  match envs with
  | [] => ([], r)
  | env :: envs' =>
      let '(p, r1) := prisma env r in
      let '(ps, r2) := evaluations_in envs' r1 in
      (p :: ps, r2)
  end.

End PrismaTsFurther.

(* ===================================================================== *)
(** * Properties                                                          *)
(* ===================================================================== *)

Local Open Scope list_scope.

(** ** A program logic for the scripts *)

Module ShellLogic.
Import Shell.

Lemma bind_unfold {A B} (m : sh A) (f : A -> sh B) (s : state) :
  (m ≫= f) s =
    match m s with
    | (Next a, s') => f a s'
    | (Abort c, s') => (Abort c, s')
    | (Waiting, s') => (Waiting, s')
    end.
Proof. reflexivity. Qed.

(** Runs the leading commands of a sequence that need no oracle. *)
Ltac sh_steps :=
  repeat (rewrite bind_unfold; cbn [echo sleep mkdir_p cat_to append_line]).

(** A redirection into the working directory is not refused. *)
Lemma writable_here (path : string) (s : state) :
  parent path = None -> writable path s = true.
Proof. intros H. unfold writable. rewrite H. reflexivity. Qed.

Lemma writable_in (path d : string) (s : state) :
  parent path = Some d -> d ∈ dirs s -> writable path s = true.
Proof.
  intros H Hd. unfold writable, test_d. rewrite H.
  apply bool_decide_eq_true_2. exact Hd.
Qed.

Section Triples.

(** What must hold when the script is ended by [set -e] with status [c],
    and when the poll loop is still waiting. *)
Variable E : Z -> state -> Prop.
Variable W : state -> Prop.

Local Abbreviation sat := (Triple.sat E W).
Local Abbreviation keeps := (Triple.keeps E W).

Lemma sat_bind {A B} (P : state -> Prop) (Q : A -> state -> Prop)
    (R : B -> state -> Prop) (m : sh A) (f : A -> sh B) :
  sat P m Q -> (forall a, sat (Q a) (f a) R) -> sat P (m ≫= f) R.
Proof.
  intros Hm Hf s HP. rewrite bind_unfold. specialize (Hm s HP).
  destruct (m s) as [[a | c |] s']; [| exact Hm | exact Hm].
  apply (Hf a s' Hm).
Qed.

Lemma sat_weaken {A} (P P' : state -> Prop) (Q Q' : A -> state -> Prop) (m : sh A) :
  sat P' m Q' -> (forall s, P s -> P' s) -> (forall a s, Q' a s -> Q a s) ->
  sat P m Q.
Proof.
  intros Hm HP HQ s Hs. specialize (Hm s (HP s Hs)).
  destruct (m s) as [[a | c |] s']; auto.
Qed.

Lemma sat_ret {A} (P : state -> Prop) (a : A) : sat P (mret a) (fun _ => P).
Proof. intros s HP. exact HP. Qed.

Lemma keeps_bind {A B} (I : state -> Prop) (m : sh A) (f : A -> sh B) :
  keeps I m -> (forall a, keeps I (f a)) -> keeps I (m ≫= f).
Proof. apply sat_bind. Qed.

Lemma keeps_ret {A} (I : state -> Prop) (a : A) : keeps I (mret a : sh A).
Proof. intros s HI. exact HI. Qed.

(** A branch is entered with its test known to hold. *)
Lemma sat_if_then (P : state -> Prop) (Q : unit -> state -> Prop)
    (c : cond) (body : sh unit) :
  sat (fun s => P s /\ c s = true) body Q ->
  (forall s, P s -> c s = false -> Q tt s) ->
  sat P (if_then c body) Q.
Proof.
  intros Hb Hskip s HP. unfold if_then. destruct (c s) eqn:Hc.
  - apply Hb. split; assumption.
  - apply Hskip; assumption.
Qed.

Lemma keeps_if_then (I : state -> Prop) (c : cond) (body : sh unit) :
  (forall s0, I s0 -> c s0 = true -> keeps I body) ->
  keeps I (if_then c body).
Proof.
  intros Hb s HI. unfold if_then. destruct (c s) eqn:Hc; [| exact HI].
  apply (Hb s HI Hc s HI).
Qed.

Lemma keeps_if_then_else (I : state -> Prop) (c : cond) (body other : sh unit) :
  (forall s0, I s0 -> c s0 = true -> keeps I body) ->
  (forall s0, I s0 -> c s0 = false -> keeps I other) ->
  keeps I (if_then_else c body other).
Proof.
  intros Hb Ho s HI. unfold if_then_else. destruct (c s) eqn:Hc.
  - apply (Hb s HI Hc s HI).
  - apply (Ho s HI Hc s HI).
Qed.

Lemma keeps_with_var (I : state -> Prop) (v : state -> string) (k : string -> sh unit) :
  (forall s0, I s0 -> keeps I (k (v s0))) -> keeps I (with_var v k).
Proof. intros Hk s HI. unfold with_var. apply (Hk s HI s HI). Qed.

(** The leaves: each reduces to the change of state it makes. *)
Lemma keeps_emit_echo (I : state -> Prop) (line : string) :
  (forall s, I s -> I (emit (Echo line) s)) -> keeps I (echo line).
Proof. intros H s HI. apply H, HI. Qed.

Lemma keeps_emit_sleep (I : state -> Prop) (n : nat) :
  (forall s, I s -> I (emit (Sleep n) s)) -> keeps I (sleep n).
Proof. intros H s HI. apply H, HI. Qed.

Lemma keeps_echo_all (I : state -> Prop) (ls : list string) :
  (forall line s, I s -> I (emit (Echo line) s)) -> keeps I (echo_all ls).
Proof.
  intros H. induction ls as [| l ls IH]; [apply keeps_ret |].
  cbn [echo_all]. apply keeps_bind; [apply keeps_emit_echo, H | intros _; exact IH].
Qed.

Lemma keeps_mkdir_p (I : state -> Prop) (path : string) :
  (forall s, I s ->
     I (State (files s) (dirs s ∪ list_to_set (dir_chain "" path))
              (log s ++ [Mkdir path]))) ->
  keeps I (mkdir_p path).
Proof. intros H s HI. apply H, HI. Qed.

(** [if [ -f src ]; then mv src dst; echo msg; fi]: the move cannot fail. *)
Lemma sat_if_mv (P Q : state -> Prop) (src dst msg : string) :
  (forall s c, P s -> files s !! src = Some c ->
     Q (State (<[dst := c]> (delete src (files s))) (dirs s)
              ((log s ++ [Move src dst]) ++ [Echo msg]))) ->
  (forall s, P s -> files s !! src = None -> Q s) ->
  sat P (if_then (test_f src) (mv src dst;; echo msg)) (fun _ => Q).
Proof.
  intros Hmv Hskip s HP. unfold if_then, test_f.
  destruct (files s !! src) as [c |] eqn:Hs.
  - rewrite bool_decide_eq_true_2 by eauto.
    rewrite bind_unfold. unfold mv. rewrite Hs. cbn [echo emit files dirs log].
    apply (Hmv s c HP Hs).
  - rewrite bool_decide_eq_false_2 by (intros [x Hx]; discriminate Hx).
    apply (Hskip s HP Hs).
Qed.

Lemma keeps_if_mv (I : state -> Prop) (src dst msg : string) :
  (forall s c, I s -> files s !! src = Some c ->
     I (State (<[dst := c]> (delete src (files s))) (dirs s)
              ((log s ++ [Move src dst]) ++ [Echo msg]))) ->
  keeps I (if_then (test_f src) (mv src dst;; echo msg)).
Proof. intros H. apply sat_if_mv; [exact H | intros s HI _; exact HI]. Qed.

Lemma keeps_append_line (I : state -> Prop) (line path : string) :
  (forall s, I s ->
     I (State (<[path := (default "" (files s !! path) ++ line ++ nl)%string]> (files s))
              (dirs s) (log s ++ [Append path line]))) ->
  keeps I (append_line line path).
Proof. intros H s HI. apply H, HI. Qed.

Lemma keeps_mv (I : state -> Prop) (src dst : string) :
  (forall s c, I s -> files s !! src = Some c ->
     I (State (<[dst := c]> (delete src (files s))) (dirs s)
              (log s ++ [Move src dst]))) ->
  (forall s, I s -> files s !! src = None -> E 1 (emit (Move src dst) s)) ->
  keeps I (mv src dst).
Proof.
  intros Hok Hfail s HI. unfold mv. destruct (files s !! src) as [c |] eqn:Hs.
  - apply (Hok s c HI Hs).
  - apply (Hfail s HI Hs).
Qed.

Section World.

Variable heredoc : template -> string.
Variable w : world.

Lemma keeps_or_else_curl (I : state -> Prop) (url path : string) (other : sh unit) :
  (forall s, I s ->
     I (State (<[path := snd (curl w url)]> (files s)) (dirs s)
              (log s ++ [Fetch url path (fst (curl w url))]))) ->
  keeps I other ->
  keeps I (or_else (curl_to w url path) other).
Proof.
  intros Hc Ho s HI. unfold or_else. rewrite bind_unfold. unfold curl_to.
  specialize (Hc s HI). destruct (curl w url) as [c body]. cbn [fst snd] in Hc.
  destruct (c =? 0); [exact Hc | apply Ho, Hc].
Qed.

(** A here-document: written when the redirection opens the file, and the
    end of the script when it does not. *)
Lemma sat_cat_to (P : state -> Prop) (Q : unit -> state -> Prop)
    (path : string) (t : template) :
  (forall s, P s -> writable path s = true ->
     Q tt (State (<[path := heredoc t]> (files s)) (dirs s)
                 (log s ++ [Write path t]))) ->
  (forall s, P s -> writable path s = false -> E 1 (emit (Refused path) s)) ->
  sat P (cat_to heredoc path t) Q.
Proof.
  intros Hok Hno s HP. unfold cat_to. destruct (writable path s) eqn:Hw.
  - apply (Hok s HP Hw).
  - apply (Hno s HP Hw).
Qed.

Lemma keeps_cat_to (I : state -> Prop) (path : string) (t : template) :
  (forall s, I s ->
     I (State (<[path := heredoc t]> (files s)) (dirs s)
              (log s ++ [Write path t]))) ->
  (forall s, I s -> writable path s = false -> E 1 (emit (Refused path) s)) ->
  keeps I (cat_to heredoc path t).
Proof.
  intros Hok Hno. apply sat_cat_to; [| exact Hno].
  intros s HI _. apply (Hok s HI).
Qed.

Lemma sat_run (P : state -> Prop) (Q : unit -> state -> Prop) (t : tool) :
  (forall s c f d, P s -> exec w t s = (c, (f, d)) ->
     if c =? 0 then Q tt (State f d (log s ++ [Run t c]))
     else E c (State f d (log s ++ [Run t c]))) ->
  sat P (run w t) Q.
Proof.
  intros H s HP. unfold run. destruct (exec w t s) as [c [f d]] eqn:He.
  specialize (H s c f d HP He). destruct (c =? 0); exact H.
Qed.

Lemma keeps_run (I : state -> Prop) (t : tool) :
  (forall s c f d, I s -> exec w t s = (c, (f, d)) ->
     if c =? 0 then I (State f d (log s ++ [Run t c]))
     else E c (State f d (log s ++ [Run t c]))) ->
  keeps I (run w t).
Proof. intros H. apply (sat_run I (fun _ => I) t H). Qed.

Lemma keeps_until_psql (I : state -> Prop) (fuel attempt : nat) :
  (forall s b, I s -> I (emit (Probe b) s)) ->
  (forall s, I s -> I (emit (Echo unavailable) s)) ->
  (forall s, I s -> I (emit (Sleep 2) s)) ->
  (forall s, I s -> W s) ->
  keeps I (until_psql w fuel attempt).
Proof.
  intros Hprobe Hecho Hsleep HW. revert attempt.
  induction fuel as [| fuel IH]; intros attempt s HI; cbn [until_psql].
  - apply HW, HI.
  - destruct (psql w attempt).
    + apply Hprobe, HI.
    + assert (Hk : keeps I (echo unavailable;; sleep 2;; until_psql w fuel (S attempt))).
      { apply keeps_bind; [apply keeps_emit_echo, Hecho |].
        intros _. apply keeps_bind; [apply keeps_emit_sleep, Hsleep |].
        intros _. apply IH. }
      apply Hk. apply Hprobe, HI.
Qed.

(** When some attempt within the fuel succeeds, the loop ends. *)
Lemma sat_until_psql_total (I : state -> Prop) (n fuel attempt : nat) :
  psql w n = true -> (attempt <= n)%nat -> (n < attempt + fuel)%nat ->
  (forall s b, I s -> I (emit (Probe b) s)) ->
  (forall s, I s -> I (emit (Echo unavailable) s)) ->
  (forall s, I s -> I (emit (Sleep 2) s)) ->
  keeps I (until_psql w fuel attempt).
Proof.
  intros Hn Hle Hlt Hprobe Hecho Hsleep. revert attempt Hle Hlt.
  induction fuel as [| fuel IH]; intros attempt Hle Hlt s HI; [lia |].
  cbn [until_psql]. destruct (psql w attempt) eqn:Ha.
  - apply Hprobe, HI.
  - assert (attempt <> n) by (intros ->; congruence).
    assert (Hk : keeps I (echo unavailable;; sleep 2;; until_psql w fuel (S attempt))).
    { apply keeps_bind; [apply keeps_emit_echo, Hecho |].
      intros _. apply keeps_bind; [apply keeps_emit_sleep, Hsleep |].
      intros _. apply IH; lia. }
    apply Hk. apply Hprobe, HI.
Qed.

End World.
End Triples.

(** The redirection of a here-document into the working directory. *)
Ltac here :=
  let H := fresh "H" in
  intros ? ? H;
  rewrite writable_here in H by (vm_compute; reflexivity);
  discriminate H.

(** Walks a script whose every command keeps the invariant; [leaf] has to
    prove what is left at each command. *)
Ltac sh_walk leaf :=
  cbv beta;
  lazymatch goal with
  | H : Triple.keeps ?E ?W ?I ?m |- Triple.keeps ?E ?W ?I ?m => exact H
  | |- Triple.keeps _ _ _ (mbind _ _) =>
      apply keeps_bind; [sh_walk leaf | intros ?; sh_walk leaf]
  | |- Triple.keeps _ _ _ (mret _) => apply keeps_ret
  | |- Triple.keeps _ _ _ (if_then (test_f _) (mbind _ (mv _ _))) =>
      apply keeps_if_mv; leaf
  | |- Triple.keeps _ _ _ (if_then _ _) =>
      apply keeps_if_then; intros ? ? ?; sh_walk leaf
  | |- Triple.keeps _ _ _ (if_then_else _ _ _) =>
      apply keeps_if_then_else; intros ? ? ?; sh_walk leaf
  | |- Triple.keeps _ _ _ (with_var _ _) =>
      apply keeps_with_var; intros ? ?; sh_walk leaf
  | |- Triple.keeps _ _ _ (echo _) => apply keeps_emit_echo; leaf
  | |- Triple.keeps _ _ _ (sleep _) => apply keeps_emit_sleep; leaf
  | |- Triple.keeps _ _ _ (echo_all _) => apply keeps_echo_all; leaf
  | |- Triple.keeps _ _ _ (mkdir_p _) => apply keeps_mkdir_p; leaf
  | |- Triple.keeps _ _ _ (cat_to _ _ _) =>
      apply keeps_cat_to; [leaf | first [solve [here] | leaf]]
  | |- Triple.keeps _ _ _ (run _ _) => apply keeps_run; leaf
  | |- Triple.keeps _ _ _ (append_line _ _) => apply keeps_append_line; leaf
  | |- Triple.keeps _ _ _ (mv _ _) => apply keeps_mv; leaf
  | |- Triple.keeps _ _ _ (or_else (curl_to _ _ _) _) =>
      apply keeps_or_else_curl; [leaf | sh_walk leaf]
  | |- Triple.keeps _ _ _ (update_gitignore) => unfold update_gitignore; sh_walk leaf
  | |- Triple.keeps _ _ _ (quick_setup _ _) => unfold quick_setup; sh_walk leaf
  | |- Triple.keeps _ _ _ (until_psql _ _ _) =>
      first [ solve [apply keeps_until_psql; leaf]
            | solve [eapply sat_until_psql_total;
                     [eassumption | lia | lia | leaf | leaf | leaf]] ]
  | |- Triple.keeps _ _ _ (wait_for_postgres _ _) =>
      unfold wait_for_postgres; sh_walk leaf
  | |- Triple.keeps _ _ _ (create_env _ _ _) => unfold create_env; sh_walk leaf
  | |- Triple.keeps _ _ _ (create_if_absent _ _ _) =>
      unfold create_if_absent; sh_walk leaf
  | |- Triple.keeps _ _ _ (install_prisma _) => unfold install_prisma; sh_walk leaf
  | |- Triple.keeps _ _ _ (add_db_scripts _) => unfold add_db_scripts; sh_walk leaf
  | |- Triple.keeps _ _ _ (initialize_prisma _ _ _ _) =>
      unfold initialize_prisma; sh_walk leaf
  | |- Triple.keeps _ _ _ (setup_metronic _ _ _) => unfold setup_metronic; sh_walk leaf
  | |- Triple.keeps _ _ _ (setup_embedded _ _ _) => unfold setup_embedded; sh_walk leaf
  | |- Triple.keeps _ _ _ (setup_plain _ _ _) => unfold setup_plain; sh_walk leaf
  | |- Triple.keeps _ _ _ (setup _ _ ?v _) => destruct v; cbn [setup]; sh_walk leaf
  end.

(** One more command of a sequence that keeps the invariant [I]. *)
Ltac sh_keep I leaf :=
  apply sat_bind with (Q := fun _ : unit => I);
  [ lazymatch goal with
    | |- Triple.sat ?E ?W _ ?m _ => change (Triple.keeps E W I m)
    end;
    sh_walk leaf
  | intros _ ].

End ShellLogic.


(** ** The seed script *)

Module SeedFacts.
Import Seed.

(** When the insertion and the release of the connection succeed, the
    script logs twice, disconnects, and the process ends with code 0. *)
Lemma seed_success (data : user_data) :
  run_seed (fun _ => None) data None =
    (0, [ ConsoleLog "🌱 Starting database seed...";
          UserCreate data;
          ConsoleLog "✅ Created user with posts:";
          Disconnect ]).
Proof. reflexivity. Qed.

(** C3, failure path.  When the insertion fails with [e], the handler of
    [catch] logs the error and calls [process.exit(1)]; the process ends
    there with code 1, and the callback of [finally] never runs: no
    [Disconnect] is recorded, for either variant of the seed data (and
    whatever the release of the connection would have done). *)
Theorem seed_failure_exits_without_disconnect
    (data : user_data) (e : error) (release : option error) :
  run_seed (fun _ => Some e) data release =
    (1, [ ConsoleLog "🌱 Starting database seed...";
          UserCreate data;
          ConsoleError "❌ Seed failed:" e;
          ProcessExit 1 ])
  /\ ~ In Disconnect (snd (run_seed (fun _ => Some e) data release)).
Proof.
  assert (Hrun : run_seed (fun _ => Some e) data release =
                   (1, [ ConsoleLog "🌱 Starting database seed...";
                         UserCreate data;
                         ConsoleError "❌ Seed failed:" e;
                         ProcessExit 1 ])) by reflexivity.
  split; [exact Hrun |]. rewrite Hrun.
  cbn. intros H. repeat (destruct H as [H | H]; [discriminate H |]). exact H.
Qed.

(** Without the call of [process.exit] in the handler, [finally] does run
    after a failure: the slip is the exit inside [catch], not [finally]. *)
Lemma finally_runs_after_handled_failure (data : user_data) (e : error) :
  finally (catch (main (fun _ => Some e) data)
                 (fun e => console_error "❌ Seed failed:" e))
          (disconnect None) []
  = (Return tt,
     [ ConsoleLog "🌱 Starting database seed...";
       UserCreate data;
       ConsoleError "❌ Seed failed:" e;
       Disconnect ]).
Proof. reflexivity. Qed.

End SeedFacts.

(** ** The health route *)

Module HealthRouteFacts.
Import HealthRoute.

(** An [Error] whose message is empty gives an empty [error] field. *)
Lemma health_error_field_may_be_empty :
  let r := GET (fun _ => "2026-01-01T00:00:00.000Z") (Some (ErrorObject "")) 0 in
  status r = 503 /\ field "error" (body r) = Some "".
Proof. split; reflexivity. Qed.

(** C6, as the handler has it.  A query that resolves gives status 200 and
    the three fields of the success body.  A query that throws gives status
    503 and the four fields of the error body, whose [error] field is the
    message of the thrown [Error], or ["Unknown error"] when the thrown value
    is not an [Error]; it is empty exactly when an [Error] with an empty
    message was thrown. *)
Theorem health_GET_responses (toISOString : Z -> string)
    (query : option thrown) (now : Z) :
  match query with
  | None =>
      GET toISOString query now =
        Response 200 [ ("status", "ok");
                       ("timestamp", toISOString now);
                       ("database", "connected") ]
  | Some e =>
      exists msg,
        GET toISOString query now =
          Response 503 [ ("status", "error");
                         ("timestamp", toISOString now);
                         ("database", "disconnected");
                         ("error", msg) ]
        /\ msg = match e with
                 | ErrorObject message => message
                 | OtherValue => "Unknown error"
                 end
        /\ (msg = "" <-> e = ErrorObject "")
  end.
Proof.
  destruct query as [e |]; [| reflexivity].
  destruct e as [message |].
  - exists message. repeat split; intros H; congruence.
  - exists "Unknown error". repeat split; intros H; discriminate H.
Qed.

End HealthRouteFacts.

(** ** The client accessor *)

Module PrismaTsFacts.
Import PrismaTs.

Lemma is_production_spec (NODE_ENV : option string) :
  is_production NODE_ENV = true <-> NODE_ENV = Some "production".
Proof.
  destruct NODE_ENV as [v |]; simpl.
  - rewrite String.eqb_eq. split; congruence.
  - split; discriminate.
Qed.

(** Once the holder is set, a non-production evaluation returns its client
    and constructs nothing. *)
Lemma evaluations_holder_set (NODE_ENV : option string) (n : nat) (p : client) (k : nat) :
  is_production NODE_ENV = false ->
  evaluations NODE_ENV n (Runtime (Some p) k) = (repeat p n, Runtime (Some p) k).
Proof.
  intros Hdev. induction n as [| n IH]; [reflexivity |].
  cbn [evaluations]. unfold prisma. cbn [globalForPrisma constructed].
  rewrite Hdev. cbn [negb]. rewrite IH. reflexivity.
Qed.

(** In production an empty holder stays empty and every evaluation
    constructs the next client. *)
Lemma evaluations_production (NODE_ENV : option string) (n k : nat) :
  is_production NODE_ENV = true ->
  evaluations NODE_ENV n (Runtime None k) = (seq k n, Runtime None (k + n)%nat).
Proof.
  intros Hprod. revert k. induction n as [| n IH]; intros k.
  - cbn. f_equal. f_equal. lia.
  - cbn [evaluations]. unfold prisma, new_PrismaClient.
    cbn [globalForPrisma constructed]. rewrite Hprod. cbn [negb].
    rewrite IH. cbn [seq]. f_equal. f_equal. lia.
Qed.

(** C8.  Outside production, the evaluations of the module in one process
    all export the same client: the first one takes the client of the holder,
    or constructs one when the holder is empty, and stores it; the later ones
    reuse it and construct nothing.  In production the module never writes
    the holder: starting from the empty holder of a new process it stays
    empty, and every evaluation constructs a client of its own. *)
Theorem prisma_scoping_rule (NODE_ENV : option string) (n : nat) (r : runtime) :
  (NODE_ENV <> Some "production" ->
     exists p,
       evaluations NODE_ENV (S n) r =
         (repeat p (S n),
          Runtime (Some p)
                  (match globalForPrisma r with
                   | Some _ => constructed r
                   | None => S (constructed r)
                   end))
       /\ p = default (constructed r) (globalForPrisma r))
  /\ (NODE_ENV = Some "production" ->
      globalForPrisma r = None ->
      evaluations NODE_ENV n r =
        (seq (constructed r) n, Runtime None (constructed r + n)%nat)
      /\ NoDup (fst (evaluations NODE_ENV n r))).
Proof.
  split.
  - intros Hne.
    assert (Hdev : is_production NODE_ENV = false).
    { destruct (is_production NODE_ENV) eqn:E; [| reflexivity].
      apply is_production_spec in E. contradiction. }
    destruct r as [[c |] k]; cbn [globalForPrisma constructed default].
    + exists c. split; [| reflexivity].
      apply (evaluations_holder_set NODE_ENV (S n) c k Hdev).
    + exists k. split; [| reflexivity].
      cbn [evaluations]. unfold prisma, new_PrismaClient.
      cbn [globalForPrisma constructed]. rewrite Hdev. cbn [negb].
      rewrite (evaluations_holder_set NODE_ENV n k (S k) Hdev). reflexivity.
  - intros Hprod Hnone.
    apply is_production_spec in Hprod.
    destruct r as [g k]. cbn [globalForPrisma constructed] in *. subst g.
    rewrite (evaluations_production NODE_ENV n k Hprod). cbn [fst].
    split; [reflexivity | apply List.seq_NoDup].
Qed.

Lemma prisma_scoping_rule_witness :
  (exists p,
     evaluations (Some "development") 4 fresh = (repeat p 4, Runtime (Some p) 1)
     /\ p = 0%nat)
  /\ evaluations (Some "production") 3 fresh = ([0; 1; 2]%nat, Runtime None 3)
  /\ NoDup (fst (evaluations (Some "production") 3 fresh)).
Proof.
  split.
  - apply (proj1 (prisma_scoping_rule (Some "development") 3 fresh)).
    discriminate.
  - apply (proj2 (prisma_scoping_rule (Some "production") 3 fresh));
      reflexivity.
Defined.

End PrismaTsFacts.


(** ** The readiness gate *)

Module GateFacts.
Import Shell Observe.

Lemma unavailable_count_app (l1 l2 : list event) :
  unavailable_count (l1 ++ l2) = (unavailable_count l1 + unavailable_count l2)%nat.
Proof. unfold unavailable_count. rewrite filter_app, length_app. reflexivity. Qed.

Lemma slept_app (l1 l2 : list event) :
  slept (l1 ++ l2) = (slept l1 + slept l2)%nat.
Proof.
  induction l1 as [| e l1 IH]; [reflexivity |].
  destruct e; cbn [app slept]; rewrite IH; lia.
Qed.

Lemma unavailable_count_polls (n : nat) : unavailable_count (polls n) = n.
Proof.
  induction n as [| n IH]; [reflexivity |].
  cbn [polls]. rewrite unavailable_count_app, IH. reflexivity.
Qed.

Lemma slept_polls (n : nat) : slept (polls n) = (2 * n)%nat.
Proof.
  induction n as [| n IH]; [reflexivity |].
  cbn [polls]. rewrite slept_app, IH. cbn [slept]. lia.
Qed.

Section Gate.

Variable w : world.

(** The loop leaves when an attempt succeeds, after one diagnostic and one
    pause for each attempt that failed. *)
Lemma until_psql_first_success (n fuel attempt : nat) (s : state) :
  (forall k, (k < n)%nat -> psql w (attempt + k) = false) ->
  psql w (attempt + n) = true ->
  (n < fuel)%nat ->
  until_psql w fuel attempt s =
    (Next tt, State (files s) (dirs s) (log s ++ polls n ++ [Probe true])).
Proof.
  revert fuel attempt s. induction n as [| n IH]; intros fuel attempt s Hfail Hok Hfuel.
  - destruct fuel as [| fuel]; [lia |]. cbn [until_psql polls].
    rewrite Nat.add_0_r in Hok. rewrite Hok. reflexivity.
  - destruct fuel as [| fuel]; [lia |]. cbn [until_psql].
    assert (H0 : psql w attempt = false).
    { rewrite <- (Nat.add_0_r attempt). apply Hfail. lia. }
    rewrite H0. ShellLogic.sh_steps.
    rewrite (IH fuel (S attempt)).
    + unfold emit. cbn [files dirs log polls]. rewrite <- !app_assoc. reflexivity.
    + intros k Hk. replace (S attempt + k)%nat with (attempt + S k)%nat by lia.
      apply Hfail. lia.
    + replace (S attempt + n)%nat with (attempt + S n)%nat by lia. exact Hok.
    + lia.
Qed.

(** As long as every attempt fails the loop goes on, whatever their number. *)
Lemma until_psql_still_waiting (fuel attempt : nat) (s : state) :
  (forall k, (k < fuel)%nat -> psql w (attempt + k) = false) ->
  until_psql w fuel attempt s =
    (Waiting, State (files s) (dirs s) (log s ++ polls fuel)).
Proof.
  revert attempt s. induction fuel as [| fuel IH]; intros attempt s Hfail.
  - cbn [until_psql polls]. rewrite app_nil_r. destruct s; reflexivity.
  - cbn [until_psql].
    assert (H0 : psql w attempt = false).
    { rewrite <- (Nat.add_0_r attempt). apply Hfail. lia. }
    rewrite H0. ShellLogic.sh_steps.
    rewrite (IH (S attempt)).
    + unfold emit. cbn [files dirs log polls]. rewrite <- !app_assoc. reflexivity.
    + intros k Hk. replace (S attempt + k)%nat with (attempt + S k)%nat by lia.
      apply Hfail. lia.
Qed.

(** C4.  If the database refuses the first [n] connection attempts and
    accepts the next one, the gate prints its diagnostic exactly [n] times,
    each time followed by a pause of 2 seconds, then the confirmation, and
    the script goes on; the file system is untouched.  The loop itself has
    no bound: while every attempt fails it is still polling, after any number
    of attempts, having printed one diagnostic for each. *)
Theorem readiness_gate_polls (n fuel : nat) (s : state) :
  ((forall k, (k < n)%nat -> psql w k = false) ->
   psql w n = true ->
   (n < fuel)%nat ->
   exists s',
     wait_for_postgres w fuel s = (Next tt, s')
     /\ files s' = files s /\ dirs s' = dirs s
     /\ log s' = log s ++ [Echo "⏳ Waiting for PostgreSQL to be ready..."]
                       ++ polls n
                       ++ [Probe true; Echo "✅ PostgreSQL is ready!"]
     /\ unavailable_count (log s') = (unavailable_count (log s) + n)%nat
     /\ slept (log s') = (slept (log s) + 2 * n)%nat)
  /\ ((forall k, (k < fuel)%nat -> psql w k = false) ->
      exists s',
        wait_for_postgres w fuel s = (Waiting, s')
        /\ log s' = log s ++ [Echo "⏳ Waiting for PostgreSQL to be ready..."]
                          ++ polls fuel
        /\ unavailable_count (log s') = (unavailable_count (log s) + fuel)%nat).
Proof.
  split.
  - intros Hfail Hok Hfuel. eexists. split.
    { unfold wait_for_postgres. rewrite ShellLogic.bind_unfold. cbn [echo].
      rewrite ShellLogic.bind_unfold.
      rewrite (until_psql_first_success n fuel 0); [reflexivity | exact Hfail | exact Hok | exact Hfuel]. }
    unfold emit. cbn [files dirs log].
    repeat split.
    + rewrite <- !app_assoc. reflexivity.
    + rewrite !unavailable_count_app, unavailable_count_polls. cbn. lia.
    + rewrite !slept_app, slept_polls. cbn. lia.
  - intros Hfail. eexists. split.
    { unfold wait_for_postgres. rewrite ShellLogic.bind_unfold. cbn [echo].
      rewrite ShellLogic.bind_unfold.
      rewrite (until_psql_still_waiting fuel 0); [reflexivity | exact Hfail]. }
    unfold emit. cbn [files dirs log].
    split.
    + rewrite <- !app_assoc. reflexivity.
    + rewrite !unavailable_count_app, unavailable_count_polls. cbn. lia.
Qed.

End Gate.

Import Sample.

Lemma readiness_gate_polls_witness :
  (exists s', wait_for_postgres (up_after 0) 1 empty_state = (Next tt, s')
              /\ unavailable_count (log s') = 0%nat)
  /\ (exists s', wait_for_postgres (up_after 3) 10 empty_state = (Next tt, s')
                 /\ unavailable_count (log s') = 3%nat
                 /\ slept (log s') = 6%nat)
  /\ (exists s', wait_for_postgres never_up 7 empty_state = (Waiting, s')
                 /\ unavailable_count (log s') = 7%nat).
Proof.
  split; [| split].
  - destruct (proj1 (readiness_gate_polls (up_after 0) 0 1 empty_state))
      as (s' & Hrun & _ & _ & _ & Hcount & _).
    + intros k Hk. lia.
    + reflexivity.
    + lia.
    + exists s'. split; [exact Hrun | exact Hcount].
  - destruct (proj1 (readiness_gate_polls (up_after 3) 3 10 empty_state))
      as (s' & Hrun & _ & _ & _ & Hcount & Hslept).
    + intros k Hk. unfold up_after. cbn [psql]. apply Nat.leb_gt. exact Hk.
    + reflexivity.
    + lia.
    + exists s'. split; [exact Hrun | split; [exact Hcount | exact Hslept]].
  - destruct (proj2 (readiness_gate_polls never_up 0 7 empty_state))
      as (s' & Hrun & _ & Hcount).
    + intros k Hk. reflexivity.
    + exists s'. split; [exact Hrun | exact Hcount].
Defined.

End GateFacts.

(** ** Files that exist before a [setup.sh] runs *)

Module FrameFacts.
Import Shell Observe Triple ShellLogic.

(** A file tested absent is not a file known to exist. *)
Lemma absent_ne (s0 : state) (path p c : string) :
  files s0 !! p = Some c -> not_ (test_f path) s0 = true -> path <> p.
Proof.
  intros Hp Hc ->. unfold not_, test_f in Hc. rewrite Hp in Hc.
  rewrite bool_decide_eq_true_2 in Hc; [discriminate Hc | eauto].
Qed.

Lemma missing_ne (s0 : state) (path p c : string) :
  files s0 !! p = Some c -> test_f path s0 = false -> path <> p.
Proof.
  intros Hp Hc. apply (absent_ne s0 path p c Hp). unfold not_. rewrite Hc. reflexivity.
Qed.

Section Frame.

Variable heredoc : template -> string.
Variable w : world.
Variables p c : string.

Local Abbreviation tools_keep := (tools_keep w p c).
Local Abbreviation holds := (holds p c).

Local Ltac frame_leaf :=
  first
    [ (* an external program *)
      let s := fresh "s" in let k := fresh "k" in
      let f := fresh "f" in let d := fresh "d" in
      let HI := fresh "HI" in let He := fresh "He" in
      intros s k f d HI He;
      match goal with
      | Htools : Observe.tools_keep _ _ _, He' : exec _ ?t _ = _ |- _ =>
          pose proof (Htools t s HI) as Hkeep; rewrite He in Hkeep;
          destruct (k =? 0); exact Hkeep
      end
    | (* a command of the script *)
      intros; unfold Observe.holds, emit in *; cbn [files];
      first [ assumption
            | rewrite lookup_insert_ne; [assumption |];
              first [ congruence
                    | match goal with
                      | Hc : not_ (test_f ?path) ?s0 = true,
                        Hp : files ?s0 !! _ = Some _ |- _ =>
                          exact (absent_ne s0 path _ _ Hp Hc)
                      | Hc : test_f ?path ?s0 = false,
                        Hp : files ?s0 !! _ = Some _ |- _ =>
                          exact (missing_ne s0 path _ _ Hp Hc)
                      end ] ] ].

(** Every file other than [prisma/seed.ts] that exists when a [setup.sh]
    starts is still there, unchanged, at every point where the script can
    end, provided no external program changes it. *)
Lemma setup_keeps_file (v : variant) (fuel : nat) :
  p <> "prisma/seed.ts" ->
  tools_keep ->
  keeps (fun _ => holds) holds holds (setup heredoc w v fuel).
Proof.
  intros Hseed Htools. sh_walk frame_leaf.
Qed.

End Frame.

Lemma is_Some_insert_keep (m : gmap string string) (k k' v : string) :
  is_Some (m !! k) -> is_Some (<[k' := v]> m !! k).
Proof.
  intros H. rewrite lookup_insert. destruct (decide (k' = k)); [eauto | exact H].
Qed.

Lemma absent_not_present (s0 : state) (path : string) :
  is_Some (files s0 !! path) -> not_ (test_f path) s0 = true -> False.
Proof.
  intros Hp Hc. unfold not_, test_f in Hc.
  rewrite bool_decide_eq_true_2 in Hc; [discriminate Hc | exact Hp].
Qed.

Section SeedFrame.

Variable heredoc : template -> string.
Variable w : world.
Variable c : string.

Local Abbreviation guarded := (seed_guarded c).

Local Ltac other_path :=
  first [ congruence
        | match goal with
          | Hc : not_ (test_f ?path) ?s0 = true, Hp : seed_guarded _ ?s0 |- _ =>
              exact (absent_ne s0 path _ _ (proj1 Hp) Hc)
          | Hc : test_f ?path ?s0 = false, Hp : seed_guarded _ ?s0 |- _ =>
              exact (missing_ne s0 path _ _ (proj1 Hp) Hc)
          end ].

Local Ltac seed_leaf :=
  first
    [ (* inside the block that the existing schema descriptor switches off *)
      match goal with
      | Hc : not_ (test_f "prisma/schema.prisma") ?s0 = true,
        Hp : seed_guarded _ ?s0 |- _ =>
          exfalso; exact (absent_not_present s0 _ (proj2 Hp) Hc)
      end
    | (* an external program *)
      let s := fresh "s" in let k := fresh "k" in
      let f := fresh "f" in let d := fresh "d" in
      let HI := fresh "HI" in let He := fresh "He" in
      intros s k f d HI He;
      match goal with
      | H1 : Observe.tools_keep _ _ _, H2 : tools_keep_present _ _,
        He' : exec _ ?t _ = _ |- _ =>
          pose proof (H1 t s (proj1 HI)) as Hk1;
          pose proof (H2 t s (proj2 HI)) as Hk2;
          rewrite He in Hk1, Hk2;
          destruct (k =? 0); split; assumption
      end
    | (* a command of the script *)
      let s := fresh "s" in let H1 := fresh "H" in let H2 := fresh "H" in
      intros; unfold emit;
      match goal with
      | H : seed_guarded _ ?s |- seed_guarded _ (State _ _ _) =>
          destruct H as [H1 H2]; split; cbn [files];
          [ first [ assumption
                  | rewrite lookup_insert_ne;
                    [assumption | pose proof (conj H1 H2 : seed_guarded _ s); other_path] ]
          | first [ assumption | apply is_Some_insert_keep; assumption ] ]
      end
    | intros; assumption ].

(** When the schema descriptor exists, the seed script that exists when a
    [setup.sh] starts is kept as well. *)
Lemma setup_keeps_seed (v : variant) (fuel : nat) :
  Observe.tools_keep w "prisma/seed.ts" c ->
  tools_keep_present w "prisma/schema.prisma" ->
  keeps (fun _ => guarded) guarded guarded (setup heredoc w v fuel).
Proof.
  intros Hseed Hschema. sh_walk seed_leaf.
Qed.

End SeedFrame.

(** With the schema descriptor absent, the themed [setup.sh] replaces a seed
    script that was there. *)
Lemma setup_overwrites_seed :
  let before := Sample.with_files [("prisma/seed.ts", "my own seed")] in
  let after := snd (setup Sample.text (Sample.up_after 0) Metronic 1 before) in
  files before !! "prisma/seed.ts" = Some "my own seed"
  /\ files after !! "prisma/seed.ts" = Some (Sample.text TSeedMetronic)
  /\ files after !! "prisma/seed.ts" <> files before !! "prisma/seed.ts".
Proof. vm_compute. repeat split; congruence. Qed.

(** C7, as the scripts have it.  For each [setup.sh] and each file [A] (in
    particular .env, .env.example, the schema descriptor, the client
    accessor, the health route, layout, page and stylesheet): if [A] exists
    before the script runs and no external program changes it, its content
    is the same after the script, however the script ends.  For the seed
    script this holds when the schema descriptor exists before the run as
    well: the write of prisma/seed.ts is guarded by the test on
    prisma/schema.prisma, not by a test on the seed script. *)
Theorem setup_keeps_existing_artifacts
    (heredoc : template -> string) (w : world) (v : variant) (fuel : nat)
    (s : state) (A c : string) :
  files s !! A = Some c ->
  Observe.tools_keep w A c ->
  (A = "prisma/seed.ts" ->
     is_Some (files s !! "prisma/schema.prisma")
     /\ tools_keep_present w "prisma/schema.prisma") ->
  files (snd (setup heredoc w v fuel s)) !! A = Some c.
Proof.
  intros HA Htools Hseed.
  destruct (decide (A = "prisma/seed.ts")) as [-> | Hne].
  - destruct (Hseed eq_refl) as [Hschema Hpresent].
    pose proof (setup_keeps_seed heredoc w c v fuel Htools Hpresent s (conj HA Hschema)) as H.
    destruct (setup heredoc w v fuel s) as [[a | k |] s']; exact (proj1 H).
  - pose proof (setup_keeps_file heredoc w A c v fuel Hne Htools s HA) as H.
    destruct (setup heredoc w v fuel s) as [[a | k |] s']; exact H.
Qed.

Lemma setup_keeps_existing_artifacts_witness :
  files (snd (setup Sample.text (Sample.up_after 3) Plain 10
                (Sample.with_files [(".env", "SECRET=1")])))
    !! ".env" = Some "SECRET=1"
  /\ files (snd (setup Sample.text (Sample.up_after 0) Metronic 1
                   (Sample.with_files [("prisma/seed.ts", "my own seed");
                                       ("prisma/schema.prisma", "my schema")])))
       !! "prisma/seed.ts" = Some "my own seed".
Proof.
  split.
  - apply setup_keeps_existing_artifacts.
    + reflexivity.
    + intros t s H. exact H.
    + intros H. discriminate H.
  - apply setup_keeps_existing_artifacts.
    + reflexivity.
    + intros t s H. exact H.
    + intros _. split; [vm_compute; eauto | intros t s H; exact H].
Defined.

End FrameFacts.

(** ** grep with a literal pattern finds substrings *)

Module GrepFacts.
Import Grep.

Lemma lines_nil (s : string) : lines s = [] -> s = EmptyString.
Proof.
  destruct s as [| c s]; [reflexivity |]. cbn [lines].
  destruct (Ascii.eqb c newline); [discriminate |].
  destruct (lines s); discriminate.
Qed.

Lemma prefix_empty_r (q : string) :
  String.prefix q EmptyString = true -> q = EmptyString.
Proof. destruct q; [reflexivity | discriminate]. Qed.

(** A pattern without newline starts a file where it starts its first line. *)
Lemma prefix_first_line (q s l : string) (ls : list string) :
  one_line q = true -> lines s = l :: ls -> String.prefix q l = String.prefix q s.
Proof.
  revert q l ls. induction s as [| c s IH]; intros q l ls Hq Hl; [discriminate Hl |].
  destruct q as [| p q]; [destruct l; reflexivity |].
  cbn [one_line] in Hq. apply andb_prop in Hq as [Hp Hq].
  apply negb_true_iff, Ascii.eqb_neq in Hp.
  cbn [lines] in Hl. destruct (Ascii.eqb c newline) eqn:Hc.
  - apply Ascii.eqb_eq in Hc. subst c. injection Hl as <- _.
    cbn [String.prefix]. destruct (ascii_dec p newline); [contradiction | reflexivity].
  - destruct (lines s) as [| l' ls'] eqn:Hs.
    + apply lines_nil in Hs. subst s. injection Hl as <- _. reflexivity.
    + injection Hl as <- _. cbn [String.prefix].
      destruct (ascii_dec p c); [| reflexivity].
      apply (IH q l' ls' Hq eq_refl).
Qed.

(** For a non-empty pattern without newline, some line of the file matches
    exactly when the pattern occurs in the file. *)
Lemma grep_contains (pat s : string) :
  one_line pat = true -> pat <> EmptyString ->
  grep pat s = contains pat s.
Proof.
  intros Hq Hne. unfold grep.
  induction s as [| c s IH].
  - cbn. destruct pat; [contradiction | reflexivity].
  - cbn [lines contains]. destruct (Ascii.eqb c newline) eqn:Hc.
    + apply Ascii.eqb_eq in Hc. subst c. cbn [existsb]. rewrite IH.
      destruct pat as [| p q]; [contradiction |].
      cbn [one_line] in Hq. apply andb_prop in Hq as [Hp _].
      apply negb_true_iff, Ascii.eqb_neq in Hp.
      cbn [contains String.prefix].
      destruct (ascii_dec p newline); [contradiction | reflexivity].
    + destruct (lines s) as [| l ls] eqn:Hs.
      * apply lines_nil in Hs. subst s. cbn [existsb contains].
        rewrite orb_false_r. reflexivity.
      * cbn [existsb] in *. cbn [contains]. rewrite <- IH.
        rewrite <- orb_assoc. f_equal.
        destruct pat as [| p q]; [contradiction |].
        cbn [one_line] in Hq. apply andb_prop in Hq as [_ Hq].
        cbn [String.prefix]. destruct (ascii_dec p c); [| reflexivity].
        apply (prefix_first_line q s l ls Hq Hs).
Qed.

Lemma contains_app_r (pat a b : string) :
  contains pat b = true -> contains pat (a ++ b)%string = true.
Proof.
  intros Hb. induction a as [| c a IH]; [exact Hb |].
  change (String c a ++ b)%string with (String c (a ++ b)%string).
  cbn [contains]. rewrite IH. apply orb_true_r.
Qed.

End GrepFacts.

(** ** quick-setup.sh *)

Module QuickSetupFacts.
Import Shell Observe Triple ShellLogic.

Lemma append_assoc (a b c : string) : ((a ++ b) ++ c = a ++ (b ++ c))%string.
Proof.
  induction a as [| x a IH]; [reflexivity |].
  change (String x ((a ++ b) ++ c) = String x (a ++ (b ++ c)))%string.
  rewrite IH. reflexivity.
Qed.

Lemma append_empty_r (a : string) : (a ++ "" = a)%string.
Proof.
  induction a as [| x a IH]; [reflexivity |].
  change (String x (a ++ "") = String x a)%string. rewrite IH. reflexivity.
Qed.

Local Ltac other_file :=
  first [ congruence
        | match goal with
          | Hc : not_ (test_f ?path) ?s0 = true, Hp : files ?s0 !! _ = Some _ |- _ =>
              exact (FrameFacts.absent_ne s0 path _ _ Hp Hc)
          end ].

(** A command that writes other files keeps the content of this one. *)
Local Ltac qs_leaf :=
  intros; unfold Observe.holds, emit in *; cbn [files fst snd] in *;
  repeat first [ assumption
               | exact I
               | rewrite lookup_insert_ne by other_file
               | rewrite lookup_delete_ne by other_file ].

Section Quick.

Variable heredoc : template -> string.
Variable w : world.

Local Abbreviation never := (fun (_ : Z) (_ : state) => False).
Local Abbreviation anyway := (fun (_ : Z) (_ : state) => True).
Local Abbreviation no_wait := (fun _ : state => False).
Local Abbreviation made := (fun s : state => ".devcontainer" ∈ dirs s).

Local Ltac made_leaf :=
  first
    [ let s := fresh "s" in let HD := fresh "HD" in let Hw := fresh "Hw" in
      intros s HD Hw;
      rewrite (writable_in _ ".devcontainer") in Hw
        by first [vm_compute; reflexivity | exact HD];
      discriminate Hw
    | intros; cbn [dirs]; assumption ].

Local Ltac plain_leaf := intros; exact I.

(** quick-setup.sh is not ended by [set -e]: its here-documents go to the
    working directory or to .devcontainer, which the command before them
    makes; its [mv] runs behind the test for its source; and a failing curl
    is caught by [||]. *)
Lemma quick_setup_completes (s : state) :
  fst (quick_setup heredoc w s) = Next tt.
Proof.
  assert (H : sat never no_wait (fun _ => True) (quick_setup heredoc w)
                  (fun _ _ => True)).
  { unfold quick_setup.
    sh_keep (fun _ : state => True) plain_leaf.
    apply sat_bind with (Q := fun _ : unit => made).
    { intros s0 _. cbn [mkdir_p dirs]. apply elem_of_union. right.
      apply elem_of_list_to_set, list_elem_of_In. vm_compute. tauto. }
    intros _.
    do 4 (sh_keep (fun s : state => ".devcontainer" ∈ dirs s) made_leaf).
    apply sat_weaken with (P' := fun _ => True) (Q' := fun _ _ => True);
      [| intros; exact I | intros; exact I].
    lazymatch goal with
    | |- Triple.sat ?E ?W ?P ?m _ => change (Triple.keeps E W P m)
    end.
    sh_walk plain_leaf. }
  specialize (H s I).
  destruct (quick_setup heredoc w s) as [[[] | k |] s'];
    [reflexivity | contradiction | contradiction].
Qed.

(** What a triple says of a run of quick-setup.sh. *)
Lemma sat_total (P : state -> Prop) (Q : state -> Prop) (s : state) :
  sat anyway no_wait P (quick_setup heredoc w) (fun _ => Q) -> P s ->
  fst (quick_setup heredoc w s) = Next tt /\ Q (snd (quick_setup heredoc w s)).
Proof.
  intros H HP. specialize (H s HP). pose proof (quick_setup_completes s) as Hc.
  destruct (quick_setup heredoc w s) as [[[] | k |] s'];
    [split; [reflexivity | exact H] | discriminate Hc | discriminate Hc].
Qed.

(** The five unconditional writes: whatever was there, the file holds the
    here-document afterwards. *)
Lemma quick_setup_overwrites (path : string) (t : template) (s : state) :
  In (path, t) quick_unconditional ->
  files (snd (quick_setup heredoc w s)) !! path = Some (heredoc t).
Proof.
  intros Hin.
  apply (sat_total (fun _ => True) (holds path (heredoc t))); [| exact I].
  unfold quick_setup.
  sh_keep (fun _ : state => True) qs_leaf.
  sh_keep (fun _ : state => True) qs_leaf.
  cbn [In quick_unconditional] in Hin.
  repeat
    (destruct Hin as [Hin | Hin];
     [ injection Hin as Hp Ht;
       apply sat_bind with (Q := fun _ : unit => holds path (heredoc t));
       [ apply sat_cat_to;
         [ intros s0 _ _; unfold holds; cbn [files];
           rewrite <- Hp, <- Ht; apply lookup_insert_eq
         | intros; exact I ]
       | intros _;
         lazymatch goal with
         | |- Triple.sat ?E ?W ?P ?m _ => change (Triple.keeps E W P m)
         end;
         sh_walk qs_leaf ]
     | sh_keep (fun _ : state => True) qs_leaf ]).
  contradiction.
Qed.

(** A file that quick-setup.sh does not name, or .env.example when it
    exists, is left as it is; and the script always ends with status 0. *)
Lemma quick_setup_keeps_file (p c : string) (s : state) :
  ~ In p quick_written ->
  files s !! p = Some c ->
  fst (quick_setup heredoc w s) = Next tt
  /\ files (snd (quick_setup heredoc w s)) !! p = Some c.
Proof.
  intros Hnot Hp.
  assert (Hne : Forall (fun q => q <> p) quick_written).
  { apply List.Forall_forall. intros q Hq ->. apply Hnot. exact Hq. }
  unfold quick_written in Hne. cbn in Hne.
  repeat match goal with
         | H : Forall _ (_ :: _) |- _ =>
             let H1 := fresh "Hne" in let H2 := fresh "Hrest" in
             apply Forall_cons_1 in H as [H1 H2]
         end.
  apply (sat_total (holds p c) (holds p c)); [| exact Hp].
  change (keeps anyway no_wait (holds p c) (quick_setup heredoc w)).
  sh_walk qs_leaf.
Qed.

(** The update of .gitignore, alone and within the script. *)
Lemma update_gitignore_sat (g : option string) :
  sat anyway no_wait (fun s => files s !! ".gitignore" = g) update_gitignore
      (fun _ s => files s !! ".gitignore" = updated_gitignore g).
Proof.
  intros s Hg. unfold update_gitignore, if_then, test_f, not_, grep_q.
  rewrite Hg. destruct g as [c |]; cbn [updated_gitignore].
  - rewrite bool_decide_eq_true_2 by eauto.
    destruct (Grep.grep "prisma/migrations" c); cbn [negb]; [exact Hg |].
    sh_steps. cbn [files]. rewrite lookup_insert_eq.
    rewrite !lookup_insert_eq, Hg. cbn [default]. f_equal.
    unfold id, prisma_entry. rewrite !append_assoc. reflexivity.
  - rewrite bool_decide_eq_false_2 by (intros [x Hx]; discriminate Hx).
    exact Hg.
Qed.

Lemma quick_setup_gitignore (s : state) :
  files (snd (quick_setup heredoc w s)) !! ".gitignore"
  = updated_gitignore (files s !! ".gitignore").
Proof.
  set (g := files s !! ".gitignore").
  apply (sat_total (fun s => files s !! ".gitignore" = g)
                   (fun s => files s !! ".gitignore" = updated_gitignore g));
    [| reflexivity].
  unfold quick_setup.
  do 7 (sh_keep (fun s : state => files s !! ".gitignore" = g) qs_leaf).
  apply sat_bind with (Q := fun (_ : unit) s => files s !! ".gitignore" = updated_gitignore g);
    [apply update_gitignore_sat | intros _].
  change (keeps anyway no_wait (fun s => files s !! ".gitignore" = updated_gitignore g)
                (create_if_absent heredoc ".env.example" TEnvExampleMetronic;;
                 if_then (test_f "README.md")
                   (mv "README.md" "README.metronic.backup.md";;
                    echo "📄 Backed up existing README.md to README.metronic.backup.md");;
                 echo "📝 Creating README.md...";;
                 or_else (curl_to w readme_url "README.md")
                         (cat_to heredoc "README.md" TReadmeFallback);;
                 echo_all closing_quick)).
  sh_walk qs_leaf.
Qed.

(** An existing README.md ends up in the backup file. *)
Lemma quick_setup_backs_up_readme (c : string) (s : state) :
  files s !! "README.md" = Some c ->
  files (snd (quick_setup heredoc w s)) !! "README.metronic.backup.md" = Some c.
Proof.
  intros Hc.
  apply (sat_total (holds "README.md" c) (holds "README.metronic.backup.md" c));
    [| exact Hc].
  unfold quick_setup.
  do 9 (sh_keep (holds "README.md" c) qs_leaf).
  apply sat_bind with (Q := fun _ : unit => holds "README.metronic.backup.md" c).
  - apply sat_if_mv.
    + intros s0 c0 H0 Hs0. unfold holds in *. cbn [files].
      rewrite H0 in Hs0. injection Hs0 as <-. apply lookup_insert_eq.
    + intros s0 H0 Hs0. unfold holds in H0. rewrite H0 in Hs0. discriminate Hs0.
  - intros _.
    change (keeps anyway no_wait (holds "README.metronic.backup.md" c)
                  (echo "📝 Creating README.md...";;
                   or_else (curl_to w readme_url "README.md")
                           (cat_to heredoc "README.md" TReadmeFallback);;
                   echo_all closing_quick)).
    sh_walk qs_leaf.
Qed.

(** README.md is always written anew: with what curl fetched when curl
    succeeded, with the here-document otherwise. *)
Lemma quick_setup_writes_readme (s : state) :
  files (snd (quick_setup heredoc w s)) !! "README.md"
  = Some (if fst (curl w readme_url) =? 0 then snd (curl w readme_url)
          else heredoc TReadmeFallback).
Proof.
  set (new := if fst (curl w readme_url) =? 0 then snd (curl w readme_url)
              else heredoc TReadmeFallback).
  apply (sat_total (fun _ => True) (holds "README.md" new)); [| exact I].
  unfold quick_setup.
  do 11 (sh_keep (fun _ : state => True) qs_leaf).
  apply sat_bind with (Q := fun _ : unit => holds "README.md" new).
  - intros s0 _. unfold or_else. rewrite bind_unfold. unfold curl_to, new.
    destruct (curl w readme_url) as [k body]. cbn [fst snd].
    destruct (k =? 0); [unfold holds; cbn [files]; apply lookup_insert_eq |].
    unfold cat_to. rewrite writable_here by reflexivity.
    unfold holds. cbn [files]. apply lookup_insert_eq.
  - intros _.
    change (keeps anyway no_wait (holds "README.md" new) (echo_all closing_quick)).
    sh_walk qs_leaf.
Qed.

End Quick.

(** The update applied twice is the update applied once. *)
Lemma updated_gitignore_idempotent (g : option string) :
  updated_gitignore (updated_gitignore g) = updated_gitignore g.
Proof.
  destruct g as [c |]; [| reflexivity]. cbn [updated_gitignore].
  destruct (Grep.grep "prisma/migrations" c) eqn:Hc; cbn [updated_gitignore].
  - rewrite Hc. reflexivity.
  - rewrite GrepFacts.grep_contains; [| reflexivity | discriminate].
    rewrite GrepFacts.contains_app_r; reflexivity.
Qed.

(** C10.  After quick-setup.sh, .gitignore is absent when it was absent,
    unchanged when it already contained the string [prisma/migrations], and
    extended by an empty line, [# Prisma] and the migrations entry when it
    existed without that string.  A second run of the script, whatever curl
    answers then, leaves .gitignore as the first run left it: the entry is
    appended at most once. *)
Theorem gitignore_update_idempotent
    (heredoc heredoc' : template -> string) (w w' : world) (s : state) :
  let once := snd (quick_setup heredoc w s) in
  let twice := snd (quick_setup heredoc' w' once) in
  files once !! ".gitignore" =
    match files s !! ".gitignore" with
    | None => None
    | Some c =>
        if Grep.contains "prisma/migrations" c then Some c
        else Some (c ++ nl ++ "# Prisma" ++ nl
                     ++ "prisma/migrations/**/migration.sql" ++ nl)%string
    end
  /\ files twice !! ".gitignore" = files once !! ".gitignore".
Proof.
  cbv zeta. rewrite !quick_setup_gitignore. split.
  - destruct (files s !! ".gitignore") as [c |]; [| reflexivity].
    cbn [updated_gitignore].
    rewrite GrepFacts.grep_contains; [reflexivity | reflexivity | discriminate].
  - apply updated_gitignore_idempotent.
Qed.

(** quick-setup.sh replaces an existing devcontainer.json, an existing
    .gitattributes and an existing README.md. *)
Lemma quick_setup_replaces_existing_files :
  let before :=
    Sample.with_files [ (".devcontainer/devcontainer.json", "my own container");
                        (".gitattributes", "* -text");
                        ("README.md", "my project") ] in
  let after := snd (quick_setup Sample.text (Sample.up_after 0) before) in
  files before !! ".devcontainer/devcontainer.json" = Some "my own container"
  /\ files after !! ".devcontainer/devcontainer.json" = Some "(here-document)"
  /\ files before !! ".gitattributes" = Some "* -text"
  /\ files after !! ".gitattributes" = Some "(here-document)"
  /\ files before !! "README.md" = Some "my project"
  /\ files after !! "README.md" = Some "".
Proof. vm_compute. repeat split. Qed.

(** C1, as the scripts have it.  quick-setup.sh writes its four DevContainer
    files and .gitattributes whatever was there; it moves an existing
    README.md to README.metronic.backup.md and writes README.md anew (what
    curl fetched, or the here-document when curl failed); an existing
    .gitignore keeps its content as a prefix.  Every other file that exists
    before quick-setup.sh runs, .env.example among them, keeps its content.
    In the three [setup.sh], every file other than prisma/seed.ts that
    exists before the run keeps its content, provided no external program
    changes it: each of their writes but that of the seed script is guarded
    by a test on the file written. *)
Theorem create_if_absent_scope
    (heredoc : template -> string) (w : world) (s : state) :
  let after := snd (quick_setup heredoc w s) in
  (forall path t, In (path, t) quick_unconditional ->
     files after !! path = Some (heredoc t))
  /\ (forall c, files s !! "README.md" = Some c ->
        files after !! "README.metronic.backup.md" = Some c)
  /\ files after !! "README.md" =
       Some (if fst (curl w readme_url) =? 0 then snd (curl w readme_url)
             else heredoc TReadmeFallback)
  /\ (forall c, files s !! ".gitignore" = Some c ->
        exists more, files after !! ".gitignore" = Some (c ++ more)%string)
  /\ (forall p c, ~ In p quick_written -> files s !! p = Some c ->
        files after !! p = Some c)
  /\ (forall v fuel A c,
        A <> "prisma/seed.ts" -> tools_keep w A c -> files s !! A = Some c ->
        files (snd (setup heredoc w v fuel s)) !! A = Some c).
Proof.
  cbv zeta. repeat split.
  - intros path t Hin. apply quick_setup_overwrites, Hin.
  - intros c Hc. apply quick_setup_backs_up_readme, Hc.
  - apply quick_setup_writes_readme.
  - intros c Hc. rewrite quick_setup_gitignore, Hc. cbn [updated_gitignore].
    destruct (Grep.grep "prisma/migrations" c).
    + exists EmptyString. rewrite append_empty_r. reflexivity.
    + exists prisma_entry. reflexivity.
  - intros p c Hnot Hp. apply (quick_setup_keeps_file heredoc w p c s Hnot Hp).
  - intros v fuel A c Hne Htools HA.
    pose proof (FrameFacts.setup_keeps_file heredoc w A c v fuel Hne Htools s HA) as H.
    destruct (setup heredoc w v fuel s) as [[a | k |] s']; exact H.
Qed.

Lemma create_if_absent_scope_witness :
  let before :=
    Sample.with_files [ (".env.example", "KEY=value");
                        (".gitattributes", "* -text");
                        ("README.md", "my project");
                        (".gitignore", "node_modules") ] in
  let after := snd (quick_setup Sample.text (Sample.up_after 0) before) in
  files after !! ".gitattributes" = Some "(here-document)"
  /\ files after !! "README.metronic.backup.md" = Some "my project"
  /\ (exists more, files after !! ".gitignore" = Some ("node_modules" ++ more)%string)
  /\ files after !! ".env.example" = Some "KEY=value"
  /\ files (snd (setup Sample.text (Sample.up_after 0) Plain 1 before))
       !! ".env.example" = Some "KEY=value".
Proof.
  cbv zeta.
  pose proof (create_if_absent_scope Sample.text (Sample.up_after 0)
                (Sample.with_files [ (".env.example", "KEY=value");
                                     (".gitattributes", "* -text");
                                     ("README.md", "my project");
                                     (".gitignore", "node_modules") ]))
    as (Hover & Hbackup & _ & Hignore & Hother & Hsetup).
  split; [| split; [| split; [| split]]].
  - apply (Hover ".gitattributes" TGitattributes). cbn. tauto.
  - apply Hbackup. reflexivity.
  - apply Hignore. reflexivity.
  - apply Hother; [| reflexivity].
    cbn. intros H. repeat (destruct H as [H | H]; [discriminate H |]). exact H.
  - apply Hsetup; [discriminate | intros t s H; exact H | reflexivity].
Defined.

End QuickSetupFacts.

(** ** Strict failure: [set -e] *)

Module StrictFacts.
Import Shell Observe Triple ShellLogic.

Lemma all_ok_snoc (l : list event) (e : event) :
  all_ok l -> failure e = None -> all_ok (l ++ [e]).
Proof.
  intros Hl He e' Hin. apply in_app_or in Hin as [Hin | [<- | []]].
  - apply (Hl e' Hin).
  - exact He.
Qed.

Lemma failure_nonzero (e : event) (c : Z) : failure e = Some c -> c <> 0.
Proof.
  destruct e; cbn; try discriminate.
  - destruct (status =? 0) eqn:Hs; [discriminate |].
    intros H. injection H as <-. apply Z.eqb_neq. exact Hs.
  - intros H. injection H as <-. discriminate.
Qed.

Lemma filter_snoc_false {A} (f : A -> bool) (l : list A) (x : A) :
  f x = false -> filter f (l ++ [x]) = filter f l.
Proof. intros H. rewrite filter_app. cbn. rewrite H. apply app_nil_r. Qed.

Lemma filter_nil_not_in {A} (f : A -> bool) (l : list A) (x : A) :
  filter f l = [] -> f x = true -> ~ In x l.
Proof.
  intros Hnil Hx Hin.
  assert (H : In x (filter f l)) by (apply filter_In; split; assumption).
  rewrite Hnil in H. exact H.
Qed.

Section Strict.

Variable heredoc : template -> string.
Variable w : world.

Local Abbreviation ok := (fun s : state => all_ok (log s)).
Local Abbreviation stopped :=
  (fun (c : Z) (s : state) => exists e, stopped_at e c (log s)).

Local Ltac strict_leaf :=
  first
    [ (* an external program *)
      let s := fresh "s" in let k := fresh "k" in
      let f := fresh "f" in let d := fresh "d" in
      let HI := fresh "HI" in let He := fresh "He" in
      let Hk := fresh "Hk" in
      intros s k f d HI He; cbn [log];
      destruct (k =? 0) eqn:Hk;
      [ apply all_ok_snoc; [exact HI | cbn [failure]; rewrite Hk; reflexivity]
      | match type of He with
        | exec _ ?t _ = _ =>
            exists (Run t k); split;
            [ cbn [failure]; rewrite Hk; reflexivity
            | exists (log s); split; [reflexivity | exact HI] ]
        end ]
    | (* a here-document that was refused *)
      let s := fresh "s" in let HI := fresh "HI" in
      intros s HI _; unfold emit; cbn [log];
      match goal with
      | |- exists e, stopped_at e 1 (_ ++ [?r]) =>
          exists r; split;
          [reflexivity | exists (log s); split; [reflexivity | exact HI]]
      end
    | intros; unfold emit; cbn [log];
      first [ assumption | apply all_ok_snoc; [assumption | reflexivity] ] ].

(** A [setup.sh] goes on only while no command fails; the first one that
    does ends it with its status. *)
Lemma setup_strict (v : variant) (fuel : nat) :
  keeps stopped ok ok (setup heredoc w v fuel).
Proof. sh_walk strict_leaf. Qed.

(** With a schema push that fails, the stage never reaches the seed. *)
Hypothesis push_fails : forall s, fst (exec w PrismaDbPush s) <> 0.

Local Abbreviation unseeded :=
  (fun s : state => filter is_seed_run (log s) = []
                    /\ filter is_push_run (log s) = []).
Local Abbreviation failed :=
  (fun (c : Z) (s : state) => c <> 0 /\ filter is_seed_run (log s) = []).

Local Ltac unseeded_leaf :=
  first
    [ let s := fresh "s" in let k := fresh "k" in
      let f := fresh "f" in let d := fresh "d" in
      let Hs := fresh "Hs" in let Hp := fresh "Hp" in
      let He := fresh "He" in let Hk := fresh "Hk" in
      intros s k f d [Hs Hp] He; cbn [log];
      destruct (k =? 0) eqn:Hk;
      [ split; (rewrite filter_snoc_false; [assumption | reflexivity])
      | apply Z.eqb_neq in Hk; split;
        [exact Hk | rewrite filter_snoc_false; [assumption | reflexivity]] ]
    | let s := fresh "s" in let Hs := fresh "Hs" in let Hp := fresh "Hp" in
      intros s [Hs Hp] _; unfold emit; cbn [log]; split;
      [discriminate | rewrite filter_snoc_false; [assumption | reflexivity]]
    | intros; unfold emit; cbn [log];
      first [ assumption
            | match goal with
              | H : _ /\ _ |- _ =>
                  destruct H; split;
                  (rewrite filter_snoc_false; [assumption | reflexivity])
              end ] ].

Lemma initialize_prisma_push_fails (seed : template) (scripts : sh unit) :
  keeps failed unseeded unseeded scripts ->
  keeps failed unseeded unseeded (initialize_prisma heredoc w seed scripts).
Proof.
  intros Hscripts. unfold initialize_prisma. apply keeps_if_then. intros _ _ _.
  unfold keeps.
  do 7 (sh_keep (fun s : state => filter is_seed_run (log s) = []
                                  /\ filter is_push_run (log s) = [])
                unseeded_leaf).
  apply sat_bind with (Q := fun (_ : unit) (_ : state) => False).
  - apply sat_run. intros s k f d [Hs Hp] He. cbn [log].
    pose proof (push_fails s) as Hne. rewrite He in Hne. cbn [fst] in Hne.
    destruct (k =? 0) eqn:Hk.
    + apply Z.eqb_eq in Hk. contradiction.
    + split; [exact Hne | rewrite filter_snoc_false; [assumption | reflexivity]].
  - intros _ s [].
Qed.

Lemma setup_push_fails (v : variant) (fuel : nat) :
  keeps failed unseeded unseeded (setup heredoc w v fuel).
Proof.
  assert (H1 : keeps failed unseeded unseeded (add_db_scripts w))
    by sh_walk unseeded_leaf.
  assert (H2 : keeps failed unseeded unseeded (mret tt : sh unit))
    by apply keeps_ret.
  pose proof (initialize_prisma_push_fails TSeedMetronic _ H1).
  pose proof (initialize_prisma_push_fails TSeedPlain _ H2).
  sh_walk unseeded_leaf.
Qed.

End Strict.

(** The redirection of the schema descriptor is a command like the others:
    when [npx prisma init] returns 0 without leaving a directory prisma,
    [cat > prisma/schema.prisma] is refused, and that is where the script
    ends, with status 1 and before any other step of the stage. *)
Lemma refused_schema_write_stops_setup :
  let r := setup Sample.text Sample.idle_init Plain 1 Sample.empty_state in
  fst r = Abort 1
  /\ stopped_at (Refused "prisma/schema.prisma") 1 (log (snd r))
  /\ filter is_schema_step (log (snd r)) = [Run PrismaInit 0].
Proof.
  cbv zeta. split; [vm_compute; reflexivity |]. split; [| vm_compute; reflexivity].
  split; [reflexivity |].
  exists (removelast
            (log (snd (setup Sample.text Sample.idle_init Plain 1
                         Sample.empty_state)))).
  split; [vm_compute; reflexivity |].
  vm_compute. intros e H.
  repeat (destruct H as [H | H]; [subst e; reflexivity |]).
  destruct H.
Qed.

(** C5.  In a [setup.sh] started by a new process, with the commands the
    script runs as steps (the npm and npx commands and the here-documents
    [cat > file]; the psql of the poll loop and the grep of a test are
    conditions, which transient unavailability and the readiness gate are
    about): if one of them fails, that is the last thing the script does
    (no later command or stage runs), no command before it failed (it is
    the first that failed), and the process exits with its status, which is
    not 0.  If no command failed and the gate was passed, the process exits
    0; and it exits 0 only then.  In particular, when the schema push fails
    the seed is never run, and a run that reached the push exits
    non-zero. *)
Theorem strict_failure_propagation
    (heredoc : template -> string) (w : world) (v : variant) (fuel : nat)
    (s : state) :
  log s = [] ->
  let r := setup heredoc w v fuel s in
  (forall e c, In e (log (snd r)) -> failure e = Some c ->
     c <> 0 /\ exit_status (fst r) = Some c /\ stopped_at e c (log (snd r)))
  /\ (all_ok (log (snd r)) -> fst r <> Waiting -> exit_status (fst r) = Some 0)
  /\ (exit_status (fst r) = Some 0 -> all_ok (log (snd r)))
  /\ ((forall s, fst (exec w PrismaDbPush s) <> 0) ->
      (forall c, ~ In (Run NpmRunDbSeed c) (log (snd r)))
      /\ ((exists c, In (Run PrismaDbPush c) (log (snd r))) ->
          exists k, exit_status (fst r) = Some k /\ k <> 0)).
Proof.
  intros Hlog. cbv zeta.
  assert (Hok : all_ok (log s)) by (rewrite Hlog; intros e []).
  pose proof (setup_strict heredoc w v fuel s Hok) as Hstrict.
  split; [| split; [| split]].
  - intros e c Hin Hc. split; [exact (failure_nonzero e c Hc) |].
    destruct (setup heredoc w v fuel s) as [[a | k |] s']; cbn [fst snd] in *.
    + rewrite (Hstrict e Hin) in Hc. discriminate Hc.
    + destruct Hstrict as (e' & Hk & before & Heq & Hbefore).
      rewrite Heq in Hin. apply in_app_or in Hin as [Hin | [Hin | []]].
      * rewrite (Hbefore e Hin) in Hc. discriminate Hc.
      * subst e'. rewrite Hk in Hc. injection Hc as <-. split; [reflexivity |].
        split; [exact Hk | exists before; split; assumption].
    + rewrite (Hstrict e Hin) in Hc. discriminate Hc.
  - intros Hall Hnot.
    destruct (setup heredoc w v fuel s) as [[a | k |] s']; cbn [fst snd] in *.
    + reflexivity.
    + destruct Hstrict as (e' & Hk & before & Heq & _).
      exfalso. rewrite (Hall e') in Hk; [discriminate Hk |]. rewrite Heq.
      apply in_or_app. right. left. reflexivity.
    + contradiction.
  - intros Hzero.
    destruct (setup heredoc w v fuel s) as [[a | k |] s']; cbn [fst snd] in *.
    + exact Hstrict.
    + destruct Hstrict as (e' & Hk & _). injection Hzero as ->.
      exfalso. exact (failure_nonzero e' 0 Hk eq_refl).
    + discriminate Hzero.
  - intros Hpush.
    assert (Hun : filter is_seed_run (log s) = [] /\ filter is_push_run (log s) = [])
      by (rewrite Hlog; split; reflexivity).
    pose proof (setup_push_fails heredoc w Hpush v fuel s Hun) as Hrun.
    destruct (setup heredoc w v fuel s) as [[a | k |] s']; cbn [fst snd] in *.
    + destruct Hrun as [Hseed Hp]. split.
      * intros c. apply (filter_nil_not_in is_seed_run _ _ Hseed). reflexivity.
      * intros [c Hin]. exfalso.
        apply (filter_nil_not_in is_push_run _ _ Hp (eq_refl : is_push_run (Run PrismaDbPush c) = true) Hin).
    + destruct Hrun as [Hk Hseed]. split.
      * intros c. apply (filter_nil_not_in is_seed_run _ _ Hseed). reflexivity.
      * intros _. exists k. split; [reflexivity | exact Hk].
    + destruct Hrun as [Hseed Hp]. split.
      * intros c. apply (filter_nil_not_in is_seed_run _ _ Hseed). reflexivity.
      * intros [c Hin]. exfalso.
        apply (filter_nil_not_in is_push_run _ _ Hp (eq_refl : is_push_run (Run PrismaDbPush c) = true) Hin).
Qed.

Lemma strict_failure_propagation_witness :
  let failed := setup Sample.text (Sample.fails_at PrismaDbPush) Metronic 1
                      Sample.empty_state in
  let fine := setup Sample.text (Sample.up_after 0) Plain 1 Sample.empty_state in
  exit_status (fst failed) = Some 1
  /\ ~ In (Run NpmRunDbSeed 0) (log (snd failed))
  /\ exit_status (fst fine) = Some 0.
Proof.
  cbv zeta.
  pose proof (strict_failure_propagation Sample.text (Sample.fails_at PrismaDbPush)
                Metronic 1 Sample.empty_state eq_refl) as (Hfirst & _ & _ & Hpush).
  pose proof (strict_failure_propagation Sample.text (Sample.up_after 0)
                Plain 1 Sample.empty_state eq_refl) as (_ & Hfine & _ & _).
  split; [| split].
  - apply (Hfirst (Run PrismaDbPush 1) 1); [| reflexivity].
    vm_compute. repeat (first [left; reflexivity | right]).
  - apply Hpush. intros s. cbn. discriminate.
  - apply Hfine.
    + vm_compute. intros e H.
      repeat (destruct H as [H | H]; [subst e; reflexivity |]).
      destruct H.
    + vm_compute. discriminate.
Defined.

End StrictFacts.

(** ** The ORM client dependency *)

Module DependencyFacts.
Import Shell Observe Triple ShellLogic.

Lemma prisma_installed_snoc (l : list event) (e : event) :
  prisma_installed l -> prisma_installed (l ++ [e]).
Proof.
  intros (c1 & H1 & H2). exists c1. split.
  - apply in_or_app. left. exact H1.
  - intros Hc. destruct (H2 Hc) as [c2 Hin]. exists c2.
    apply in_or_app. left. exact Hin.
Qed.

Section Dependency.

Variable heredoc : template -> string.
Variable w : world.

Local Abbreviation none_run :=
  (fun s : state => filter is_prisma_install (log s) = []).

Local Ltac none_leaf :=
  first
    [ let s := fresh "s" in let k := fresh "k" in
      let f := fresh "f" in let d := fresh "d" in
      let HI := fresh "HI" in let He := fresh "He" in
      intros s k f d HI He; cbn [log];
      destruct (k =? 0);
      (rewrite StrictFacts.filter_snoc_false; [assumption | reflexivity])
    | intros; unfold emit; cbn [log];
      first [ assumption
            | rewrite StrictFacts.filter_snoc_false; [assumption | reflexivity] ] ].

(** The plain [setup.sh] has no step that installs the ORM client. *)
Lemma setup_plain_never_installs_prisma (fuel : nat) :
  keeps (fun _ => none_run) none_run none_run (setup_plain heredoc w fuel).
Proof. sh_walk none_leaf. Qed.

Variable m : string.
Hypothesis install_keeps : install_keeps_manifest w m.

(** The themed scripts, with a manifest that names the client. *)
Local Abbreviation declared :=
  (fun s : state => files s !! "package.json" = Some m
                    /\ filter is_prisma_install (log s) = []).

Local Ltac declared_leaf :=
  first
    [ let s := fresh "s" in let k := fresh "k" in
      let f := fresh "f" in let d := fresh "d" in
      let Hm := fresh "Hm" in let HI := fresh "HI" in let He := fresh "He" in
      intros s k f d [Hm HI] He; cbn [log files];
      pose proof (install_keeps s Hm) as Hkeep; rewrite He in Hkeep;
      destruct (k =? 0);
      [ split; [exact Hkeep |];
        rewrite StrictFacts.filter_snoc_false; [assumption | reflexivity]
      | rewrite StrictFacts.filter_snoc_false; [assumption | reflexivity] ]
    | intros; unfold emit; cbn [log files];
      first [ assumption
            | match goal with
              | H : _ /\ _ |- _ /\ _ =>
                  destruct H; split;
                  [ first [ assumption
                          | rewrite lookup_insert_ne; [assumption | congruence] ]
                  | first [ assumption
                          | rewrite StrictFacts.filter_snoc_false;
                            [assumption | reflexivity] ] ]
              | H : _ /\ _ |- _ => exact (proj2 H)
              end ] ].

Lemma themed_declared_skips_install (v : variant) (fuel : nat) :
  v <> Plain ->
  Grep.grep "@prisma/client" m = true ->
  sat (fun _ => none_run) none_run declared (setup heredoc w v fuel)
      (fun _ => none_run).
Proof.
  intros Hv Hgrep.
  assert (Hskip : sat (fun _ => none_run) none_run declared (install_prisma w)
                      (fun _ => none_run)).
  { intros s [Hm HI]. unfold install_prisma, if_then, not_, grep_q.
    rewrite Hm, Hgrep. exact HI. }
  destruct v; [| | contradiction]; cbn [setup];
    [unfold setup_metronic | unfold setup_embedded];
    (do 4 (sh_keep (fun s : state => files s !! "package.json" = Some m
                                     /\ filter is_prisma_install (log s) = [])
                   declared_leaf);
     apply sat_bind with (Q := fun (_ : unit) (s : state) =>
                                 filter is_prisma_install (log s) = []);
     [ exact Hskip | intros _ ];
     lazymatch goal with
     | |- Triple.sat ?E ?W ?P ?k _ => change (Triple.keeps E W P k)
     end;
     sh_walk none_leaf).
Qed.

(** The themed scripts, with a manifest that does not name the client. *)
Hypothesis install_ok : install_succeeds w.
Variables n fuel : nat.
Hypothesis database_up : psql w n = true.
Hypothesis enough : (n < fuel)%nat.

Local Abbreviation installed :=
  (fun s : state => prisma_installed (log s)).
Local Abbreviation manifest_is :=
  (fun s : state => files s !! "package.json" = Some m).

Local Ltac manifest_leaf :=
  first
    [ let s := fresh "s" in let k := fresh "k" in
      let f := fresh "f" in let d := fresh "d" in
      let Hm := fresh "Hm" in let He := fresh "He" in
      let Hk := fresh "Hk" in
      intros s k f d Hm He; cbn [log files];
      pose proof (install_keeps s Hm) as Hkeep;
      pose proof (install_ok s) as Hzero;
      rewrite He in Hkeep, Hzero; cbn [fst] in Hzero; subst k;
      exact Hkeep
    | intros; unfold emit; cbn [log files];
      first [ assumption
            | rewrite lookup_insert_ne; [assumption | congruence] ] ].

Local Ltac installed_leaf :=
  first
    [ let s := fresh "s" in let k := fresh "k" in
      let f := fresh "f" in let d := fresh "d" in
      let HI := fresh "HI" in let He := fresh "He" in
      intros s k f d HI He; cbn [log];
      destruct (k =? 0); apply prisma_installed_snoc; exact HI
    | intros; unfold emit; cbn [log];
      first [ assumption | apply prisma_installed_snoc; assumption ] ].

Lemma themed_missing_installs (v : variant) :
  v <> Plain ->
  Grep.grep "@prisma/client" m = false ->
  sat (fun _ => installed) (fun _ => False) manifest_is (setup heredoc w v fuel)
      (fun _ => installed).
Proof.
  intros Hv Hgrep.
  assert (Hrun : sat (fun _ => installed) (fun _ => False) manifest_is
                     (install_prisma w) (fun _ => installed)).
  { intros s Hm. unfold install_prisma, if_then, not_, grep_q.
    rewrite Hm, Hgrep. cbn [negb]. sh_steps.
    unfold run at 1. unfold emit. cbn [files dirs log].
    destruct (exec w NpmInstallPrismaClient _) as [c1 [f1 d1]].
    destruct (c1 =? 0) eqn:H1.
    - unfold run. cbn [files dirs log].
      destruct (exec w NpmInstallDevPrismaTsx _) as [c2 [f2 d2]].
      assert (Hq : prisma_installed
                     (((log s ++ [Echo "📦 Installing Prisma..."])
                         ++ [Run NpmInstallPrismaClient c1])
                        ++ [Run NpmInstallDevPrismaTsx c2])).
      { exists c1. split.
        - apply in_or_app. left. apply in_or_app. right. left. reflexivity.
        - intros _. exists c2. apply in_or_app. right. left. reflexivity. }
      destruct (c2 =? 0); exact Hq.
    - cbn [log]. exists c1. split.
      + apply in_or_app. right. left. reflexivity.
      + intros Hc. subst c1. discriminate H1. }
  destruct v; [| | contradiction]; cbn [setup];
    [unfold setup_metronic | unfold setup_embedded];
    (do 4 (sh_keep (fun s : state => files s !! "package.json" = Some m)
                   manifest_leaf);
     apply sat_bind with (Q := fun (_ : unit) (s : state) =>
                                 prisma_installed (log s));
     [ exact Hrun | intros _ ];
     lazymatch goal with
     | |- Triple.sat ?E ?W ?P ?k _ => change (Triple.keeps E W P k)
     end;
     sh_walk installed_leaf).
Qed.

End Dependency.

(** The plain [setup.sh], given a manifest without the client, installs
    what the manifest lists and nothing else: no command adds the client,
    and the manifest is as it was. *)
Lemma plain_setup_does_not_add_prisma :
  let before := Sample.with_files [("package.json", "{ }")] in
  let after := snd (setup Sample.text (Sample.up_after 0) Plain 1 before) in
  Grep.contains "@prisma/client" "{ }" = false
  /\ In (Run NpmInstall 0) (log after)
  /\ filter is_prisma_install (log after) = []
  /\ files after !! "package.json" = Some "{ }".
Proof.
  vm_compute. repeat split. repeat (first [left; reflexivity | right]).
Qed.

(** C9, as the scripts have it.  Given a manifest [m] at the start of a new
    process.  In the themed [setup.sh] and its copy in quick-setup.sh, with
    an [npm install] that leaves the manifest as it is: if [m] does not
    contain [@prisma/client], [npm install] succeeds and the database comes
    up, then [npm install @prisma/client] is run, and [npm install -D prisma
    tsx] after it unless it failed; if [m] contains [@prisma/client],
    neither is run.  The plain [setup.sh] runs neither, whatever the
    manifest. *)
Theorem prisma_dependency_guard
    (heredoc : template -> string) (w : world) (fuel : nat) (s : state)
    (m : string) :
  files s !! "package.json" = Some m ->
  log s = [] ->
  (forall v, v <> Plain -> install_keeps_manifest w m ->
     (Grep.contains "@prisma/client" m = false ->
      install_succeeds w ->
      (exists n, psql w n = true /\ (n < fuel)%nat) ->
      prisma_installed (log (snd (setup heredoc w v fuel s))))
     /\ (Grep.contains "@prisma/client" m = true ->
         filter is_prisma_install (log (snd (setup heredoc w v fuel s))) = []))
  /\ filter is_prisma_install (log (snd (setup heredoc w Plain fuel s))) = [].
Proof.
  intros Hm Hlog.
  assert (Hgrep : Grep.grep "@prisma/client" m = Grep.contains "@prisma/client" m)
    by (apply GrepFacts.grep_contains; [reflexivity | discriminate]).
  assert (Hnone : filter is_prisma_install (log s) = []) by (rewrite Hlog; reflexivity).
  split.
  - intros v Hv Hkeep. split.
    + intros Hmissing Hok (n & Hup & Hn). rewrite <- Hgrep in Hmissing.
      pose proof (themed_missing_installs heredoc w m Hkeep Hok n fuel Hup Hn v Hv
                    Hmissing s Hm) as H.
      destruct (setup heredoc w v fuel s) as [[a | k |] s']; [exact H | exact H | contradiction].
    + intros Hdeclared. rewrite <- Hgrep in Hdeclared.
      pose proof (themed_declared_skips_install heredoc w m Hkeep v fuel Hv Hdeclared
                    s (conj Hm Hnone)) as H.
      destruct (setup heredoc w v fuel s) as [[a | k |] s']; exact H.
  - pose proof (setup_plain_never_installs_prisma heredoc w fuel s Hnone) as H.
    cbn [setup]. destruct (setup_plain heredoc w fuel s) as [[a | k |] s']; exact H.
Qed.

Lemma prisma_dependency_guard_witness :
  prisma_installed
    (log (snd (setup Sample.text (Sample.up_after 2) Metronic 5
                 (Sample.with_files [("package.json", "{ }")]))))
  /\ filter is_prisma_install
       (log (snd (setup Sample.text (Sample.up_after 2) Embedded 5
                    (Sample.with_files [("package.json", "@prisma/client")]))))
     = [].
Proof.
  split.
  - apply (proj1 (prisma_dependency_guard Sample.text (Sample.up_after 2) 5
                    (Sample.with_files [("package.json", "{ }")]) "{ }"
                    eq_refl eq_refl)
                 Metronic).
    + discriminate.
    + intros s H. exact H.
    + reflexivity.
    + intros s. reflexivity.
    + exists 2%nat. split; [reflexivity | lia].
  - apply (proj1 (prisma_dependency_guard Sample.text (Sample.up_after 2) 5
                    (Sample.with_files [("package.json", "@prisma/client")])
                    "@prisma/client" eq_refl eq_refl)
                 Embedded).
    + discriminate.
    + intros s H. exact H.
    + reflexivity.
Defined.

End DependencyFacts.

(** ** The schema and seed stage *)

Module SchemaStageFacts.
Import Shell Observe Triple ShellLogic.

Lemma filter_snoc_true {A} (f : A -> bool) (l : list A) (x : A) :
  f x = true -> filter f (l ++ [x]) = filter f l ++ [x].
Proof. intros H. rewrite filter_app. cbn. rewrite H. reflexivity. Qed.

(** The scaffold paths of the embedded script are never those of the stage. *)
Lemma lib_write_not_step (s0 : state) (t : template) :
  is_schema_step (Write (lib_dir s0 ++ "/prisma.ts")%string t) = false.
Proof. unfold lib_dir. destruct (test_d "src" s0); reflexivity. Qed.

Lemma api_write_not_step (s0 : state) (t : template) :
  is_schema_step (Write (api_dir s0 ++ "/route.ts")%string t) = false.
Proof.
  unfold api_dir. destruct (test_d "src/app" s0), (test_d "app" s0); reflexivity.
Qed.

Local Ltac not_a_step :=
  first [ reflexivity | apply lib_write_not_step | apply api_write_not_step ].

Section Present.

Variable heredoc : template -> string.
Variable w : world.
Variable L : list event.
Hypothesis keep_present : tools_keep_present w "prisma/schema.prisma".

Local Abbreviation skipped :=
  (fun s : state => is_Some (files s !! "prisma/schema.prisma")
                    /\ filter is_schema_step (log s) = L).

Local Ltac skipped_leaf :=
  first
    [ match goal with
      | Hc : not_ (test_f "prisma/schema.prisma") ?s0 = true,
        Hp : is_Some (files ?s0 !! "prisma/schema.prisma") /\ _ |- _ =>
          exfalso; exact (FrameFacts.absent_not_present s0 _ (proj1 Hp) Hc)
      end
    | let s := fresh "s" in let k := fresh "k" in
      let f := fresh "f" in let d := fresh "d" in
      let Hp := fresh "Hp" in let HI := fresh "HI" in let He := fresh "He" in
      let Hkeep := fresh "Hkeep" in
      intros s k f d [Hp HI] He; cbn [log files];
      match type of He with
      | exec _ ?t _ = _ =>
          pose proof (keep_present t s Hp) as Hkeep; rewrite He in Hkeep
      end;
      destruct (k =? 0); split;
      first [ exact Hkeep
            | rewrite StrictFacts.filter_snoc_false; [assumption | reflexivity] ]
    | intros; unfold emit; cbn [log files];
      first [ assumption
            | match goal with
              | H : _ /\ _ |- _ /\ _ =>
                  destruct H; split;
                  [ first [ assumption
                          | apply FrameFacts.is_Some_insert_keep; assumption ]
                  | first [ assumption
                          | rewrite StrictFacts.filter_snoc_false;
                            [assumption | not_a_step] ] ]
              end ] ].

(** With the schema descriptor present and never removed, no step of the
    stage happens, however the script ends. *)
Lemma setup_skips_stage (v : variant) (fuel : nat) :
  keeps (fun _ => skipped) skipped skipped (setup heredoc w v fuel).
Proof. sh_walk skipped_leaf. Qed.

End Present.

Section Steps.

Variable heredoc : template -> string.
Variable w : world.
Hypothesis tools_ok : tools_succeed w.

(** [J] is what else is known of the files: it ignores the log and the
    directories, and the writes and the programs in [known] keep it. *)
Variable J : state -> Prop.
Variable known : tool -> Prop.
Hypothesis J_files : forall s s', files s = files s' -> J s -> J s'.
Hypothesis J_write :
  forall s path v, path <> "package.json" -> J s ->
    J (State (<[path := v]> (files s)) (dirs s) (log s)).
Hypothesis J_run :
  forall t s, known t -> J s ->
    J (State (fst (snd (exec w t s))) (snd (snd (exec w t s))) (log s)).

Variable L : list event.

Local Abbreviation anyway := (fun (_ : Z) (_ : state) => True).
Local Abbreviation no_wait := (fun _ : state => False).

Lemma seen_other (l : list event) (e : event) (s : state) (d : gset string) :
  is_schema_step e = false -> seen J L l s ->
  seen J L l (State (files s) d (log s ++ [e])).
Proof.
  intros He [HJ Hl]. split.
  - apply (J_files s); [reflexivity | exact HJ].
  - cbn [log]. rewrite StrictFacts.filter_snoc_false; assumption.
Qed.

Lemma step_run (t : tool) (l : list event) :
  known t -> is_schema_step (Run t 0) = true ->
  sat anyway no_wait (seen J L l) (run w t) (fun _ => seen J L (l ++ [Run t 0])).
Proof.
  intros Hknown Ht. apply sat_run. intros s k f d [HJ Hl] He.
  pose proof (tools_ok t s) as Hk. pose proof (J_run t s Hknown HJ) as HJ'.
  rewrite He in Hk, HJ'. cbn [fst snd] in Hk, HJ'. subst k. cbn [Z.eqb].
  split.
  - apply (J_files (State f d (log s))); [reflexivity | exact HJ'].
  - cbn [log]. rewrite filter_snoc_true by exact Ht. rewrite Hl, <- app_assoc. reflexivity.
Qed.

Lemma step_cat_to (path : string) (t : template) (l : list event) :
  is_schema_step (Write path t) = true -> path <> "package.json" ->
  sat anyway no_wait (seen J L l) (cat_to heredoc path t)
      (fun _ => seen J L (l ++ [Write path t])).
Proof.
  intros Ht Hpath. apply sat_cat_to; [| intros; exact I].
  intros s [HJ Hl] _. split.
  - apply (J_files (State (<[path := heredoc t]> (files s)) (dirs s) (log s)));
      [reflexivity | apply J_write; assumption].
  - cbn [log]. rewrite filter_snoc_true by exact Ht. rewrite Hl, <- app_assoc. reflexivity.
Qed.

Lemma seen_echo (line : string) (l : list event) :
  keeps anyway no_wait (seen J L l) (echo line).
Proof. apply keeps_emit_echo. intros s H. apply seen_other; [reflexivity | exact H]. Qed.

Lemma seen_mkdir_p (path : string) (l : list event) :
  keeps anyway no_wait (seen J L l) (mkdir_p path).
Proof. apply keeps_mkdir_p. intros s H. apply seen_other; [reflexivity | exact H]. Qed.

End Steps.

Section Stage.

Variable heredoc : template -> string.
Variable w : world.
Hypothesis tools_ok : tools_succeed w.

(** What the alias step relies on: kept by the writes of the stage and by
    [npx prisma init]. *)
Variable J : state -> Prop.
Hypothesis J_files : forall s s', files s = files s' -> J s -> J s'.
Hypothesis J_write :
  forall s path v, path <> "package.json" -> J s ->
    J (State (<[path := v]> (files s)) (dirs s) (log s)).
Hypothesis J_init :
  forall s, J s ->
    J (State (fst (snd (exec w PrismaInit s))) (snd (snd (exec w PrismaInit s)))
             (log s)).

Variable L : list event.

Local Abbreviation anyway := (fun (_ : Z) (_ : state) => True).
Local Abbreviation no_wait := (fun _ : state => False).
Local Abbreviation anything := (fun _ : state => True).

(** The steps after the alias step need no knowledge of the files. *)
Local Ltac late_step :=
  apply (step_run w tools_ok anything (fun _ => True));
  [ intros; exact I | intros; exact I | exact I | reflexivity ].

(** The stage from a state without schema descriptor: all of its steps, in
    the order of the script. *)
Lemma initialize_prisma_runs (seed : template) (scripts : sh unit)
    (aliases : list event) :
  (forall l, sat anyway no_wait (seen J L l) scripts
                 (fun _ => seen anything L (l ++ aliases))) ->
  sat anyway no_wait
      (fun s => files s !! "prisma/schema.prisma" = None /\ seen J L [] s)
      (initialize_prisma heredoc w seed scripts)
      (fun _ => seen anything L (schema_steps seed aliases)).
Proof.
  intros Hscripts. unfold initialize_prisma.
  apply sat_if_then.
  2:{ intros s [Habsent _] Hc. exfalso. unfold not_, test_f in Hc.
      rewrite Habsent in Hc.
      rewrite bool_decide_eq_false_2 in Hc by (intros [x Hx]; discriminate Hx).
      discriminate Hc. }
  apply sat_weaken with (P' := seen J L [])
                        (Q' := fun _ => seen anything L (schema_steps seed aliases));
    [| intros s [[_ H] _]; exact H | intros ? s H; exact H].
  eapply sat_bind; [apply (seen_echo J J_files) | intros []; cbv beta].
  eapply sat_bind;
    [ apply (step_run w tools_ok J (fun t => t = PrismaInit) J_files);
      [intros t s -> HJ; apply J_init, HJ | reflexivity | reflexivity]
    | intros []; cbv beta ].
  eapply sat_bind;
    [apply (step_cat_to heredoc J J_files J_write); [reflexivity | discriminate]
    | intros []; cbv beta].
  eapply sat_bind; [apply (seen_mkdir_p J J_files) | intros []; cbv beta].
  eapply sat_bind;
    [apply (step_cat_to heredoc J J_files J_write); [reflexivity | discriminate]
    | intros []; cbv beta].
  eapply sat_bind; [apply Hscripts | intros []; cbv beta].
  eapply sat_bind; [late_step | intros []; cbv beta].
  eapply sat_bind; [late_step | intros []; cbv beta].
  eapply sat_weaken; [late_step | intros s H; exact H |].
  intros ? s [HJ Hl]. split; [exact HJ |]. rewrite Hl. f_equal.
  unfold schema_steps. cbn [app]. rewrite <- !app_assoc. reflexivity.
Qed.

(** The alias step of the themed scripts. *)
Lemma add_db_scripts_runs (b : bool) (l : list event) :
  (forall s, J s -> grep_q "db:seed" "package.json" s = b) ->
  sat anyway no_wait (seen J L l) (add_db_scripts w)
      (fun _ => seen anything L (l ++ if b then [] else alias_runs)).
Proof.
  intros Hb. unfold add_db_scripts. apply sat_if_then.
  2:{ intros s [HJ Hl] Hc. unfold not_ in Hc. rewrite (Hb s HJ) in Hc.
      destruct b; [| discriminate Hc]. rewrite app_nil_r. split; [exact I | exact Hl]. }
  apply sat_weaken with (P' := fun s => seen anything L l s /\ b = false)
                        (Q' := fun _ s => seen anything L (l ++ alias_runs) s /\ b = false).
  2:{ intros s [[HJ Hl] Hc]. unfold not_ in Hc. rewrite (Hb s HJ) in Hc.
      destruct b; [discriminate Hc |]. repeat split; assumption. }
  2:{ intros ? s [H ->]. exact H. }
  intros s [H Hfalse].
  assert (Hgo : sat anyway no_wait (seen anything L l)
                    (echo "📝 Adding database scripts to package.json...";;
                     run w (NpmPkgSet "db:generate" "prisma generate");;
                     run w (NpmPkgSet "db:push" "prisma db push");;
                     run w (NpmPkgSet "db:migrate" "prisma migrate dev");;
                     run w (NpmPkgSet "db:seed" "tsx prisma/seed.ts");;
                     run w (NpmPkgSet "db:studio" "prisma studio"))
                    (fun _ => seen anything L (l ++ alias_runs))).
  { eapply sat_bind;
      [apply (seen_echo anything); intros; exact I | intros []; cbv beta].
    eapply sat_bind; [late_step | intros []; cbv beta].
    eapply sat_bind; [late_step | intros []; cbv beta].
    eapply sat_bind; [late_step | intros []; cbv beta].
    eapply sat_bind; [late_step | intros []; cbv beta].
    eapply sat_weaken; [late_step | intros s0 H0; exact H0 |].
    intros ? s0 [HJ Hl]. split; [exact HJ |]. rewrite Hl. f_equal.
    unfold alias_runs. rewrite <- !app_assoc. reflexivity. }
  specialize (Hgo s H).
  match type of Hgo with
  | (let (_, _) := ?r in _) => destruct r as [[a | k |] s']
  end; [split; assumption | exact Hgo | exact Hgo].
Qed.

End Stage.

Section Absent.

Variable heredoc : template -> string.
Variable w : world.
Hypothesis tools_ok : tools_succeed w.
Hypothesis installs_absent : installs_keep_absent w "prisma/schema.prisma".
Variables n fuel : nat.
Hypothesis database_up : psql w n = true.
Hypothesis enough : (n < fuel)%nat.
Variable L : list event.

Local Abbreviation anyway := (fun (_ : Z) (_ : state) => True).
Local Abbreviation no_wait := (fun _ : state => False).
Local Abbreviation after_stage :=
  (fun (l : list event) (s : state) => filter is_schema_step (log s) = L ++ l).

Local Ltac install_tool :=
  unfold early_tools, installs; cbn [In]; tauto.

(** After the stage nothing is a step of it. *)
Local Ltac post_leaf :=
  intros; unfold emit; cbn [log];
  first [ assumption
        | exact I
        | rewrite StrictFacts.filter_snoc_false; [assumption | not_a_step] ].

(** Before the stage, in the plain script. *)
Local Ltac plain_leaf :=
  first
    [ let s := fresh "s" in let k := fresh "k" in
      let f := fresh "f" in let d := fresh "d" in
      let Ha := fresh "Ha" in let Hl := fresh "Hl" in let He := fresh "He" in
      let Hk := fresh "Hk" in let Hf := fresh "Hf" in
      intros s k f d [Ha Hl] He; cbn [log files];
      match type of He with
      | exec _ ?t _ = _ =>
          pose proof (tools_ok t s) as Hk;
          pose proof (installs_absent t s ltac:(install_tool) Ha) as Hf
      end;
      rewrite He in Hk, Hf; cbn [fst snd] in Hk, Hf; subst k; cbn [Z.eqb];
      split; [exact Hf | rewrite StrictFacts.filter_snoc_false; [assumption | reflexivity]]
    | intros; unfold emit; cbn [log files];
      first [ assumption
            | match goal with
              | H : _ /\ _ |- _ /\ _ =>
                  destruct H; split;
                  [ first [ assumption
                          | rewrite lookup_insert_ne; [assumption | congruence] ]
                  | first [ assumption
                          | rewrite StrictFacts.filter_snoc_false;
                            [assumption | reflexivity] ] ]
              end ] ].

Lemma setup_plain_runs_stage :
  sat anyway no_wait
      (fun s => files s !! "prisma/schema.prisma" = None
                /\ filter is_schema_step (log s) = L)
      (setup_plain heredoc w fuel)
      (fun _ => after_stage (schema_steps TSeedPlain [])).
Proof.
  unfold setup_plain.
  do 5 (sh_keep (fun s : state => files s !! "prisma/schema.prisma" = None
                                  /\ filter is_schema_step (log s) = L)
                plain_leaf).
  apply sat_bind with (Q := fun _ : unit => after_stage (schema_steps TSeedPlain [])).
  - eapply sat_weaken.
    + apply (initialize_prisma_runs heredoc w tools_ok (fun _ => True)
               ltac:(auto) ltac:(auto) ltac:(auto) L TSeedPlain (mret tt) []).
      intros l s H. cbn. rewrite app_nil_r. exact H.
    + intros s [Ha Hl]. unfold seen. rewrite app_nil_r. auto.
    + intros ? s [_ H]. exact H.
  - intros _.
    lazymatch goal with
    | |- Triple.sat ?E ?W ?P ?k _ => change (Triple.keeps E W P k)
    end.
    sh_walk post_leaf.
Qed.

(** When there is no directory prisma and no external program makes one,
    the redirection of the schema descriptor is refused: the script ends
    there with status 1, and init is the only step of the stage that ran. *)
Local Abbreviation refused :=
  (fun (c : Z) (s : state) =>
     c = 1 /\ filter is_schema_step (log s) = L ++ [Run PrismaInit 0]).
Local Abbreviation bare :=
  (fun s : state => files s !! "prisma/schema.prisma" = None
                    /\ ("prisma" ∉ dirs s)
                    /\ filter is_schema_step (log s) = L).

Lemma setup_stops_at_schema_write (v : variant) :
  tools_never_make w "prisma" ->
  sat refused no_wait bare (setup heredoc w v fuel) (fun _ _ => False).
Proof.
  intros Hnone.
  assert (Hstage : forall seed scripts,
    sat refused no_wait bare (initialize_prisma heredoc w seed scripts)
        (fun _ _ => False)).
  { intros seed scripts. unfold initialize_prisma. apply sat_if_then.
    2:{ intros s [Habsent _] Hc. unfold not_, test_f in Hc. rewrite Habsent in Hc.
        rewrite bool_decide_eq_false_2 in Hc by (intros [x Hx]; discriminate Hx).
        discriminate Hc. }
    apply sat_weaken with
      (P' := fun s => ("prisma" ∉ dirs s) /\ filter is_schema_step (log s) = L)
      (Q' := fun (_ : unit) (_ : state) => False);
      [| intros s [(_ & Hd & Hl) _]; split; assumption | intros ? ? H; exact H].
    apply sat_bind with
      (Q := fun (_ : unit) (s : state) =>
              ("prisma" ∉ dirs s) /\ filter is_schema_step (log s) = L).
    { intros s [Hd Hl]. split; [exact Hd |]. cbn [echo emit log snd].
      rewrite StrictFacts.filter_snoc_false by reflexivity. exact Hl. }
    intros _.
    apply sat_bind with
      (Q := fun (_ : unit) (s : state) =>
              ("prisma" ∉ dirs s)
              /\ filter is_schema_step (log s) = L ++ [Run PrismaInit 0]).
    { apply sat_run. intros s k f d [Hd Hl] He.
      pose proof (tools_ok PrismaInit s) as Hk.
      pose proof (Hnone PrismaInit s Hd) as Hd'.
      rewrite He in Hk, Hd'. cbn [fst snd] in Hk, Hd'. subst k. cbn [Z.eqb].
      split; [exact Hd' |]. cbn [log].
      rewrite filter_snoc_true by reflexivity. rewrite Hl. reflexivity. }
    intros _.
    apply sat_bind with (Q := fun (_ : unit) (_ : state) => False).
    { apply sat_cat_to.
      - intros s [Hd _] Hw. apply Hd. unfold writable, test_d in Hw.
        change (parent "prisma/schema.prisma") with (Some "prisma") in Hw.
        apply bool_decide_eq_true in Hw. exact Hw.
      - intros s [_ Hl] _. split; [reflexivity |]. unfold emit. cbn [log].
        rewrite StrictFacts.filter_snoc_false by reflexivity. exact Hl. }
    intros _ s []. }
  assert (Hleaf_run : forall t, In t installs ->
    forall s k f d, bare s -> exec w t s = (k, (f, d)) ->
      if k =? 0 then bare (State f d (log s ++ [Run t k]))
      else refused k (State f d (log s ++ [Run t k]))).
  { intros t Ht s k f d (Ha & Hd & Hl) He.
    pose proof (tools_ok t s) as Hk.
    pose proof (installs_absent t s Ht Ha) as Hf.
    pose proof (Hnone t s Hd) as Hd'.
    rewrite He in Hk, Hf, Hd'. cbn [fst snd] in Hk, Hf, Hd'. subst k. cbn [Z.eqb].
    repeat split; [exact Hf | exact Hd' |]. cbn [log].
    rewrite StrictFacts.filter_snoc_false; [exact Hl |].
    unfold installs in Ht. cbn [In] in Ht.
    destruct Ht as [<- | [<- | [<- | []]]]; reflexivity. }
  destruct v; cbn [setup];
    [unfold setup_metronic | unfold setup_embedded | unfold setup_plain];
    (do 5 (sh_keep (fun s : state => files s !! "prisma/schema.prisma" = None
                                     /\ ("prisma" ∉ dirs s)
                                     /\ filter is_schema_step (log s) = L)
                   ltac:(first
                     [ apply Hleaf_run; install_tool
                     | intros; unfold emit; cbn [log files dirs];
                       first
                         [ assumption
                         | match goal with
                           | H : _ /\ _ /\ _ |- _ /\ _ /\ _ =>
                               destruct H as (? & ? & ?); split; [| split];
                               [ first [ assumption
                                       | rewrite lookup_insert_ne;
                                         [assumption | congruence] ]
                               | assumption
                               | first [ assumption
                                       | rewrite StrictFacts.filter_snoc_false;
                                         [assumption | reflexivity] ] ]
                           end ] ]));
     apply sat_bind with (Q := fun (_ : unit) (_ : state) => False);
     [ apply Hstage | intros _ s [] ]).
Qed.

(** Before the stage, in the themed scripts: the test for [db:seed] keeps
    its outcome [b]. *)
Hypothesis keep_test : early_tools_keep_test w (grep_q "db:seed" "package.json").
Variable b : bool.

Local Ltac themed_leaf :=
  first
    [ let s := fresh "s" in let k := fresh "k" in
      let f := fresh "f" in let d := fresh "d" in
      let Ha := fresh "Ha" in let Hg := fresh "Hg" in
      let Hl := fresh "Hl" in let He := fresh "He" in
      let Hk := fresh "Hk" in let Hf := fresh "Hf" in let Ht := fresh "Ht" in
      intros s k f d (Ha & Hg & Hl) He; cbn [log files];
      match type of He with
      | exec _ ?t _ = _ =>
          pose proof (tools_ok t s) as Hk;
          pose proof (installs_absent t s ltac:(install_tool) Ha) as Hf;
          pose proof (keep_test t s (log s ++ [Run t 0]) ltac:(install_tool)) as Ht
      end;
      rewrite He in Hk, Hf, Ht; cbn [fst snd] in Hk, Hf, Ht; subst k; cbn [Z.eqb];
      split; [exact Hf | split];
      [ rewrite Ht; exact Hg
      | rewrite StrictFacts.filter_snoc_false; [assumption | reflexivity] ]
    | intros; unfold emit, grep_q in *; cbn [log files] in *;
      first [ assumption
            | match goal with
              | H : _ /\ _ /\ _ |- _ /\ _ /\ _ =>
                  destruct H as (? & ? & ?); split; [| split];
                  [ first [ assumption
                          | rewrite lookup_insert_ne; [assumption | congruence] ]
                  | first [ assumption
                          | rewrite lookup_insert_ne; [assumption | congruence] ]
                  | first [ assumption
                          | rewrite StrictFacts.filter_snoc_false;
                            [assumption | reflexivity] ] ]
              end ] ].

Lemma setup_themed_runs_stage (v : variant) :
  v <> Plain ->
  sat anyway no_wait
      (fun s => files s !! "prisma/schema.prisma" = None
                /\ grep_q "db:seed" "package.json" s = b
                /\ filter is_schema_step (log s) = L)
      (setup heredoc w v fuel)
      (fun _ => after_stage (schema_steps TSeedMetronic (if b then [] else alias_runs))).
Proof.
  intros Hv.
  assert (Hstage :
    sat anyway no_wait
        (fun s => files s !! "prisma/schema.prisma" = None
                  /\ grep_q "db:seed" "package.json" s = b
                  /\ filter is_schema_step (log s) = L)
        (initialize_prisma heredoc w TSeedMetronic (add_db_scripts w))
        (fun _ => after_stage (schema_steps TSeedMetronic (if b then [] else alias_runs)))).
  { eapply sat_weaken.
    - apply (initialize_prisma_runs heredoc w tools_ok
               (fun s => grep_q "db:seed" "package.json" s = b)).
      + intros s s' Hf Hg. unfold grep_q in *. rewrite <- Hf. exact Hg.
      + intros s path x Hpath Hg. unfold grep_q in *. cbn [files].
        rewrite lookup_insert_ne; [exact Hg | exact Hpath].
      + intros s Hg. rewrite keep_test; [exact Hg | install_tool].
      + intros l. apply (add_db_scripts_runs w tools_ok).
        intros s Hg. exact Hg.
    - intros s (Ha & Hg & Hl). unfold seen. rewrite app_nil_r.
      repeat split; eassumption.
    - intros ? s [_ H]. exact H. }
  destruct v; [| | contradiction]; cbn [setup];
    [unfold setup_metronic | unfold setup_embedded];
    (do 5 (sh_keep (fun s : state => files s !! "prisma/schema.prisma" = None
                                     /\ grep_q "db:seed" "package.json" s = b
                                     /\ filter is_schema_step (log s) = L)
                   themed_leaf);
     apply sat_bind with
       (Q := fun _ : unit =>
               after_stage (schema_steps TSeedMetronic (if b then [] else alias_runs)));
     [ exact Hstage | intros _ ];
     lazymatch goal with
     | |- Triple.sat ?E ?W ?P ?k _ => change (Triple.keeps E W P k)
     end;
     sh_walk post_leaf).
Qed.

End Absent.

Section Once.

Variable heredoc : template -> string.
Variable w : world.
Hypothesis keep_present : tools_keep_present w "prisma/schema.prisma".

Local Abbreviation once := (fun _ : Z => seeded_once).
Local Abbreviation unseeded :=
  (fun s : state => filter is_seed_run (log s) = []).
Local Abbreviation ready :=
  (fun s : state => is_Some (files s !! "prisma/schema.prisma")
                    /\ filter is_seed_run (log s) = []).

Local Ltac seed_filter :=
  rewrite StrictFacts.filter_snoc_false; [assumption | reflexivity].

Local Ltac tool_keeps_schema s He Hp :=
  match type of He with
  | exec _ ?t _ = _ =>
      let H := fresh "Hkeep" in
      pose proof (keep_present t s Hp) as H; rewrite He in H; exact H
  end.

Local Ltac unseeded_leaf :=
  first
    [ let s := fresh "s" in let k := fresh "k" in
      let f := fresh "f" in let d := fresh "d" in
      let HN := fresh "HN" in let He := fresh "He" in
      intros s k f d HN He; cbn [log];
      destruct (k =? 0); [| left; cbn [log]]; seed_filter
    | intros; unfold emit; cbn [log]; first [assumption | seed_filter] ].

Local Ltac ready_leaf :=
  first
    [ let s := fresh "s" in let k := fresh "k" in
      let f := fresh "f" in let d := fresh "d" in
      let Hp := fresh "Hp" in let HN := fresh "HN" in let He := fresh "He" in
      intros s k f d [Hp HN] He; cbn [log files];
      destruct (k =? 0);
      [ split; [tool_keeps_schema s He Hp | seed_filter]
      | left; cbn [log]; seed_filter ]
    | let s := fresh "s" in let Hp := fresh "Hp" in let HN := fresh "HN" in
      intros s [Hp HN] _; left; unfold emit; cbn [log]; seed_filter
    | intros; unfold emit; cbn [log files];
      first [ assumption
            | match goal with
              | H : _ /\ _ |- _ /\ _ =>
                  destruct H; split;
                  [ first [assumption | apply FrameFacts.is_Some_insert_keep; assumption]
                  | first [assumption | seed_filter] ]
              end ] ].

Local Ltac once_leaf :=
  first
    [ let s := fresh "s" in let k := fresh "k" in
      let f := fresh "f" in let d := fresh "d" in
      let Hp := fresh "Hp" in let HN := fresh "HN" in let He := fresh "He" in
      intros s k f d [HN | [Hp HN]] He; unfold seeded_once; cbn [log files];
      destruct (k =? 0);
      first [ left; seed_filter
            | right; split; [tool_keeps_schema s He Hp | seed_filter] ]
    | intros; unfold emit, seeded_once in *; cbn [log files];
      first [ assumption
            | match goal with
              | H : _ \/ _ |- _ =>
                  destruct H as [? | [? ?]];
                  [ left; first [assumption | seed_filter]
                  | right; split;
                    [ first [assumption | apply FrameFacts.is_Some_insert_keep; assumption]
                    | first [assumption | seed_filter] ] ]
              end ] ].

Lemma initialize_prisma_seeds_once (seed : template) (scripts : sh unit) :
  keeps once seeded_once ready scripts ->
  keeps once seeded_once seeded_once (initialize_prisma heredoc w seed scripts).
Proof.
  intros Hscripts. unfold initialize_prisma. apply sat_if_then.
  2:{ intros s H _. exact H. }
  apply sat_weaken with (P' := unseeded) (Q' := fun _ => seeded_once).
  2:{ intros s [[HN | [Hp _]] Hc]; [exact HN |].
      exfalso. exact (FrameFacts.absent_not_present s _ Hp Hc). }
  2:{ intros ? s H. exact H. }
  do 2 (sh_keep (fun s : state => filter is_seed_run (log s) = []) unseeded_leaf).
  apply sat_bind with (Q := fun _ : unit => ready).
  { apply sat_cat_to.
    - intros s HN _. split; cbn [files log].
      + rewrite lookup_insert_eq. eauto.
      + seed_filter.
    - intros s HN _. left. unfold emit. cbn [log]. seed_filter. }
  intros _.
  do 5 (sh_keep (fun s : state => is_Some (files s !! "prisma/schema.prisma")
                                  /\ filter is_seed_run (log s) = [])
                ready_leaf).
  apply sat_run. intros s k f d [Hp HN] He. cbn [log].
  assert (Hf : is_Some (f !! "prisma/schema.prisma")) by tool_keeps_schema s He Hp.
  assert (Hone : seeded_once (State f d (log s ++ [Run NpmRunDbSeed k]))).
  { right. split; [exact Hf |]. cbn [log].
    rewrite filter_snoc_true by reflexivity. rewrite HN. reflexivity. }
  destruct (k =? 0); exact Hone.
Qed.

(** Whatever ran before, a [setup.sh] keeps the seed run at most once. *)
Lemma setup_seeds_once (v : variant) (fuel : nat) :
  keeps once seeded_once seeded_once (setup heredoc w v fuel).
Proof.
  assert (H1 : keeps once seeded_once ready (add_db_scripts w))
    by sh_walk ready_leaf.
  assert (H2 : keeps once seeded_once ready (mret tt : sh unit))
    by apply keeps_ret.
  pose proof (initialize_prisma_seeds_once TSeedMetronic _ H1).
  pose proof (initialize_prisma_seeds_once TSeedPlain _ H2).
  sh_walk once_leaf.
Qed.

End Once.

Section Complete.

Variable heredoc : template -> string.
Variable w : world.
Hypothesis tools_ok : tools_succeed w.
Hypothesis init_ok : init_makes_prisma w.
Variables n fuel : nat.
Hypothesis database_up : psql w n = true.
Hypothesis enough : (n < fuel)%nat.

Local Abbreviation never := (fun (_ : Z) (_ : state) => False).
Local Abbreviation no_wait := (fun _ : state => False).
Local Abbreviation anyhow := (fun _ : state => True).

Local Ltac total_leaf :=
  first
    [ let s := fresh "s" in let k := fresh "k" in
      let f := fresh "f" in let d := fresh "d" in
      let He := fresh "He" in let Hk := fresh "Hk" in
      intros s k f d _ He;
      match type of He with
      | exec _ ?t _ = _ => pose proof (tools_ok t s) as Hk
      end;
      rewrite He in Hk; cbn [fst] in Hk; subst k; exact I
    | intros; exact I ].

Lemma made_by_mkdir_p (d path : string) (s : state) :
  In d (dir_chain "" path) -> d ∈ dirs (snd (mkdir_p path s)).
Proof.
  intros Hc. cbn [mkdir_p snd dirs]. apply elem_of_union. right.
  apply elem_of_list_to_set, list_elem_of_In. exact Hc.
Qed.

(** A here-document written into a directory that is there. *)
Lemma cat_to_in (d path : string) (t : template) (D : state -> Prop) :
  parent path = Some d -> (forall s, D s -> d ∈ dirs s) ->
  (forall s, D s ->
     D (State (<[path := heredoc t]> (files s)) (dirs s)
              (log s ++ [Write path t]))) ->
  keeps never no_wait D (cat_to heredoc path t).
Proof.
  intros Hp Hd HD. apply keeps_cat_to; [exact HD |].
  intros s Hs Hw. rewrite (writable_in path d s Hp (Hd s Hs)) in Hw.
  discriminate Hw.
Qed.

(** [mkdir -p dir] and then a here-document into it. *)
Lemma scaffold_completes (dir d path : string) (t : template) :
  parent path = Some d -> In d (dir_chain "" dir) ->
  keeps never no_wait anyhow
        (if_then (not_ (test_f path)) (mkdir_p dir;; cat_to heredoc path t)).
Proof.
  intros Hp Hd. apply keeps_if_then. intros _ _ _.
  apply sat_bind with (Q := fun (_ : unit) (s : state) => d ∈ dirs s).
  - intros s _. apply (made_by_mkdir_p d dir s Hd).
  - intros _. apply sat_weaken with (P' := fun s : state => d ∈ dirs s)
                                    (Q' := fun (_ : unit) (s : state) => d ∈ dirs s);
      [| intros s H; exact H | intros; exact I].
    apply (cat_to_in d); [exact Hp | intros s H; exact H | intros s H; exact H].
Qed.

(** The stage: [npx prisma init] has made prisma when the schema descriptor
    is written, and the script's own [mkdir -p prisma] comes before the seed
    script. *)
Lemma initialize_prisma_completes (seed : template) (scripts : sh unit) :
  keeps never no_wait anyhow scripts ->
  keeps never no_wait anyhow (initialize_prisma heredoc w seed scripts).
Proof.
  intros Hscripts. unfold initialize_prisma. apply keeps_if_then. intros _ _ _.
  unfold keeps.
  sh_keep (fun _ : state => True) total_leaf.
  apply sat_bind with (Q := fun (_ : unit) (s : state) => "prisma" ∈ dirs s).
  { apply sat_run. intros s k f d _ He.
    pose proof (tools_ok PrismaInit s) as Hk. pose proof (init_ok s) as Hd.
    rewrite He in Hk, Hd. cbn [fst snd] in Hk, Hd. subst k. exact Hd. }
  intros _.
  apply sat_bind with (Q := fun (_ : unit) (_ : state) => True).
  { apply sat_weaken with (P' := fun s : state => "prisma" ∈ dirs s)
                          (Q' := fun (_ : unit) (s : state) => "prisma" ∈ dirs s);
      [| intros s H; exact H | intros; exact I].
    apply (cat_to_in "prisma");
      [reflexivity | intros s H; exact H | intros s H; exact H]. }
  intros _.
  apply sat_bind with (Q := fun (_ : unit) (s : state) => "prisma" ∈ dirs s).
  { intros s _. apply (made_by_mkdir_p "prisma" "prisma" s). left. reflexivity. }
  intros _.
  apply sat_bind with (Q := fun (_ : unit) (_ : state) => True).
  { apply sat_weaken with (P' := fun s : state => "prisma" ∈ dirs s)
                          (Q' := fun (_ : unit) (s : state) => "prisma" ∈ dirs s);
      [| intros s H; exact H | intros; exact I].
    apply (cat_to_in "prisma");
      [reflexivity | intros s H; exact H | intros s H; exact H]. }
  intros _.
  lazymatch goal with
  | |- Triple.sat ?E ?W ?P ?m _ => change (Triple.keeps E W P m)
  end.
  sh_walk total_leaf.
Qed.

Local Abbreviation src_made :=
  (fun s : state => "src/app/api/health" ∈ dirs s /\ "src/app" ∈ dirs s
                    /\ "src/lib" ∈ dirs s).

Local Ltac src_leaf :=
  first
    [ let s := fresh "s" in let HD := fresh "HD" in let Hw := fresh "Hw" in
      intros s HD Hw; exfalso;
      first
        [ rewrite (writable_in _ "src/lib") in Hw
            by first [reflexivity | apply HD]
        | rewrite (writable_in _ "src/app/api/health") in Hw
            by first [reflexivity | apply HD]
        | rewrite (writable_in _ "src/app") in Hw
            by first [reflexivity | apply HD] ];
      discriminate Hw
    | intros; unfold emit; cbn [dirs];
      first
        [ assumption
        | match goal with
          | H : _ /\ _ /\ _ |- _ =>
              destruct H as (? & ? & ?);
              repeat split; apply elem_of_union; left; assumption
          end ] ].

(** With external programs that succeed, an [npx prisma init] that makes
    prisma and a database that comes up, a [setup.sh] runs to its end. *)
Lemma setup_completes (v : variant) (s : state) :
  fst (setup heredoc w v fuel s) = Next tt.
Proof.
  assert (H1 : keeps never no_wait anyhow (add_db_scripts w))
    by sh_walk total_leaf.
  assert (H2 : keeps never no_wait anyhow (mret tt : sh unit))
    by apply keeps_ret.
  pose proof (initialize_prisma_completes TSeedMetronic _ H1) as Hthemed.
  pose proof (initialize_prisma_completes TSeedPlain _ H2) as Hplain.
  assert (H : keeps never no_wait anyhow (setup heredoc w v fuel)).
  { destruct v; cbn [setup].
    - unfold setup_metronic.
      do 6 (sh_keep (fun _ : state => True) total_leaf).
      apply sat_bind with (Q := fun (_ : unit) (_ : state) => True);
        [ apply (scaffold_completes "src/lib" "src/lib");
          [reflexivity | vm_compute; tauto]
        | intros _ ].
      apply sat_bind with (Q := fun (_ : unit) (_ : state) => True);
        [ apply (scaffold_completes "src/app/api/health" "src/app/api/health");
          [reflexivity | vm_compute; tauto]
        | intros _ ].
      lazymatch goal with
      | |- Triple.sat ?E ?W ?P ?m _ => change (Triple.keeps E W P m)
      end.
      sh_walk total_leaf.
    - unfold setup_embedded.
      do 6 (sh_keep (fun _ : state => True) total_leaf).
      apply sat_bind with (Q := fun (_ : unit) (_ : state) => True).
      { intros s0 _. unfold with_var, lib_dir.
        destruct (test_d "src" s0).
        - apply (scaffold_completes "src/lib" "src/lib" "src/lib/prisma.ts");
            [reflexivity | vm_compute; tauto | exact I].
        - apply (scaffold_completes "lib" "lib" "lib/prisma.ts");
            [reflexivity | vm_compute; tauto | exact I]. }
      intros _.
      apply sat_bind with (Q := fun (_ : unit) (_ : state) => True).
      { intros s0 _. unfold with_var, api_dir.
        destruct (test_d "src/app" s0); [| destruct (test_d "app" s0)].
        - apply (scaffold_completes "src/app/api/health" "src/app/api/health"
                   "src/app/api/health/route.ts");
            [reflexivity | vm_compute; tauto | exact I].
        - apply (scaffold_completes "app/api/health" "app/api/health"
                   "app/api/health/route.ts");
            [reflexivity | vm_compute; tauto | exact I].
        - apply (scaffold_completes "src/app/api/health" "src/app/api/health"
                   "src/app/api/health/route.ts");
            [reflexivity | vm_compute; tauto | exact I]. }
      intros _.
      lazymatch goal with
      | |- Triple.sat ?E ?W ?P ?m _ => change (Triple.keeps E W P m)
      end.
      sh_walk total_leaf.
    - unfold setup_plain.
      do 10 (sh_keep (fun _ : state => True) total_leaf).
      apply sat_bind with
        (Q := fun (_ : unit) (s : state) =>
                "src/app/api/health" ∈ dirs s /\ "src/app" ∈ dirs s).
      { intros s0 _. split; apply made_by_mkdir_p; vm_compute; tauto. }
      intros _.
      sh_keep (fun s : state => "src/app/api/health" ∈ dirs s /\ "src/app" ∈ dirs s)
              ltac:(intros s0 [? ?]; cbn [dirs]; split;
                    apply elem_of_union; left; assumption).
      apply sat_bind with (Q := fun _ : unit => src_made).
      { intros s0 [Ha Hb]. cbn [mkdir_p dirs]. repeat split.
        - apply elem_of_union. left. exact Ha.
        - apply elem_of_union. left. exact Hb.
        - apply (made_by_mkdir_p "src/lib" "src/lib" s0). vm_compute. tauto. }
      intros _.
      apply sat_weaken with (P' := src_made) (Q' := fun _ : unit => src_made);
        [| intros s0 H0; exact H0 | intros; exact I].
      lazymatch goal with
      | |- Triple.sat ?E ?W ?P ?m _ => change (Triple.keeps E W P m)
      end.
      sh_walk src_leaf. }
  specialize (H s I).
  destruct (setup heredoc w v fuel s) as [[[] | k |] s'];
    [reflexivity | contradiction | contradiction].
Qed.

End Complete.

(** Runs in a row keep the seed run at most once. *)
Lemma reruns_seed_once (rs : list invocation) (s : state) :
  Forall (fun i => tools_keep_present (outside i) "prisma/schema.prisma") rs ->
  seeded_once s -> seeded_once (reruns rs s).
Proof.
  revert s. induction rs as [| i rs IH]; intros s Hall Hs; [exact Hs |].
  cbn [reruns]. apply Forall_cons_1 in Hall as [Hi Hall].
  apply IH; [exact Hall |].
  pose proof (setup_seeds_once (texts i) (outside i) Hi (script i) (attempts i) s Hs)
    as H.
  destruct (setup (texts i) (outside i) (script i) (attempts i) s)
    as [[a | k |] s']; exact H.
Qed.

(** With the schema descriptor absent, an [npx prisma init] that makes the
    directory prisma and a manifest that already has a [db:seed] entry, the
    themed script runs the stage without registering aliases and exits 0;
    the plain script never registers any. *)
Lemma stage_without_alias_registration :
  let themed :=
    setup Sample.text (Sample.up_after 0) Metronic 1
          (Sample.with_files [("package.json", "scripts: db:seed")]) in
  let plain :=
    setup Sample.text (Sample.up_after 0) Plain 1 Sample.empty_state in
  exit_status (fst themed) = Some 0
  /\ filter is_schema_step (log (snd themed)) =
    [ Run PrismaInit 0;
      Write "prisma/schema.prisma" TSchema;
      Write "prisma/seed.ts" TSeedMetronic;
      Run PrismaGenerate 0; Run PrismaDbPush 0; Run NpmRunDbSeed 0 ]
  /\ exit_status (fst plain) = Some 0
  /\ filter is_schema_step (log (snd plain)) =
    [ Run PrismaInit 0;
      Write "prisma/schema.prisma" TSchema;
      Write "prisma/seed.ts" TSeedPlain;
      Run PrismaGenerate 0; Run PrismaDbPush 0; Run NpmRunDbSeed 0 ].
Proof. vm_compute. repeat split; reflexivity. Qed.

(** C2, as the scripts have it.  In a [setup.sh] started by a new process:
    if prisma/schema.prisma exists and no external program removes it, no
    step of the stage runs.  If it is absent, the package installations do
    not create it, every external program succeeds and the database comes
    up, then what happens depends on the directory prisma.  When [npx prisma
    init] leaves one, the script ends with status 0 and the steps of the
    stage are, in this order: init, schema write, seed-script write, the
    five alias registrations, client generation, schema push, seed
    execution; the alias registrations are there only in the themed scripts
    and only when package.json has no [db:seed] yet (a test that the
    installations and [npx prisma init] are taken not to change).  When
    there is none and no external program makes one, the redirection of the
    schema descriptor, which comes before the script's own [mkdir -p
    prisma], is refused: the script ends with status 1 and init is the only
    step that ran.  Over any number of
    runs in a row, of any of the three scripts and however each ends, the
    seed is executed at most once. *)
Theorem schema_stage_gate
    (heredoc : template -> string) (w : world) (v : variant) (fuel : nat)
    (s : state) :
  log s = [] ->
  let r := setup heredoc w v fuel s in
  (is_Some (files s !! "prisma/schema.prisma") ->
   tools_keep_present w "prisma/schema.prisma" ->
   filter is_schema_step (log (snd r)) = [])
  /\ (files s !! "prisma/schema.prisma" = None ->
      tools_succeed w ->
      installs_keep_absent w "prisma/schema.prisma" ->
      (exists n, psql w n = true /\ (n < fuel)%nat) ->
      (init_makes_prisma w ->
       (v <> Plain -> early_tools_keep_test w (grep_q "db:seed" "package.json")) ->
       fst r = Next tt
       /\ filter is_schema_step (log (snd r)) =
            schema_steps (seed_template v)
                         (aliases_of v (grep_q "db:seed" "package.json" s)))
      /\ (("prisma" ∉ dirs s) -> tools_never_make w "prisma" ->
          fst r = Abort 1
          /\ filter is_schema_step (log (snd r)) = [Run PrismaInit 0]))
  /\ (forall rs,
        Forall (fun i => tools_keep_present (outside i) "prisma/schema.prisma") rs ->
        (length (filter is_seed_run (log (reruns rs s))) <= 1)%nat).
Proof.
  intros Hlog. cbv zeta. split; [| split].
  - intros Hpresent Hkeep.
    assert (Hnil : filter is_schema_step (log s) = []) by (rewrite Hlog; reflexivity).
    pose proof (setup_skips_stage heredoc w [] Hkeep v fuel s (conj Hpresent Hnil)) as H.
    destruct (setup heredoc w v fuel s) as [[a | k |] s']; exact (proj2 H).
  - intros Habsent Hok Hinst (n & Hup & Hn).
    assert (Hnil : filter is_schema_step (log s) = []) by (rewrite Hlog; reflexivity).
    split.
    + intros Hinit Htest.
      pose proof (setup_completes heredoc w Hok Hinit n fuel Hup Hn v s) as Hdone.
      split; [exact Hdone |].
      assert (Hcase : v = Plain \/ v <> Plain)
        by (destruct v; [right | right | left]; congruence).
      destruct Hcase as [-> | Hv].
      * pose proof (setup_plain_runs_stage heredoc w Hok Hinst n fuel Hup Hn [] s
                      (conj Habsent Hnil)) as H.
        cbn [setup seed_template aliases_of] in *.
        destruct (setup_plain heredoc w fuel s) as [[[] | k |] s'];
          [exact H | discriminate Hdone | discriminate Hdone].
      * pose proof (setup_themed_runs_stage heredoc w Hok Hinst n fuel Hup Hn []
                      (Htest Hv) (grep_q "db:seed" "package.json" s) v Hv s
                      (conj Habsent (conj eq_refl Hnil))) as H.
        assert (Hseed : seed_template v = TSeedMetronic)
          by (destruct v; [reflexivity | reflexivity | contradiction]).
        assert (Halias : aliases_of v (grep_q "db:seed" "package.json" s)
                         = if grep_q "db:seed" "package.json" s then [] else alias_runs)
          by (destruct v; [reflexivity | reflexivity | contradiction]).
        rewrite Hseed, Halias.
        destruct (setup heredoc w v fuel s) as [[[] | k |] s'];
          [exact H | discriminate Hdone | discriminate Hdone].
    + intros Hbare Hnone.
      pose proof (setup_stops_at_schema_write heredoc w Hok Hinst n fuel Hup Hn []
                    v Hnone s (conj Habsent (conj Hbare Hnil))) as H.
      destruct (setup heredoc w v fuel s) as [[[] | k |] s'];
        [contradiction | | contradiction].
      destruct H as [-> H]. split; [reflexivity | exact H].
  - intros rs Hall.
    assert (H0 : seeded_once s) by (left; rewrite Hlog; reflexivity).
    destruct (reruns_seed_once rs s Hall H0) as [Hnil | [_ Hone]];
      [rewrite Hnil; cbn; lia | lia].
Qed.

Lemma schema_stage_gate_witness :
  filter is_schema_step
    (log (snd (setup Sample.text (Sample.up_after 0) Embedded 1
                 (Sample.with_files [("prisma/schema.prisma", "model A {}")]))))
  = []
  /\ (fst (setup Sample.text (Sample.up_after 1) Metronic 3 Sample.empty_state)
      = Next tt
      /\ filter is_schema_step
           (log (snd (setup Sample.text (Sample.up_after 1) Metronic 3
                        Sample.empty_state)))
         = schema_steps TSeedMetronic alias_runs)
  /\ (fst (setup Sample.text Sample.idle_init Metronic 3 Sample.empty_state)
      = Abort 1
      /\ filter is_schema_step
           (log (snd (setup Sample.text Sample.idle_init Metronic 3
                        Sample.empty_state)))
         = [Run PrismaInit 0])
  /\ (length (filter is_seed_run
                (log (reruns [ Invocation Sample.text (Sample.up_after 1) Metronic 3;
                               Invocation Sample.text (Sample.up_after 0) Plain 1;
                               Invocation Sample.text (Sample.up_after 0) Embedded 1 ]
                             Sample.empty_state)))
      <= 1)%nat.
Proof.
  split; [| split; [| split]].
  - apply (schema_stage_gate Sample.text (Sample.up_after 0) Embedded 1
             (Sample.with_files [("prisma/schema.prisma", "model A {}")]) eq_refl).
    + vm_compute. eauto.
    + intros t s H. exact H.
  - apply (schema_stage_gate Sample.text (Sample.up_after 1) Metronic 3
             Sample.empty_state eq_refl).
    + reflexivity.
    + intros t s. reflexivity.
    + intros t s _ H. exact H.
    + exists 1%nat. split; [reflexivity | lia].
    + intros s. cbn. apply elem_of_union. right. apply elem_of_singleton. reflexivity.
    + intros _ t s past _. reflexivity.
  - apply (schema_stage_gate Sample.text Sample.idle_init Metronic 3
             Sample.empty_state eq_refl).
    + reflexivity.
    + intros t s. reflexivity.
    + intros t s _ H. exact H.
    + exists 0%nat. split; [reflexivity | lia].
    + apply not_elem_of_empty.
    + intros t s H. exact H.
  - apply (schema_stage_gate Sample.text (Sample.up_after 1) Metronic 3
             Sample.empty_state eq_refl).
    repeat (apply List.Forall_cons; [intros t s H; exact H |]).
    apply List.Forall_nil.
Defined.

End SchemaStageFacts.

(* ===================================================================== *)
(** * Further properties                                                  *)
(* ===================================================================== *)

(** ** Nothing happens while the database is down *)

Module FurtherGateFacts.
Import Shell Observe Further.

(** X1.  While every connection attempt fails, a [setup.sh] has printed its
    greeting and polled, and nothing else: no file or directory is changed,
    no external program has run. *)
Theorem setup_only_polls_while_database_down
    (heredoc : template -> string) (w : world) (v : variant) (fuel : nat)
    (s : state) :
  (forall k, (k < fuel)%nat -> psql w k = false) ->
  exists s',
    setup heredoc w v fuel s = (Waiting, s')
    /\ files s' = files s /\ dirs s' = dirs s
    /\ log s' = log s ++ [ Echo (greeting v);
                           Echo "⏳ Waiting for PostgreSQL to be ready..." ]
                      ++ polls fuel
    /\ filter is_run (log s') = filter is_run (log s)
    /\ filter is_write (log s') = filter is_write (log s).
Proof.
  intros Hdown.
  assert (Hpolls : forall f, (forall e, In e (polls fuel) -> f e = false) ->
                   filter f (polls fuel) = []).
  { intros f Hf. induction (polls fuel) as [| e l IH]; [reflexivity |].
    cbn [filter]. rewrite (Hf e (or_introl eq_refl)). apply IH.
    intros e' He'. apply Hf. right. exact He'. }
  assert (Hin : forall e, In e (polls fuel) ->
                  e = Probe false \/ e = Echo unavailable \/ e = Sleep 2).
  { clear. induction fuel as [| n IH]; intros e He; [destruct He |].
    cbn [polls app] in He.
    destruct He as [<- | [<- | [<- | He]]]; auto. }
  assert (Hrun : forall g (k : sh unit),
            (echo g;; wait_for_postgres w fuel;; k) s
            = (Waiting,
               State (files s) (dirs s)
                     (((log s ++ [Echo g])
                         ++ [Echo "⏳ Waiting for PostgreSQL to be ready..."])
                        ++ polls fuel))).
  { intros g k.
    rewrite ShellLogic.bind_unfold; cbn [echo];
      rewrite ShellLogic.bind_unfold; unfold wait_for_postgres;
      rewrite ShellLogic.bind_unfold; cbn [echo];
      rewrite ShellLogic.bind_unfold;
      rewrite (GateFacts.until_psql_still_waiting w fuel 0 _ Hdown);
      reflexivity. }
  exists (State (files s) (dirs s)
                (((log s ++ [Echo (greeting v)])
                    ++ [Echo "⏳ Waiting for PostgreSQL to be ready..."])
                   ++ polls fuel)).
  split; [destruct v; apply Hrun |].
  cbn [files dirs log].
  assert (Hg : ((log s ++ [Echo (greeting v)])
                  ++ [Echo "⏳ Waiting for PostgreSQL to be ready..."])
                 ++ polls fuel
               = log s ++ [Echo (greeting v);
                           Echo "⏳ Waiting for PostgreSQL to be ready..."]
                       ++ polls fuel)
    by (rewrite <- !app_assoc; reflexivity).
  repeat split.
  - exact Hg.
  - rewrite !filter_app, Hpolls; [cbn; rewrite !app_nil_r; reflexivity |].
    intros e He; destruct (Hin e He) as [-> | [-> | ->]]; reflexivity.
  - rewrite !filter_app, Hpolls; [cbn; rewrite !app_nil_r; reflexivity |].
    intros e He; destruct (Hin e He) as [-> | [-> | ->]]; reflexivity.
Qed.

Lemma setup_only_polls_while_database_down_witness :
  exists s',
    setup Sample.text Sample.never_up Plain 4
          (Sample.with_files [(".env", "A=1")]) = (Waiting, s')
    /\ files s' !! ".env" = Some "A=1"
    /\ filter is_run (log s') = [].
Proof.
  destruct (setup_only_polls_while_database_down Sample.text Sample.never_up
              Plain 4 (Sample.with_files [(".env", "A=1")]))
    as (s' & Hrun & Hfiles & _ & _ & Hruns & _).
  - intros k Hk. reflexivity.
  - exists s'. split; [exact Hrun |]. split.
    + rewrite Hfiles. reflexivity.
    + exact Hruns.
Defined.

End FurtherGateFacts.

(** ** The accessor when NODE_ENV changes between evaluations *)

Module FurtherPrismaTsFacts.
Import PrismaTs PrismaTsFurther.

(** With the holder set, an evaluation returns its client and changes
    nothing, in production too. *)
Lemma prisma_holder_wins (NODE_ENV : option string) (c : client) (k : nat) :
  prisma NODE_ENV (Runtime (Some c) k) = (c, Runtime (Some c) k).
Proof. unfold prisma. cbn. destruct (is_production NODE_ENV); reflexivity. Qed.

Lemma evaluations_in_holder_set (envs : list (option string)) (c : client) (k : nat) :
  evaluations_in envs (Runtime (Some c) k)
  = (repeat c (length envs), Runtime (Some c) k).
Proof.
  induction envs as [| env envs IH]; [reflexivity |].
  cbn [evaluations_in]. rewrite prisma_holder_wins, IH. reflexivity.
Qed.

Lemma evaluations_in_production (envs : list (option string)) (k : nat) :
  Forall (fun env => env = Some "production") envs ->
  evaluations_in envs (Runtime None k)
  = (seq k (length envs), Runtime None (k + length envs)%nat).
Proof.
  intros Hall. revert k. induction Hall as [| env envs -> _ IH]; intros k.
  - cbn. f_equal. f_equal. lia.
  - cbn [evaluations_in]. unfold prisma, new_PrismaClient. cbn.
    rewrite IH. cbn [length seq]. f_equal. f_equal. lia.
Qed.

Lemma evaluations_in_app (e1 e2 : list (option string)) (r : runtime) :
  evaluations_in (e1 ++ e2) r
  = (fst (evaluations_in e1 r) ++ fst (evaluations_in e2 (snd (evaluations_in e1 r))),
     snd (evaluations_in e2 (snd (evaluations_in e1 r)))).
Proof.
  revert r. induction e1 as [| env e1 IH]; intros r.
  - cbn. destruct (evaluations_in e2 r). reflexivity.
  - cbn [app evaluations_in]. destruct (prisma env r) as [p r1].
    rewrite IH. destruct (evaluations_in e1 r1) as [ps r2]. cbn [fst snd].
    reflexivity.
Qed.

(** X2.  In a new process that evaluates the module first [length prods] times
    with NODE_ENV = production, then once with another value [dev], then
    with any values [later] (production among them): the production
    evaluations construct one client each, the next one constructs one more
    and stores it, and every evaluation after that returns this stored
    client and constructs nothing, whatever NODE_ENV is by then. *)
Theorem holder_outlives_environment
    (prods later : list (option string)) (dev : option string) :
  Forall (fun env => env = Some "production") prods ->
  dev <> Some "production" ->
  evaluations_in (prods ++ dev :: later) fresh
  = (seq 0 (length prods) ++ repeat (length prods) (S (length later)),
     Runtime (Some (length prods)) (S (length prods))).
Proof.
  intros Hprods Hdev.
  assert (Hd : is_production dev = false).
  { destruct (is_production dev) eqn:E; [| reflexivity].
    apply PrismaTsFacts.is_production_spec in E. contradiction. }
  assert (Hrest : forall k,
            evaluations_in (dev :: later) (Runtime None k)
            = (repeat k (S (length later)), Runtime (Some k) (S k))).
  { intros k. cbn [evaluations_in]. unfold prisma, new_PrismaClient.
    cbn [globalForPrisma constructed]. rewrite Hd. cbn [negb].
    rewrite evaluations_in_holder_set. reflexivity. }
  unfold fresh.
  rewrite evaluations_in_app, (evaluations_in_production prods 0 Hprods).
  cbn [fst snd Nat.add]. rewrite Hrest. reflexivity.
Qed.

Lemma holder_outlives_environment_witness :
  evaluations_in [ Some "production"; Some "production"; None;
                   Some "production"; Some "test"; Some "production" ] fresh
  = ([0; 1; 2; 2; 2; 2]%nat, Runtime (Some 2%nat) 3).
Proof.
  apply (holder_outlives_environment
           [Some "production"; Some "production"]
           [Some "production"; Some "test"; Some "production"] None).
  - repeat constructor.
  - discriminate.
Defined.

End FurtherPrismaTsFacts.

(** ** The grep guards and substrings *)

Module FurtherGrepFacts.
Import Grep.



(** The patterns of the three guards of the scripts stand for themselves. *)
Lemma guards_are_ordinary :
  Forall (fun pat => ordinary pat = true /\ one_line pat = true)
         ["@prisma/client"; "db:seed"; "prisma/migrations"].
Proof. repeat (apply List.Forall_cons; [split; reflexivity |]). apply List.Forall_nil. Qed.



End FurtherGrepFacts.

(** ** More of quick-setup.sh *)

Module FurtherQuickFacts.
Import Shell Observe Further Triple ShellLogic.

Local Ltac other_file := congruence.

Local Ltac qs_leaf :=
  intros; unfold Observe.holds, emit in *; cbn [files fst snd] in *;
  repeat first [ assumption
               | exact I
               | rewrite lookup_insert_ne by other_file
               | rewrite lookup_delete_ne by other_file ].

Local Abbreviation anyway := (fun (_ : Z) (_ : state) => True).
Local Abbreviation no_wait := (fun _ : state => False).

Section Quick.

Variable heredoc : template -> string.
Variable w : world.

(** X5.  quick-setup.sh touches no path but the ones it names: any other path
    has the same content, or is as absent, after the script as before.  And
    .env.example, when absent, is created from the here-document. *)
Theorem quick_setup_touches_only_its_files (s : state) (p : string) :
  (~ In p quick_written -> p <> ".env.example" ->
   files (snd (quick_setup heredoc w s)) !! p = files s !! p)
  /\ (files s !! ".env.example" = None ->
      files (snd (quick_setup heredoc w s)) !! ".env.example"
      = Some (heredoc TEnvExampleMetronic)).
Proof.
  split.
  - intros Hnot Hex.
    assert (Hne : Forall (fun q => q <> p) quick_written).
    { apply List.Forall_forall. intros q Hq ->. apply Hnot. exact Hq. }
    unfold quick_written in Hne. cbn in Hne.
    repeat match goal with
           | H : Forall _ (_ :: _) |- _ =>
               let H1 := fresh "Hne" in let H2 := fresh "Hrest" in
               apply Forall_cons_1 in H as [H1 H2]
           end.
    set (g := files s !! p).
    apply (QuickSetupFacts.sat_total heredoc w (fun s => files s !! p = g)
                                     (fun s => files s !! p = g));
      [| reflexivity].
    change (keeps anyway no_wait (fun s => files s !! p = g) (quick_setup heredoc w)).
    sh_walk qs_leaf.
  - intros Habsent.
    apply (QuickSetupFacts.sat_total heredoc w
             (fun s => files s !! ".env.example" = None)
             (holds ".env.example" (heredoc TEnvExampleMetronic)));
      [| exact Habsent].
    unfold quick_setup.
    do 8 (sh_keep (fun s : state => files s !! ".env.example" = None) qs_leaf).
    apply sat_bind with
      (Q := fun _ : unit => holds ".env.example" (heredoc TEnvExampleMetronic)).
    + intros s0 H0. unfold create_if_absent, if_then, not_, test_f, holds.
      rewrite H0.
      rewrite bool_decide_eq_false_2 by (intros [x Hx]; discriminate Hx).
      cbn [negb]. unfold cat_to. rewrite writable_here by reflexivity.
      cbn [files]. apply lookup_insert_eq.
    + intros _.
      lazymatch goal with
      | |- Triple.sat ?E ?W ?P ?k _ => change (Triple.keeps E W P k)
      end.
      sh_walk qs_leaf.
Qed.

End Quick.

Lemma quick_setup_touches_only_its_files_witness :
  let before := Sample.with_files [("src/app/page.tsx", "mine")] in
  let after := snd (quick_setup Sample.text (Sample.up_after 0) before) in
  files after !! "src/app/page.tsx" = Some "mine"
  /\ files after !! "package.json" = None
  /\ files after !! ".env.example" = Some "(here-document)".
Proof.
  cbv zeta. split; [| split].
  - apply (proj1 (quick_setup_touches_only_its_files Sample.text (Sample.up_after 0)
                    (Sample.with_files [("src/app/page.tsx", "mine")])
                    "src/app/page.tsx")).
    + cbn. intros H. repeat (destruct H as [H | H]; [discriminate H |]). exact H.
    + discriminate.
  - apply (proj1 (quick_setup_touches_only_its_files Sample.text (Sample.up_after 0)
                    (Sample.with_files [("src/app/page.tsx", "mine")])
                    "package.json")).
    + cbn. intros H. repeat (destruct H as [H | H]; [discriminate H |]). exact H.
    + discriminate.
  - apply (proj2 (quick_setup_touches_only_its_files Sample.text (Sample.up_after 0)
                    (Sample.with_files [("src/app/page.tsx", "mine")])
                    ".env.example")).
    reflexivity.
Defined.

(** X6.  A second run of quick-setup.sh moves the README.md written by the first
    run (what curl fetched, or the here-document) onto the backup file: what
    the first run had saved there, the README the user had before, is
    replaced by it. *)
Theorem second_quick_setup_replaces_backup
    (heredoc heredoc' : template -> string) (w w' : world) (s : state) :
  let once := snd (quick_setup heredoc w s) in
  let twice := snd (quick_setup heredoc' w' once) in
  files twice !! "README.metronic.backup.md" = files once !! "README.md"
  /\ files once !! "README.md"
     = Some (if fst (curl w readme_url) =? 0 then snd (curl w readme_url)
             else heredoc TReadmeFallback).
Proof.
  cbv zeta. split.
  - rewrite (QuickSetupFacts.quick_setup_writes_readme heredoc w s).
    apply QuickSetupFacts.quick_setup_backs_up_readme.
    apply QuickSetupFacts.quick_setup_writes_readme.
  - apply QuickSetupFacts.quick_setup_writes_readme.
Qed.

End FurtherQuickFacts.

(** ** A second run of a [setup.sh] *)

Module FurtherRerunFacts.
Import Shell Observe Further Triple ShellLogic.

Lemma present_after_tool (w : world) (ps : list string) (t : tool) (s : state)
    (k : Z) (f : gmap string string) (d : gset string) (l : list event) :
  (forall p, In p ps -> tools_keep_present w p) ->
  exec w t s = (k, (f, d)) ->
  Forall (fun p => present p s) ps ->
  Forall (fun p => present p (State f d l)) ps.
Proof.
  intros Hkeep He Hall. apply List.Forall_forall. intros p Hp.
  pose proof (Hkeep p Hp t s (proj1 (List.Forall_forall _ _) Hall p Hp)) as H.
  rewrite He in H. exact H.
Qed.

Lemma present_after_write (ps : list string) (s : state) (path v : string)
    (d : gset string) (l : list event) :
  Forall (fun p => present p s) ps ->
  Forall (fun p => present p (State (<[path := v]> (files s)) d l)) ps.
Proof.
  intros Hall. apply List.Forall_forall. intros p Hp.
  apply FrameFacts.is_Some_insert_keep.
  apply (proj1 (List.Forall_forall _ _) Hall p Hp).
Qed.

Lemma tested_missing (s0 : state) (path : string) :
  is_Some (files s0 !! path) -> test_f path s0 = false -> False.
Proof.
  intros Hp Hc. unfold test_f in Hc.
  rewrite bool_decide_eq_true_2 in Hc; [discriminate Hc | exact Hp].
Qed.

Section Rerun.

Variable heredoc : template -> string.
Variable w : world.
Variable ps : list string.
Hypothesis keep : forall p, In p ps -> tools_keep_present w p.
Variable L : list event.

Local Abbreviation settled :=
  (fun s : state => Forall (fun p => present p s) ps
                    /\ filter is_write (log s) = L).

Local Ltac is_target := unfold metronic_targets, plain_targets; cbn [In]; tauto.

Local Ltac settled_leaf :=
  first
    [ (* a block whose test fails because the file is there *)
      match goal with
      | Hc : not_ (test_f ?path) ?s0 = true, H : Forall _ _ /\ _ |- _ =>
          exfalso;
          exact (FrameFacts.absent_not_present s0 path
                   (proj1 (List.Forall_forall _ _) (proj1 H) path ltac:(is_target)) Hc)
      | Hc : test_f ?path ?s0 = false, H : Forall _ _ /\ _ |- _ =>
          exfalso;
          exact (tested_missing s0 path
                   (proj1 (List.Forall_forall _ _) (proj1 H) path ltac:(is_target)) Hc)
      end
    | let s := fresh "s" in let k := fresh "k" in
      let f := fresh "f" in let d := fresh "d" in
      let HF := fresh "HF" in let HL := fresh "HL" in let He := fresh "He" in
      intros s k f d [HF HL] He; cbn [log];
      destruct (k =? 0); split;
      first [ exact (present_after_tool w _ _ s _ f d _ keep He HF)
            | rewrite StrictFacts.filter_snoc_false; [assumption | reflexivity] ]
    | intros; unfold emit; cbn [log files];
      first [ assumption
            | match goal with
              | H : _ /\ _ |- _ /\ _ =>
                  destruct H; split;
                  [ first [assumption | apply present_after_write; assumption]
                  | first [ assumption
                          | rewrite StrictFacts.filter_snoc_false;
                            [assumption | reflexivity] ] ]
              end ] ].

Lemma metronic_settled (fuel : nat) :
  ps = metronic_targets ->
  keeps (fun _ => settled) settled settled (setup_metronic heredoc w fuel).
Proof. intros ->. sh_walk settled_leaf. Qed.

Lemma plain_settled (fuel : nat) :
  ps = plain_targets ->
  keeps (fun _ => settled) settled settled (setup_plain heredoc w fuel).
Proof. intros ->. sh_walk settled_leaf. Qed.

End Rerun.

Section Completed.

Variable heredoc : template -> string.
Variable w : world.

Local Abbreviation whatever := (fun (_ : Z) (_ : state) => True).
Local Abbreviation anyhow := (fun _ : state => True).

(** A block guarded by the absence of [p] leaves [p] present if its body
    does. *)
Lemma guard_leaves_present (p : string) (body : sh unit) :
  sat whatever anyhow anyhow body (fun _ => present p) ->
  sat whatever anyhow anyhow (if_then (not_ (test_f p)) body) (fun _ => present p).
Proof.
  intros Hb s _. unfold if_then, not_, test_f.
  destruct (files s !! p) as [c |] eqn:Hp.
  - rewrite bool_decide_eq_true_2 by eauto. cbn. unfold present. rewrite Hp. eauto.
  - rewrite bool_decide_eq_false_2 by (intros [x Hx]; discriminate Hx).
    apply Hb. exact I.
Qed.

Lemma branches_leave_present (p : string) (body other : sh unit) :
  keeps whatever anyhow (present p) body ->
  sat whatever anyhow anyhow other (fun _ => present p) ->
  sat whatever anyhow anyhow (if_then_else (test_f p) body other)
      (fun _ => present p).
Proof.
  intros Hb Ho s _. unfold if_then_else. destruct (test_f p s) eqn:Hc.
  - apply Hb. unfold test_f in Hc. apply bool_decide_eq_true in Hc. exact Hc.
  - apply Ho. exact I.
Qed.

Local Ltac any_leaf :=
  first [ let s := fresh "s" in let k := fresh "k" in
          let f := fresh "f" in let d := fresh "d" in
          intros s k f d _ _; destruct (k =? 0); exact I
        | intros; exact I ].

Local Ltac present_leaf :=
  first
    [ let s := fresh "s" in let k := fresh "k" in
      let f := fresh "f" in let d := fresh "d" in
      let Hp := fresh "Hp" in let He := fresh "He" in
      intros s k f d Hp He;
      destruct (k =? 0); [| exact I];
      match goal with
      | Hkeep : tools_keep_present _ _ |- _ =>
          match type of He with
          | exec _ ?t _ = _ =>
              let H := fresh "H" in
              pose proof (Hkeep t s Hp) as H; rewrite He in H; exact H
          end
      end
    | intros; unfold emit, present in *; cbn [files] in *;
      first [ assumption
            | exact I
            | apply FrameFacts.is_Some_insert_keep; assumption ] ].

(** Finds the command of a sequence that leaves [p] present, and keeps [p]
    present through what follows it. *)
Local Ltac leaves_present p :=
  cbv beta;
  lazymatch goal with
  | |- Triple.sat _ _ _ (cat_to _ p _) _ =>
      apply sat_cat_to;
      [ intros ? _ _; unfold present; cbn [files];
        rewrite lookup_insert_eq; eauto
      | intros; exact I ]
  | |- Triple.sat _ _ _ (if_then (not_ (test_f p)) _) _ =>
      apply guard_leaves_present; leaves_present p
  | |- Triple.sat _ _ _ (if_then_else (test_f p) _ _) _ =>
      apply branches_leave_present; [sh_walk present_leaf | leaves_present p]
  | |- Triple.sat _ _ _ (create_env _ _ _) _ =>
      unfold create_env; leaves_present p
  | |- Triple.sat _ _ _ (create_if_absent _ _ _) _ =>
      unfold create_if_absent; leaves_present p
  | |- Triple.sat _ _ _ (initialize_prisma _ _ _ _) _ =>
      unfold initialize_prisma; leaves_present p
  | |- Triple.sat _ _ _ (mbind _ _) _ =>
      first
        [ apply sat_bind with (Q := fun _ : unit => present p);
          [ solve [leaves_present p]
          | intros _;
            lazymatch goal with
            | |- Triple.sat ?E ?W ?P ?k _ => change (Triple.keeps E W P k)
            end;
            sh_walk present_leaf ]
        | apply sat_bind with (Q := fun (_ : unit) (_ : state) => True);
          [ lazymatch goal with
            | |- Triple.sat ?E ?W ?P ?k _ => change (Triple.keeps E W P k)
            end;
            sh_walk any_leaf
          | intros _; leaves_present p ] ]
  end.

Local Ltac target_present :=
  lazymatch goal with
  | |- Triple.sat _ _ _ _ (fun _ => present ?p) => leaves_present p
  end.

Lemma metronic_leaves_present (p : string) (fuel : nat) :
  In p metronic_targets -> tools_keep_present w p ->
  sat whatever anyhow anyhow (setup_metronic heredoc w fuel) (fun _ => present p).
Proof.
  intros Hin Hkeep. unfold metronic_targets in Hin. cbn [In] in Hin.
  unfold setup_metronic.
  repeat (destruct Hin as [<- | Hin]; [target_present |]).
  contradiction.
Qed.

Lemma plain_leaves_present (p : string) (fuel : nat) :
  In p plain_targets -> tools_keep_present w p ->
  sat whatever anyhow anyhow (setup_plain heredoc w fuel) (fun _ => present p).
Proof.
  intros Hin Hkeep. unfold plain_targets in Hin. cbn [In] in Hin.
  unfold setup_plain.
  repeat (destruct Hin as [<- | Hin]; [target_present |]).
  contradiction.
Qed.

End Completed.

(** X7.  Running [setup.sh] again writes nothing.  For the themed and the
    plain script, as long as the external programs do not delete the files
    the script creates: a run that completes leaves every such file present,
    and a later run from there, in whatever environment and however it ends,
    adds no write of a here-document to the log. *)
Theorem setup_twice_writes_once (heredoc : template -> string) (w w' : world)
    (v : variant) (fuel fuel' : nat) (s s1 : state) :
  v <> Embedded ->
  (forall p, In p (targets v) -> tools_keep_present w p) ->
  (forall p, In p (targets v) -> tools_keep_present w' p) ->
  setup heredoc w v fuel s = (Next tt, s1) ->
  Forall (fun p => present p s1) (targets v) /\
  filter is_write (log (snd (setup heredoc w' v fuel' s1))) = filter is_write (log s1).
Proof.
  intros Hv Hkeep Hkeep' Hrun.
  assert (Hpresent : Forall (fun p => present p s1) (targets v)).
  { apply List.Forall_forall. intros p Hin.
    destruct v; [| contradiction |]; cbn [setup targets] in *.
    - pose proof (metronic_leaves_present heredoc w p fuel Hin (Hkeep p Hin) s I) as H.
      rewrite Hrun in H. exact H.
    - pose proof (plain_leaves_present heredoc w p fuel Hin (Hkeep p Hin) s I) as H.
      rewrite Hrun in H. exact H. }
  split; [exact Hpresent |].
  destruct v; [| contradiction |]; cbn [setup targets] in *.
  - pose proof (metronic_settled heredoc w' metronic_targets Hkeep'
                  (filter is_write (log s1)) fuel' eq_refl s1
                  (conj Hpresent eq_refl)) as H.
    destruct (setup_metronic heredoc w' fuel' s1) as [[[] | c |] s2];
      cbn [snd]; apply H.
  - pose proof (plain_settled heredoc w' plain_targets Hkeep'
                  (filter is_write (log s1)) fuel' eq_refl s1
                  (conj Hpresent eq_refl)) as H.
    destruct (setup_plain heredoc w' fuel' s1) as [[[] | c |] s2];
      cbn [snd]; apply H.
Qed.

Lemma setup_twice_writes_once_witness :
  let s1 := snd (setup Sample.text (Sample.up_after 1) Plain 5 Sample.empty_state) in
  Forall (fun p => present p s1) (targets Plain) /\
  filter is_write (log (snd (setup Sample.text (Sample.up_after 0) Plain 1 s1)))
  = filter is_write (log s1).
Proof.
  apply (setup_twice_writes_once Sample.text (Sample.up_after 1) (Sample.up_after 0)
           Plain 5 1 Sample.empty_state).
  - discriminate.
  - intros p _ t s H. exact H.
  - intros p _ t s H. exact H.
  - vm_compute. reflexivity.
Defined.

End FurtherRerunFacts.

(** ** A stage that failed is not run again *)

Module FurtherRetryFacts.
Import Shell Observe Triple ShellLogic Further.

Lemma wrote_snoc (p : string) (l : list event) (e : event) :
  wrote p (l ++ [e]) = wrote p l || wrote p [e].
Proof. unfold wrote. apply existsb_app. Qed.

Section Written.

Variable heredoc : template -> string.
Variable w : world.
Variable p : string.
Hypothesis keep : tools_keep_present w p.

(** What the script wrote to [p] is there. *)
Local Abbreviation written :=
  (fun s : state => wrote p (log s) = true -> present p s).

Lemma written_after_write (s : state) (q : string) (t : template) :
  written s ->
  written (State (<[q := heredoc t]> (files s)) (dirs s) (log s ++ [Write q t])).
Proof.
  intros H. cbn [log]. rewrite wrote_snoc. unfold present. cbn [files].
  destruct (decide (q = p)) as [-> | Hne].
  - intros _. rewrite lookup_insert_eq. eauto.
  - intros Hw. rewrite lookup_insert_ne by exact Hne. apply H.
    apply orb_true_iff in Hw as [Hw | Hw]; [exact Hw |].
    cbn in Hw. rewrite orb_false_r in Hw. apply String.eqb_eq in Hw. contradiction.
Qed.

Local Ltac written_leaf :=
  first
    [ let s := fresh "s" in let k := fresh "k" in
      let f := fresh "f" in let d := fresh "d" in
      let H := fresh "H" in let He := fresh "He" in
      let Hk := fresh "Hk" in
      intros s k f d H He;
      match type of He with
      | exec _ ?t _ = _ => pose proof (keep t s) as Hk; rewrite He in Hk
      end;
      destruct (k =? 0); cbn [log]; rewrite wrote_snoc, orb_false_r;
      intros Hw; exact (Hk (H Hw))
    | let s := fresh "s" in let H := fresh "H" in
      intros s H; apply written_after_write; exact H
    | intros; unfold emit in *; cbn [log files] in *;
      rewrite wrote_snoc, orb_false_r in *; solve [auto]
    | intros; solve [auto] ].

Lemma setup_written (v : variant) (fuel : nat) :
  keeps (fun _ => written) written written (setup heredoc w v fuel).
Proof. sh_walk written_leaf. Qed.

End Written.

(** X8.  A schema stage that failed is not run again.  In a run started by
    a new process that wrote prisma/schema.prisma (so it entered the stage,
    whatever happened next: a failed client generation, push or seed ends
    the script there), the descriptor is left behind; a later run of any of
    the three scripts therefore skips the whole stage, and adds neither a
    push nor a seed execution to what the first run did.  External programs
    are taken not to remove the descriptor. *)
Theorem failed_stage_is_not_retried
    (heredoc heredoc' : template -> string) (w w' : world) (v v' : variant)
    (fuel fuel' : nat) (s : state) :
  log s = [] ->
  tools_keep_present w "prisma/schema.prisma" ->
  tools_keep_present w' "prisma/schema.prisma" ->
  let r := setup heredoc w v fuel s in
  wrote "prisma/schema.prisma" (log (snd r)) = true ->
  present "prisma/schema.prisma" (snd r)
  /\ filter is_schema_step (log (snd (setup heredoc' w' v' fuel' (snd r))))
     = filter is_schema_step (log (snd r)).
Proof.
  intros Hlog Hkeep Hkeep'. cbv zeta. intros Hw.
  assert (Hpresent : present "prisma/schema.prisma" (snd (setup heredoc w v fuel s))).
  { assert (H0 : wrote "prisma/schema.prisma" (log s) = true ->
                 present "prisma/schema.prisma" s)
      by (rewrite Hlog; discriminate).
    pose proof (setup_written heredoc w _ Hkeep v fuel s H0) as H.
    destruct (setup heredoc w v fuel s) as [[a | k |] s1]; exact (H Hw). }
  split; [exact Hpresent |].
  pose proof (SchemaStageFacts.setup_skips_stage heredoc' w' _ Hkeep' v' fuel'
                (snd (setup heredoc w v fuel s)) (conj Hpresent eq_refl)) as H.
  destruct (setup heredoc' w' v' fuel' _) as [[a | k |] s2]; exact (proj2 H).
Qed.

Lemma failed_stage_is_not_retried_witness :
  let r := setup Sample.text (Sample.fails_at PrismaDbPush) Metronic 1
             Sample.empty_state in
  present "prisma/schema.prisma" (snd r)
  /\ filter is_schema_step
       (log (snd (setup Sample.text (Sample.up_after 0) Metronic 1 (snd r))))
     = filter is_schema_step (log (snd r)).
Proof.
  apply (failed_stage_is_not_retried Sample.text Sample.text
           (Sample.fails_at PrismaDbPush) (Sample.up_after 0) Metronic Metronic
           1 1 Sample.empty_state).
  - reflexivity.
  - intros t s H. exact H.
  - intros t s H. exact H.
  - vm_compute. reflexivity.
Defined.

End FurtherRetryFacts.

(** ** A failing seed ends the run before the application files *)

Module FurtherSeedFacts.
Import Shell Observe Triple ShellLogic Further.

Section Failing.

Variable heredoc : template -> string.
Variable w : world.
Hypothesis fails : seed_fails w.

(** Up to the end of the stage: nothing but early files written, and the
    seed not run. *)
Local Abbreviation early :=
  (fun s : state => filter is_late_write (log s) = []
                    /\ forall c, ~ In (Run NpmRunDbSeed c) (log s)).
Local Abbreviation unseeded :=
  (fun s : state => forall c, ~ In (Run NpmRunDbSeed c) (log s)).
Local Abbreviation stopped :=
  (fun (c : Z) (s : state) =>
     c <> 0
     /\ ((exists k, In (Run NpmRunDbSeed k) (log s)) ->
         filter is_late_write (log s) = [])).

Lemma not_in_snoc (l : list event) (e : event) (t : tool) :
  (forall c, ~ In (Run t c) l) -> (forall c, e <> Run t c) ->
  forall c, ~ In (Run t c) (l ++ [e]).
Proof.
  intros Hl He c Hin. apply in_app_or in Hin as [Hin | [Hin | []]].
  - exact (Hl c Hin).
  - exact (He c Hin).
Qed.

Local Ltac early_leaf :=
  first
    [ (* the seed command: it fails *)
      let s := fresh "s" in let k := fresh "k" in
      let f := fresh "f" in let d := fresh "d" in
      let HI := fresh "HI" in let He := fresh "He" in
      let Hk := fresh "Hk" in
      intros s k f d HI He;
      match type of He with
      | exec _ NpmRunDbSeed _ = _ => idtac
      end;
      pose proof (fails s) as Hk; rewrite He in Hk; cbn [fst] in Hk;
      destruct (k =? 0) eqn:Hz; [apply Z.eqb_eq in Hz; contradiction |];
      split; [exact Hk | intros _];
      cbn [log]; rewrite StrictFacts.filter_snoc_false; [apply HI | reflexivity]
    | (* another external program *)
      let s := fresh "s" in let k := fresh "k" in
      let f := fresh "f" in let d := fresh "d" in
      let HI := fresh "HI" in let He := fresh "He" in
      intros s k f d HI He;
      destruct (k =? 0) eqn:Hz; cbn [log]; split;
      first [ rewrite StrictFacts.filter_snoc_false; [apply HI | reflexivity]
            | apply not_in_snoc; [apply HI | intros ?; discriminate]
            | apply Z.eqb_neq; exact Hz
            | intros _; rewrite StrictFacts.filter_snoc_false;
              [apply HI | reflexivity] ]
    | (* a here-document that is refused *)
      let s := fresh "s" in let HI := fresh "HI" in
      intros s HI _; split; [discriminate | intros _];
      unfold emit; cbn [log];
      rewrite StrictFacts.filter_snoc_false; [apply HI | reflexivity]
    | let s := fresh "s" in let HI := fresh "HI" in
      intros s HI; exact (proj2 HI)
    | intros; unfold emit; cbn [log]; split;
      first [ rewrite StrictFacts.filter_snoc_false;
              [match goal with H : _ /\ _ |- _ => apply H end | reflexivity]
            | apply not_in_snoc;
              [match goal with H : _ /\ _ |- _ => apply H end
              | intros ?; discriminate] ] ].

Local Ltac unseeded_leaf :=
  first
    [ (* a here-document that is refused: the seed has not run *)
      let s := fresh "s" in let HI := fresh "HI" in
      let k := fresh "k" in let Hin := fresh "Hin" in
      intros s HI _; split; [discriminate |];
      intros [k Hin]; exfalso; unfold emit in Hin; cbn [log] in Hin;
      apply in_app_or in Hin as [Hin | [Hin | []]];
      [exact (HI k Hin) | discriminate Hin]
    | intros; unfold emit; cbn [log];
      first [ assumption
            | apply not_in_snoc; [assumption | intros ?; discriminate] ] ].

(** Walks the script up to the stage with [early], the stage itself, and the
    rest, where no external program is run, with [unseeded]. *)
Local Ltac to_stage :=
  cbv beta;
  lazymatch goal with
  | |- Triple.sat ?E ?W _ (mbind _ (initialize_prisma _ _ _ _)) _ =>
      apply sat_bind with (Q := fun _ : unit => early);
      [ lazymatch goal with
        | |- Triple.sat _ _ _ ?m _ => change (Triple.keeps E W early m)
        end;
        sh_walk early_leaf
      | intros _;
        apply sat_weaken with (P' := unseeded) (Q' := fun _ : unit => unseeded);
        [ lazymatch goal with
          | |- Triple.sat _ _ _ ?m _ => change (Triple.keeps E W unseeded m)
          end;
          sh_walk unseeded_leaf
        | intros ? HI; exact (proj2 HI)
        | intros ? ? HI; exact HI ] ]
  | |- Triple.sat ?E ?W _ (mbind _ ?m) _ =>
      apply sat_bind with (Q := fun _ : unit => early);
      [ change (Triple.keeps E W early m); sh_walk early_leaf
      | intros _; to_stage ]
  end.

Lemma setup_stops_at_seed (v : variant) (fuel : nat) :
  sat stopped unseeded early (setup heredoc w v fuel) (fun _ => unseeded).
Proof. destruct v; cbn [setup]; unfold setup_metronic, setup_embedded, setup_plain; to_stage. Qed.

End Failing.

(** X9.  A failing seed ends the run before any application file is
    written.  In a run started by a new process in which the seed command
    fails whenever it is run: if the seed command was run, the script was
    ended by it with a non-zero status, and every here-document written by
    the run went to package.json, .env, .env.example, prisma/schema.prisma
    or prisma/seed.ts; the client accessor, the health route and the other
    application files were not written. *)
Theorem failed_seed_leaves_no_scaffold
    (heredoc : template -> string) (w : world) (v : variant) (fuel : nat)
    (s : state) (c : Z) :
  log s = [] ->
  seed_fails w ->
  let r := setup heredoc w v fuel s in
  In (Run NpmRunDbSeed c) (log (snd r)) ->
  (exists k, fst r = Abort k /\ k <> 0)
  /\ filter is_late_write (log (snd r)) = [].
Proof.
  intros Hlog Hfails. cbv zeta. intros Hin.
  assert (H0 : filter is_late_write (log s) = []
               /\ forall c, ~ In (Run NpmRunDbSeed c) (log s))
    by (rewrite Hlog; split; [reflexivity | intros ? []]).
  pose proof (setup_stops_at_seed heredoc w Hfails v fuel s H0) as H.
  destruct (setup heredoc w v fuel s) as [[a | k |] s1]; cbn [fst snd] in *.
  - exfalso. exact (H c Hin).
  - split; [exists k; split; [reflexivity | apply H] |].
    apply H. exists c. exact Hin.
  - exfalso. exact (H c Hin).
Qed.

Lemma failed_seed_leaves_no_scaffold_witness :
  let r := setup Sample.text (Sample.fails_at NpmRunDbSeed) Plain 1
             Sample.empty_state in
  (exists k, fst r = Abort k /\ k <> 0)
  /\ filter is_late_write (log (snd r)) = [].
Proof.
  apply (failed_seed_leaves_no_scaffold Sample.text (Sample.fails_at NpmRunDbSeed)
           Plain 1 Sample.empty_state 1).
  - reflexivity.
  - intros s. cbn. discriminate.
  - vm_compute. tauto.
Defined.

End FurtherSeedFacts.

(** ** The copy of [setup.sh] installed by quick-setup.sh *)

Module FurtherEmbeddedFacts.
Import Shell Observe Triple ShellLogic Further.

Local Abbreviation whatever := (fun (_ : Z) (_ : state) => True).
Local Abbreviation anyhow := (fun _ : state => True).

(** Two sequences agree from the states of [I] when their first commands
    do, the first command keeps [I], and what follows agrees. *)
Lemma bind_agree {A B} (I : state -> Prop) (m m' : sh A) (f g : A -> sh B) :
  (forall s, I s -> m s = m' s) ->
  keeps whatever anyhow I m' ->
  (forall a s, I s -> f a s = g a s) ->
  forall s, I s -> (m ≫= f) s = (m' ≫= g) s.
Proof.
  intros Hm Hk Hf s HI. rewrite !bind_unfold, (Hm s HI).
  specialize (Hk s HI). destruct (m' s) as [[a | c |] s']; [| reflexivity ..].
  apply Hf, Hk.
Qed.

Section SrcLayout.

Variable heredoc : template -> string.
Variable w : world.
Hypothesis keep_src : tools_keep_dir_present w "src".
Hypothesis keep_app : tools_keep_dir_present w "src/app".

Local Abbreviation src_layout :=
  (fun s : state => "src" ∈ dirs s /\ "src/app" ∈ dirs s).

Local Ltac layout_leaf :=
  first
    [ let s := fresh "s" in let k := fresh "k" in
      let f := fresh "f" in let d := fresh "d" in
      let HI := fresh "HI" in let He := fresh "He" in
      let H1 := fresh "H" in let H2 := fresh "H" in
      intros s k f d HI He;
      match type of He with
      | exec _ ?t _ = _ =>
          pose proof (keep_src t s (proj1 HI)) as H1;
          pose proof (keep_app t s (proj2 HI)) as H2;
          rewrite He in H1, H2
      end;
      destruct (k =? 0); [split; assumption | exact I]
    | intros; unfold emit; cbn [dirs];
      first [ assumption
            | exact I
            | match goal with
              | H : _ /\ _ |- _ => destruct H; split; apply elem_of_union; left; assumption
              end ] ].

Local Ltac agree_step :=
  apply bind_agree;
  [ let s := fresh "s" in let HI := fresh "HI" in
    intros s HI;
    first [ reflexivity
          | unfold with_var, lib_dir, api_dir, test_d;
            rewrite !bool_decide_eq_true_2 by apply HI; reflexivity ]
  | sh_walk layout_leaf
  | intros _ ].

Lemma embedded_is_themed (fuel : nat) (s : state) :
  "src" ∈ dirs s /\ "src/app" ∈ dirs s ->
  setup_embedded heredoc w fuel s = setup_metronic heredoc w fuel s.
Proof.
  revert s. unfold setup_embedded, setup_metronic.
  repeat agree_step. reflexivity.
Qed.

End SrcLayout.

Section Bare.

Variable heredoc : template -> string.
Variable w : world.
Hypothesis tools : tools_leave_bare w.

Lemma create_when_absent (dir path : string) (t : template) (s : state) :
  parent path = Some dir -> In dir (dir_chain "" dir) ->
  files s !! path = None ->
  if_then (not_ (test_f path)) (mkdir_p dir;; cat_to heredoc path t) s
  = (Next tt,
     State (<[path := heredoc t]> (files s))
           (dirs s ∪ list_to_set (dir_chain "" dir))
           ((log s ++ [Mkdir dir]) ++ [Write path t])).
Proof.
  intros Hd Hin Hp. unfold if_then, not_, test_f.
  rewrite bool_decide_eq_false_2 by (rewrite Hp; intros [x Hx]; discriminate Hx).
  cbn [negb]. rewrite bind_unfold. cbn [mkdir_p]. unfold cat_to.
  rewrite (writable_in path dir); [reflexivity | exact Hd |].
  cbn [dirs]. apply elem_of_union. right.
  apply elem_of_list_to_set, list_elem_of_In. exact Hin.
Qed.

Lemma not_in_chain (d dir : string) (ds : gset string) :
  d ∉ ds -> ~ In d (dir_chain "" dir) -> d ∉ ds ∪ list_to_set (dir_chain "" dir).
Proof.
  intros Hd Hc Hin. apply elem_of_union in Hin as [Hin | Hin]; [exact (Hd Hin) |].
  apply elem_of_list_to_set, list_elem_of_In in Hin. exact (Hc Hin).
Qed.

Lemma in_chain (d dir : string) (ds : gset string) :
  In d (dir_chain "" dir) -> d ∈ ds ∪ list_to_set (dir_chain "" dir).
Proof.
  intros Hc. apply elem_of_union. right.
  apply elem_of_list_to_set, list_elem_of_In. exact Hc.
Qed.

Local Ltac not_listed :=
  let H := fresh "H" in
  vm_compute; intros H;
  repeat (destruct H as [H | H]; [discriminate H |]); exact H.

Local Ltac bare_leaf :=
  first
    [ let s := fresh "s" in let k := fresh "k" in
      let f := fresh "f" in let d := fresh "d" in
      let HI := fresh "HI" in let He := fresh "He" in
      let K1 := fresh "K" in let K2 := fresh "K" in let K3 := fresh "K" in
      let K4 := fresh "K" in let K5 := fresh "K" in let K6 := fresh "K" in
      intros s k f d HI He;
      destruct (k =? 0); [| exact I];
      match type of He with
      | exec _ ?t _ = _ =>
          pose proof (proj1 tools t s) as K1;
          pose proof (proj1 (proj2 tools) t s) as K2;
          pose proof (proj1 (proj2 (proj2 tools)) t s) as K3;
          pose proof (proj1 (proj2 (proj2 (proj2 tools))) t s
                        (proj1 (proj2 (proj2 (proj2 HI))))) as K4;
          pose proof (proj1 (proj2 (proj2 (proj2 (proj2 tools)))) t s
                        (proj1 (proj2 (proj2 (proj2 (proj2 HI)))))) as K5;
          pose proof (proj2 (proj2 (proj2 (proj2 (proj2 tools)))) t s
                        (proj2 (proj2 (proj2 (proj2 (proj2 HI)))))) as K6;
          rewrite He in K1, K2, K3, K4, K5, K6
      end;
      cbn [fst snd] in *; unfold bare; cbn [files dirs];
      rewrite K1, K2, K3; repeat split; first [assumption | apply HI]
    | intros; unfold emit, bare in *; cbn [files dirs] in *;
      first
        [ assumption
        | exact I
        | match goal with
          | H : _ /\ _ |- _ =>
              destruct H as (? & ? & ? & ? & ? & ?);
              rewrite ?lookup_insert_ne by discriminate;
              repeat split;
              first [ assumption | apply not_in_chain; [assumption | not_listed] ]
          end ] ].

(** Started in a bare tree, the script puts the accessor under [lib] and
    the route under [src/app/api/health], which creates [src]. *)
Lemma bare_run (fuel : nat) :
  sat whatever anyhow bare (setup_embedded heredoc w fuel)
      (fun _ s => "src" ∈ dirs s
                  /\ files s !! "src/lib/prisma.ts" = None
                  /\ In (Write "lib/prisma.ts" TPrismaTs) (log s)).
Proof.
  unfold setup_embedded.
  do 6 (sh_keep bare bare_leaf).
  apply sat_bind with
    (Q := fun (_ : unit) s =>
            ("src/app" ∉ dirs s) /\ ("app" ∉ dirs s)
            /\ files s !! "src/lib/prisma.ts" = None
            /\ files s !! "src/app/api/health/route.ts" = None
            /\ In (Write "lib/prisma.ts" TPrismaTs) (log s)).
  { intros s (H1 & H2 & H3 & H4 & H5 & H6). unfold with_var, lib_dir, test_d.
    rewrite bool_decide_eq_false_2 by exact H1.
    change ("lib" ++ "/prisma.ts")%string with "lib/prisma.ts".
    rewrite create_when_absent by first [exact H4 | reflexivity | (vm_compute; tauto)].
    cbn [files dirs log].
    rewrite !lookup_insert_ne by discriminate.
    repeat split; try assumption;
      first [ apply not_in_chain; [assumption | not_listed]
            | apply in_or_app; right; left; reflexivity ]. }
  intros _.
  apply sat_bind with
    (Q := fun (_ : unit) s =>
            "src" ∈ dirs s
            /\ files s !! "src/lib/prisma.ts" = None
            /\ In (Write "lib/prisma.ts" TPrismaTs) (log s)).
  { intros s (H2 & H3 & H5 & H6 & Hl). unfold with_var, api_dir, test_d.
    rewrite !bool_decide_eq_false_2 by assumption.
    change ("src/app/api/health" ++ "/route.ts")%string
      with "src/app/api/health/route.ts".
    rewrite create_when_absent by first [exact H6 | reflexivity | (vm_compute; tauto)].
    cbn [files dirs log].
    rewrite lookup_insert_ne by discriminate.
    split; [apply in_chain; vm_compute; tauto |].
    split; [exact H5 |].
    apply in_or_app; left. apply in_or_app; left. exact Hl. }
  intros _.
  lazymatch goal with
  | |- Triple.sat ?E ?W ?P ?m _ => change (Triple.keeps E W P m)
  end.
  apply keeps_echo_all. intros line s (H1 & H2 & H3). unfold emit. cbn [files dirs log].
  repeat split; [assumption | assumption | apply in_or_app; left; exact H3].
Qed.

Local Ltac grown_leaf :=
  first
    [ let s := fresh "s" in let k := fresh "k" in
      let f := fresh "f" in let d := fresh "d" in
      let HI := fresh "HI" in let He := fresh "He" in
      let K1 := fresh "K" in let K5 := fresh "K" in
      intros s k f d HI He;
      destruct (k =? 0); [| exact I];
      match type of He with
      | exec _ ?t _ = _ =>
          pose proof (proj1 tools t s) as K1;
          pose proof (proj1 (proj2 (proj2 (proj2 (proj2 tools)))) t s (proj2 HI)) as K5;
          rewrite He in K1, K5
      end;
      cbn [fst snd] in *; cbn [files dirs];
      split; [apply K1; exact (proj1 HI) | exact K5]
    | intros; unfold emit in *; cbn [files dirs] in *;
      first
        [ assumption
        | exact I
        | match goal with
          | H : _ /\ _ |- _ =>
              destruct H as (? & ?);
              rewrite ?lookup_insert_ne by discriminate;
              split; [first [assumption | apply elem_of_union; left; assumption]
                     | assumption]
          end ] ].

Local Ltac logged_leaf :=
  first [ let s := fresh "s" in let k := fresh "k" in
          let f := fresh "f" in let d := fresh "d" in
          let HI := fresh "HI" in
          intros s k f d HI _; destruct (k =? 0); [| exact I];
          cbn [log]; apply in_or_app; left; exact HI
        | intros; unfold emit; cbn [log];
          first [ assumption | exact I | apply in_or_app; left; assumption ] ].

(** Started where [src] exists and there is no accessor under it, the
    script puts one under [src/lib]. *)
Lemma grown_run (fuel : nat) :
  sat whatever anyhow
      (fun s => "src" ∈ dirs s /\ files s !! "src/lib/prisma.ts" = None)
      (setup_embedded heredoc w fuel)
      (fun _ s => In (Write "src/lib/prisma.ts" TPrismaTs) (log s)).
Proof.
  unfold setup_embedded.
  do 6 (sh_keep (fun s : state => "src" ∈ dirs s
                                  /\ files s !! "src/lib/prisma.ts" = None)
                grown_leaf).
  apply sat_bind with
    (Q := fun (_ : unit) s => In (Write "src/lib/prisma.ts" TPrismaTs) (log s)).
  { intros s (H1 & H5). unfold with_var, lib_dir, test_d.
    rewrite bool_decide_eq_true_2 by exact H1.
    change ("src/lib" ++ "/prisma.ts")%string with "src/lib/prisma.ts".
    rewrite create_when_absent by first [exact H5 | reflexivity | (vm_compute; tauto)].
    cbn [log].
    apply in_or_app; right; left; reflexivity. }
  intros _.
  lazymatch goal with
  | |- Triple.sat ?E ?W ?P ?m _ => change (Triple.keeps E W P m)
  end.
  sh_walk logged_leaf.
Qed.

End Bare.

(** X10.  In a project with the directories [src] and [src/app], which no
    external program removes, the [setup.sh] that quick-setup.sh installs
    does what the themed [setup.sh] does: same outcome, same files, same
    log. *)
Theorem embedded_setup_agrees_with_themed
    (heredoc : template -> string) (w : world) (fuel : nat) (s : state) :
  "src" ∈ dirs s -> "src/app" ∈ dirs s ->
  tools_keep_dir_present w "src" -> tools_keep_dir_present w "src/app" ->
  setup heredoc w Embedded fuel s = setup heredoc w Metronic fuel s.
Proof.
  intros Hsrc Happ Hk1 Hk2. cbn [setup].
  apply embedded_is_themed; [exact Hk1 | exact Hk2 | split; assumption].
Qed.

Lemma embedded_setup_agrees_with_themed_witness :
  let s := State ∅ {[ "src"; "src/app" ]} [] in
  setup Sample.text (Sample.up_after 1) Embedded 3 s
  = setup Sample.text (Sample.up_after 1) Metronic 3 s.
Proof.
  apply (embedded_setup_agrees_with_themed Sample.text (Sample.up_after 1) 3
           (State ∅ {[ "src"; "src/app" ]} [])).
  - cbn [dirs]. set_solver.
  - cbn [dirs]. set_solver.
  - intros t s H. destruct t; first [exact H | apply elem_of_union; left; exact H].
  - intros t s H. destruct t; first [exact H | apply elem_of_union; left; exact H].
Defined.

(** X11.  In a project with none of the directories [src], [src/app] and
    [app], the [setup.sh] that quick-setup.sh installs chooses [lib] for the
    client accessor and [src/app/api/health] for the route, and creating the
    route creates [src]; a second run therefore chooses [src/lib] and writes
    a second accessor there.  Both runs are taken to complete, and the
    external programs to create none of the directories and files
    concerned. *)
Theorem embedded_rerun_writes_second_accessor
    (heredoc heredoc' : template -> string) (w w' : world) (fuel fuel' : nat)
    (s s1 s2 : state) :
  bare s -> tools_leave_bare w -> tools_leave_bare w' ->
  setup heredoc w Embedded fuel s = (Next tt, s1) ->
  setup heredoc' w' Embedded fuel' s1 = (Next tt, s2) ->
  lib_dir s = "lib"
  /\ In (Write "lib/prisma.ts" TPrismaTs) (log s1)
  /\ lib_dir s1 = "src/lib"
  /\ In (Write "src/lib/prisma.ts" TPrismaTs) (log s2).
Proof.
  intros Hbare Htools Htools' Hrun1 Hrun2. cbn [setup] in *.
  pose proof (bare_run heredoc w Htools fuel s Hbare) as H1.
  rewrite Hrun1 in H1. destruct H1 as (Hsrc & Habsent & Hlib).
  pose proof (grown_run heredoc' w' Htools' fuel' s1 (conj Hsrc Habsent)) as H2.
  rewrite Hrun2 in H2.
  repeat split; [| exact Hlib | | exact H2]; unfold lib_dir, test_d.
  - rewrite bool_decide_eq_false_2 by apply Hbare. reflexivity.
  - rewrite bool_decide_eq_true_2 by exact Hsrc. reflexivity.
Qed.

Lemma embedded_rerun_writes_second_accessor_witness :
  let s1 := snd (setup Sample.text (Sample.up_after 0) Embedded 1 Sample.empty_state) in
  let s2 := snd (setup Sample.text (Sample.up_after 0) Embedded 1 s1) in
  lib_dir Sample.empty_state = "lib"
  /\ In (Write "lib/prisma.ts" TPrismaTs) (log s1)
  /\ lib_dir s1 = "src/lib"
  /\ In (Write "src/lib/prisma.ts" TPrismaTs) (log s2).
Proof.
  apply (embedded_rerun_writes_second_accessor Sample.text Sample.text
           (Sample.up_after 0) (Sample.up_after 0) 1 1 Sample.empty_state).
  - unfold bare. cbn [files dirs Sample.empty_state].
    repeat split; first [apply not_elem_of_empty | apply lookup_empty].
  - unfold tools_leave_bare, tools_keep_dir, tools_keep_absent.
    repeat split; intros;
      first [ assumption
            | match goal with
              | t : tool |- _ =>
                  destruct t; cbn [exec Sample.up_after Sample.leaves snd] in *;
                  first [ assumption
                        | apply elem_of_union; left; assumption
                        | match goal with
                          | H : _ ∈ _ ∪ _ |- _ =>
                              apply elem_of_union in H as [H | H];
                              [ exact H
                              | apply elem_of_singleton in H; discriminate H ]
                          end ]
              end ].
  - unfold tools_leave_bare, tools_keep_dir, tools_keep_absent.
    repeat split; intros;
      first [ assumption
            | match goal with
              | t : tool |- _ =>
                  destruct t; cbn [exec Sample.up_after Sample.leaves snd] in *;
                  first [ assumption
                        | apply elem_of_union; left; assumption
                        | match goal with
                          | H : _ ∈ _ ∪ _ |- _ =>
                              apply elem_of_union in H as [H | H];
                              [ exact H
                              | apply elem_of_singleton in H; discriminate H ]
                          end ]
              end ].
  - vm_compute. reflexivity.
  - vm_compute. reflexivity.
Defined.

End FurtherEmbeddedFacts.

(** ** The directories of the plain [setup.sh] *)

Module FurtherDirFacts.
Import Shell Observe Triple ShellLogic Further.

Local Abbreviation whatever := (fun (_ : Z) (_ : state) => True).
Local Abbreviation anyhow := (fun _ : state => True).

Lemma made_by_mkdir (d path : string) (s : state) :
  In d (dir_chain "" path) -> d ∈ dirs (snd (mkdir_p path s)).
Proof.
  intros Hc. cbn [mkdir_p snd dirs]. apply elem_of_union. right.
  apply elem_of_list_to_set, list_elem_of_In. exact Hc.
Qed.

Section Made.

Variable heredoc : template -> string.
Variable w : world.

Local Ltac any_leaf :=
  first [ let s := fresh "s" in let k := fresh "k" in
          let f := fresh "f" in let d := fresh "d" in
          intros s k f d _ _; destruct (k =? 0); exact I
        | intros; exact I ].

Local Ltac dir_leaf :=
  first [ let s := fresh "s" in let k := fresh "k" in
          let f := fresh "f" in let d := fresh "d" in
          intros s k f d _ _; destruct (k =? 0); exact I
        | intros; unfold emit; cbn [dirs];
          first [ assumption | exact I | apply elem_of_union; left; assumption ] ].

(** Finds the first [mkdir -p] that makes [d]; no external program runs
    after it. *)
Local Ltac makes d :=
  cbv beta;
  lazymatch goal with
  | |- Triple.sat ?E ?W _ (mbind _ (mkdir_p ?path)) _ =>
      first
        [ apply sat_bind with (Q := fun (_ : unit) (s : state) => d ∈ dirs s);
          [ let s := fresh "s" in
            intros s _; apply (made_by_mkdir d path s); vm_compute; tauto
          | intros _;
            lazymatch goal with
            | |- Triple.sat _ _ ?P ?k _ => change (Triple.keeps E W P k)
            end;
            sh_walk dir_leaf ]
        | apply sat_bind with (Q := fun (_ : unit) (_ : state) => True);
          [ intros ? _; exact I | intros _; makes d ] ]
  | |- Triple.sat ?E ?W _ (mbind _ ?m) _ =>
      apply sat_bind with (Q := fun (_ : unit) (_ : state) => True);
      [ change (Triple.keeps E W anyhow m); sh_walk any_leaf
      | intros _; makes d ]
  end.

Lemma plain_makes (d : string) (fuel : nat) :
  In d plain_dirs ->
  sat whatever anyhow anyhow (setup_plain heredoc w fuel) (fun _ s => d ∈ dirs s).
Proof.
  intros Hin. unfold plain_dirs in Hin. cbn [In] in Hin. unfold setup_plain.
  repeat (destruct Hin as [<- | Hin];
          [ lazymatch goal with
            | |- Triple.sat _ _ _ _ (fun _ s => ?d ∈ dirs s) => makes d
            end |]).
  contradiction.
Qed.

End Made.

(** X12.  A plain [setup.sh] that completes leaves the directories
    src/app/api/health, src/components/ui, src/lib and src/types and all
    their ancestors in place, whatever was there before and whatever the
    external programs did: the four [mkdir -p] are not guarded by a test
    and come after the last external program. *)
Theorem plain_setup_makes_directories
    (heredoc : template -> string) (w : world) (fuel : nat) (s s1 : state) :
  setup heredoc w Plain fuel s = (Next tt, s1) ->
  Forall (fun d => d ∈ dirs s1) plain_dirs.
Proof.
  intros Hrun. apply List.Forall_forall. intros d Hin. cbn [setup] in Hrun.
  pose proof (plain_makes heredoc w d fuel Hin s I) as H.
  rewrite Hrun in H. exact H.
Qed.

Lemma plain_setup_makes_directories_witness :
  Forall (fun d => d ∈ dirs (snd (setup Sample.text (Sample.up_after 2) Plain 4
                                    Sample.empty_state)))
         plain_dirs.
Proof.
  apply (plain_setup_makes_directories Sample.text (Sample.up_after 2) 4
           Sample.empty_state).
  vm_compute. reflexivity.
Defined.

End FurtherDirFacts.

(** ** The seed script, whatever the insertion does *)

Module FurtherSeedTsFacts.
Import Seed.

(** X13.  prisma/seed.ts attempts exactly one insertion, whatever it does.
    [prisma.$disconnect()] is called exactly when the insertion succeeded.
    The process ends with code 0 exactly when the insertion succeeded and
    the release of the connection did too, and with code 1 in every other
    case: a failed insertion (the handler of [catch] exits), or a rejected
    release after a successful insertion (a rejection nobody handles). *)
Theorem seed_outcome_follows_insertion
    (create : user_data -> option error) (data : user_data)
    (release : option error) :
  let r := run_seed create data release in
  (fst r = 0 <-> create data = None /\ release = None)
  /\ (fst r = 1 <-> create data <> None \/ release <> None)
  /\ (In Disconnect (snd r) <-> create data = None)
  /\ filter (fun e => match e with UserCreate _ => true | _ => false end) (snd r)
     = [UserCreate data].
Proof.
  cbv zeta. unfold run_seed, seed_ts, finally, catch, main, user_create, disconnect.
  destruct (create data) as [e |]; [| destruct release as [e |]]; vm_compute.
  - repeat split; try discriminate; try congruence.
    + intros [H _]. discriminate H.
    + intros _. left. discriminate.
    + intros H. repeat (destruct H as [H | H]; [discriminate H |]). contradiction.
  - repeat split; try discriminate; try congruence.
    + intros [_ H]. discriminate H.
    + intros _. right. discriminate.
    + intros _. tauto.
  - repeat split; try discriminate; try congruence.
    + intros [H | H]; congruence.
    + intros _. tauto.
Qed.

End FurtherSeedTsFacts.
